(** * LinkToQR: the short-code redirect service

    A shallow embedding of the two back ends of the repository:

    - [Express]: [server.js] on top of the better-sqlite3 prepared
      statements of [db.js] (module [Db]);
    - [Next]: the route handlers under [app/] on top of the libsql helper
      functions of [lib/db.js] (module [LibDb]).

    Tables are lists of rows in insertion order, handlers are functions from
    the request and the database to the new database and the response. *)

From Stdlib Require Import ZArith List String Ascii Bool Lia DecimalString.
From Stdlib Require Import Sorted Permutation.
Import ListNotations.
Open Scope string_scope.
Open Scope Z_scope.

(** ** JavaScript values as the handlers use them *)

(** Truthiness of a value that is a string, [null] or [undefined]. *)
Definition truthy (v : option string) : bool :=
  match v with
  | Some s => negb (String.eqb s "")
  | None => false
  end.

(** Truthiness of a number or [null]. *)
Definition truthy_num (v : option Z) : bool :=
  match v with
  | Some n => negb (n =? 0)
  | None => false
  end.

(** [a || null] on such a value. *)
Definition or_null (v : option string) : option string :=
  if truthy v then v else None.

(** A JavaScript number as far as [PLAN_LIMITS] needs it. *)
Inductive number :=
  | Num (n : Z)
  | Infinity.

(** [count >= limit] *)
Definition num_ge (count : Z) (limit : number) : bool :=
  match limit with
  | Num n => n <=? count
  | Infinity => false
  end.

(** Template-literal interpolation of a number. *)
Definition number_to_string (l : number) : string :=
  match l with
  | Num n => NilZero.string_of_int (Z.to_int n)
  | Infinity => "Infinity"
  end.

(** ** What the platform provides

    The URL parser, bcrypt, the [Date] constructor and the configuration are
    not code of this repository; the handlers are written against this
    interface. *)
Class Platform := {
  (** [new URL(s).protocol]; [None] when the constructor throws. *)
  URL : string -> option string;
  (** [bcrypt.hashSync(password, 10)] with the salt it draws. *)
  hashSync : string -> string -> string;
  (** [bcrypt.compareSync(plaintext, hash)] *)
  compareSync : string -> string -> bool;
  (** [new Date(text)] as a time value; [None] is an invalid date. *)
  Date_parse : string -> option Z;
  (** [date.toISOString()] *)
  toISOString : Z -> string;
  (** [process.env.BASE_URL] or its default. *)
  BASE_URL : string
}.

(** [new Date(text) < new Date()]: a comparison with an invalid date is
    false. *)
Definition date_before `{Platform} (text : string) (now : Z) : bool :=
  match Date_parse text with
  | Some t => t <? now
  | None => false
  end.

(** ** HTTP responses *)

Inductive json :=
  | JStr (s : string)
  | JNum (n : number)
  | JBool (b : bool)
  | JNull.

Inductive response :=
  | Json (status : Z) (payload : list (string * json))
  | SendFile (status : Z) (file : string)
  | Redirect (status : Z) (location : string).

Definition status_of (r : response) : Z :=
  match r with
  | Json s _ | SendFile s _ | Redirect s _ => s
  end.

(** The decoded token that [authRequired] / [getAuthUser] attach. *)
Record auth_user := { auth_id : Z; auth_email : string }.

(** ** The short-code generator *)

Definition base64url_alphabet : string :=
  "ABCDEFGHIJKLMNOPQRSTUVWXYZabcdefghijklmnopqrstuvwxyz0123456789-_".

Definition b64 (n : Z) : string :=
  match String.get (Z.to_nat n) base64url_alphabet with
  | Some c => String c ""
  | None => ""
  end.

(** [buffer.toString('base64url')] on a buffer given as its bytes. *)
Fixpoint base64url (bs : list Z) : string :=
  match bs with
  | [] => ""
  | [a] => b64 (Z.shiftr a 2) ++ b64 (Z.shiftl (Z.land a 3) 4)
  | [a; b] =>
      b64 (Z.shiftr a 2)
      ++ b64 (Z.lor (Z.shiftl (Z.land a 3) 4) (Z.shiftr b 4))
      ++ b64 (Z.shiftl (Z.land b 15) 2)
  | a :: b :: c :: rest =>
      b64 (Z.shiftr a 2)
      ++ b64 (Z.lor (Z.shiftl (Z.land a 3) 4) (Z.shiftr b 4))
      ++ b64 (Z.lor (Z.shiftl (Z.land b 15) 2) (Z.shiftr c 6))
      ++ b64 (Z.land c 63)
      ++ base64url rest
  end.

(** [nanoid(size)]: [crypto.randomBytes(size)] takes the next [size] bytes
    of the random source [rng]; the result is the code and what is left of
    the source. *)
Definition nanoid (size : nat) (rng : list Z) : string * list Z :=
  (substring 0 size (base64url (firstn size rng)), skipn size rng).

(** ** Tables *)

Section Sql.
Context {row : Type}.

(** [UPDATE t SET ... WHERE ...] *)
Definition sql_update (where_ : row -> bool) (set : row -> row)
    (t : list row) : list row :=
  map (fun r => if where_ r then set r else r) t.

(** [SELECT COUNT( * ) FROM t WHERE ...], also the number of rows an
    UPDATE with that WHERE clause reports as changed. *)
Definition sql_count (where_ : row -> bool) (t : list row) : Z :=
  Z.of_nat (List.length (filter where_ t)).

(** The first row of [SELECT * FROM t WHERE ...], if any. *)
Definition sql_first (where_ : row -> bool) (t : list row) : option row :=
  find where_ t.

(** [column = ?] on a TEXT column. *)
Definition key_is (column : row -> string) (k : string) (r : row) : bool :=
  String.eqb (column r) k.
End Sql.

(** [ORDER BY column DESC] on an INTEGER column. SQLite leaves the order of
    rows with equal values open; here they stay in the order of the
    table. *)
Section OrderBy.
Context {row : Type}.
Variable column : row -> Z.

Fixpoint insert_desc (x : row) (t : list row) : list row :=
  match t with
  | [] => [x]
  | y :: t' =>
      if column y <=? column x then x :: t else y :: insert_desc x t'
  end.

Definition order_by_desc (t : list row) : list row :=
  fold_right insert_desc [] t.
End OrderBy.

(** [column = ?] on an INTEGER column: a comparison with NULL on either
    side is not true. *)
Definition sql_eq (column arg : option Z) : bool :=
  match column, arg with
  | Some a, Some b => a =? b
  | _, _ => false
  end.

(** The next AUTOINCREMENT key of a table whose keys are [ids]. *)
Definition next_id (ids : list Z) : Z :=
  fold_right Z.max 0 ids + 1.

(** ** db.js: the better-sqlite3 database of the Express server *)

Module Db.

(** A row of [users]. *)
Record user := {
  u_id : Z;
  u_email : string;
  u_password : string;
  u_plan : string;
  u_created_at : Z
}.

(** A row of [qr_codes]. [created_at] and [last_scanned_at] hold the
    value of [datetime('now')], [expires_at] the text the client sent. *)
Record qr_code := {
  id : Z;
  short_code : string;
  destination_url : string;
  user_id : option Z;
  scan_count : Z;
  created_at : Z;
  last_scanned_at : option Z;
  expires_at : option string;
  password : option string;
  is_active : Z
}.

Record database := {
  users : list user;
  qr_codes : list qr_code
}.

Definition empty : database := {| users := []; qr_codes := [] |}.

Definition with_qr_codes (db : database) (t : list qr_code) : database :=
  {| users := users db; qr_codes := t |}.

Definition has_code (code : string) (r : qr_code) : bool :=
  String.eqb (short_code r) code.

(** [stmts.createQR.run(shortCode, url, userId, expiresAt, password)] at
    time [now]. [short_code] is UNIQUE: the insert throws ([None]) when a
    row has the code already; the other columns take their defaults. *)
Definition createQR (now : Z) (shortCode url : string) (userId : option Z)
    (expiresAt hashedPw : option string) (db : database) : option database :=
  if existsb (has_code shortCode) (qr_codes db) then None
  else Some (with_qr_codes db
    (qr_codes db ++
     [{| id := next_id (map id (qr_codes db));
         short_code := shortCode;
         destination_url := url;
         user_id := userId;
         scan_count := 0;
         created_at := now;
         last_scanned_at := None;
         expires_at := expiresAt;
         password := hashedPw;
         is_active := 1 |}])).

(** [stmts.findByCode.get(code)] *)
Definition findByCode (code : string) (db : database) : option qr_code :=
  sql_first (fun r => has_code code r && (is_active r =? 1)) (qr_codes db).

Definition scanned (now : Z) (r : qr_code) : qr_code :=
  {| id := id r;
     short_code := short_code r;
     destination_url := destination_url r;
     user_id := user_id r;
     scan_count := scan_count r + 1;
     created_at := created_at r;
     last_scanned_at := Some now;
     expires_at := expires_at r;
     password := password r;
     is_active := is_active r |}.

(** [stmts.incrementScan.run(code)] at time [now]: the new database and
    [changes]. *)
Definition incrementScan (now : Z) (code : string) (db : database)
    : database * Z :=
  (with_qr_codes db (sql_update (has_code code) (scanned now) (qr_codes db)),
   sql_count (has_code code) (qr_codes db)).

(** [stmts.getStats.get(code)] *)
Definition getStats (code : string) (db : database) : option qr_code :=
  sql_first (has_code code) (qr_codes db).

Definition owned_by (userId : option Z) (r : qr_code) : bool :=
  sql_eq (user_id r) userId.

(** [stmts.countUserQRs.get(userId).count] *)
Definition countUserQRs (userId : option Z) (db : database) : Z :=
  sql_count (owned_by userId) (qr_codes db).

Definition with_destination (url : string) (r : qr_code) : qr_code :=
  {| id := id r;
     short_code := short_code r;
     destination_url := url;
     user_id := user_id r;
     scan_count := scan_count r;
     created_at := created_at r;
     last_scanned_at := last_scanned_at r;
     expires_at := expires_at r;
     password := password r;
     is_active := is_active r |}.

(** [stmts.updateDestination.run(url, code, userId)] *)
Definition updateDestination (url code : string) (userId : option Z)
    (db : database) : database * Z :=
  let where_ r := has_code code r && owned_by userId r in
  (with_qr_codes db (sql_update where_ (with_destination url) (qr_codes db)),
   sql_count where_ (qr_codes db)).

Definition deactivated (r : qr_code) : qr_code :=
  {| id := id r;
     short_code := short_code r;
     destination_url := destination_url r;
     user_id := user_id r;
     scan_count := scan_count r;
     created_at := created_at r;
     last_scanned_at := last_scanned_at r;
     expires_at := expires_at r;
     password := password r;
     is_active := 0 |}.

(** [stmts.deleteQR.run(code, userId)] *)
Definition deleteQR (code : string) (userId : option Z) (db : database)
    : database * Z :=
  let where_ r := has_code code r && owned_by userId r in
  (with_qr_codes db (sql_update where_ deactivated (qr_codes db)),
   sql_count where_ (qr_codes db)).

(** [stmts.createUser.run(email, hashedPassword)] at time [now]: [email]
    is UNIQUE; the result carries [lastInsertRowid]. *)
Definition createUser (now : Z) (email hashedPassword : string)
    (db : database) : option (database * Z) :=
  if existsb (fun u => String.eqb (u_email u) email) (users db) then None
  else
    let rowid := next_id (map u_id (users db)) in
    Some ({| users := users db ++
               [{| u_id := rowid;
                   u_email := email;
                   u_password := hashedPassword;
                   u_plan := "free";
                   u_created_at := now |}];
             qr_codes := qr_codes db |}, rowid).

(** [stmts.findUserById.get(id)] *)
Definition findUserById (uid : Z) (db : database) : option user :=
  sql_first (fun u => u_id u =? uid) (users db).

(** The UNIQUE constraint on [short_code]. *)
Definition unique_codes (db : database) : Prop :=
  NoDup (map short_code (qr_codes db)).

(** [stmts.findUserByEmail.get(email)] *)
Definition findUserByEmail (email : string) (db : database) : option user :=
  sql_first (fun u => String.eqb (u_email u) email) (users db).

(** [stmts.getUserQRs.all(userId)]: every record of the owner, the
    deactivated ones too, newest first. *)
Definition getUserQRs (userId : option Z) (db : database) : list qr_code :=
  order_by_desc created_at (filter (owned_by userId) (qr_codes db)).

(** The UNIQUE constraint on [email]. *)
Definition unique_emails (db : database) : Prop :=
  NoDup (map u_email (users db)).

End Db.

(** ** Requests *)

(** The [Authorization] header after [jwt.verify]: absent (or not a Bearer
    token), a token that does not verify, or the decoded payload. *)
Inductive authorization :=
  | NoToken
  | BadToken
  | Token (u : auth_user).

(** The body of [POST /api/qr]. String lengths count characters of the
    model's strings, which is [url.length] on ASCII text. *)
Record create_body := {
  body_url : option string;
  body_expiresAt : option string;
  body_password : option string
}.

(** What a request reads from its surroundings: the clock, the random
    source behind [crypto.randomBytes] and the salt bcrypt draws. *)
Record env := {
  now : Z;
  rng : list Z;
  salt : string
}.

Definition error (status : Z) (message : string) : response :=
  Json status [("error", JStr message)].

(** [req.query.pw] as the query parser of Express gives it: no such
    parameter, a string, or an array or an object ([?pw=a&pw=b],
    [?pw[x]=1]), which is never falsy. *)
Inductive query_value :=
  | QAbsent
  | QText (s : string)
  | QNested.

(** [!providedPw] negated. *)
Definition query_truthy (v : query_value) : bool :=
  match v with
  | QAbsent => false
  | QText s => truthy (Some s)
  | QNested => true
  end.

(** [url.searchParams.get('pw')] is a string or [null]: the same as a
    query value. *)
Definition query_text (v : option string) : query_value :=
  match v with
  | Some s => QText s
  | None => QAbsent
  end.

(** The [password] member of the body of a signup or login request:
    absent or [null], a string, or a value of another type (a number, a
    boolean, an array, an object). Of such a value the handlers read
    whether it is truthy and whether [password.length < 6] holds;
    [bcrypt.hashSync] and [bcrypt.compareSync] throw on it. *)
Inductive secret :=
  | NoSecret
  | Secret (s : string)
  | NotText (is_truthy is_short : bool).

(** The body of the signup and login requests; the email is a string or
    absent. *)
Record auth_body := {
  body_email : option string;
  body_secret : secret
}.

Unset Elimination Schemes.

(** JSON payloads with nested objects and arrays. *)
Inductive jvalue :=
  | VNull
  | VBool (b : bool)
  | VNum (n : Z)
  | VStr (s : string)
  | VArr (items : list jvalue)
  | VObj (fields : list (string * jvalue)).

Set Elimination Schemes.

(** The answer of a handler whose payload may be nested: a flat answer as
    before, or a status with a nested payload. *)
Inductive reply :=
  | Plain (r : response)
  | Nested (status : Z) (payload : jvalue).

Definition reply_status (r : reply) : Z :=
  match r with
  | Plain r => status_of r
  | Nested s _ => s
  end.

Definition json_of_text (v : option string) : json :=
  match v with
  | Some s => JStr s
  | None => JNull
  end.

Definition json_of_time (v : option Z) : json :=
  match v with
  | Some t => JNum (Num t)
  | None => JNull
  end.

Definition jvalue_of_text (v : option string) : jvalue :=
  match v with
  | Some s => VStr s
  | None => VNull
  end.

Definition jvalue_of_time (v : option Z) : jvalue :=
  match v with
  | Some t => VNum t
  | None => VNull
  end.

(** [jwt.sign({ id, email }, JWT_SECRET, { expiresIn: '7d' })] at a given
    time; like bcrypt, not code of this repository. *)
Class TokenIssuer := {
  jwt_sign : auth_user -> Z -> string
}.

(** ** server.js *)

Module Express.
Import Db.

Section Handlers.
Context `{Platform}.

(** [authOptional] / [authRequired]: the value of [req.user]. *)
Definition req_user (a : authorization) : option auth_user :=
match a with
| Token u => Some u
| _ => None
end.

Definition PLAN_LIMITS (plan : string) : option number :=
if String.eqb plan "free" then Some (Num 2)
else if String.eqb plan "pro" then Some (Num 50)
else if String.eqb plan "business" then Some Infinity
else None.

(** [PLAN_LIMITS[plan] || PLAN_LIMITS.free] *)
Definition limit_of (plan : string) : number :=
match PLAN_LIMITS plan with
| Some (Num 0) | None => Num 2
| Some l => l
end.

(** Lines 291-306 of [POST /api/qr]: generate, hash, insert, answer. *)
Definition insert_qr (userId : option Z) (url : string) (body : create_body)
  (e : env) (db : database) : database * response :=
let shortCode := fst (nanoid 8 (rng e)) in
let hashedPw :=
  match body_password body with
  | Some pw => if truthy (Some pw) then Some (hashSync pw (salt e)) else None
  | None => None
  end in
match createQR (now e) shortCode url userId
        (or_null (body_expiresAt body)) hashedPw db with
| None => (db, error 500 "Failed to create QR code")
| Some db' =>
    (db', Json 201 [("shortCode", JStr shortCode);
                    ("shortUrl", JStr (BASE_URL ++ "/r/" ++ shortCode));
                    ("destinationUrl", JStr url);
                    ("createdAt", JStr (toISOString (now e)))])
end.

(** [app.post('/api/qr', authOptional, ...)] *)
Definition post_api_qr (a : authorization) (body : create_body) (e : env)
  (db : database) : database * response :=
match body_url body with
| None => (db, error 400 "URL is required")
| Some url =>
if negb (truthy (Some url)) then (db, error 400 "URL is required")
else
match URL url with
| None => (db, error 400 "Invalid URL format")
| Some protocol =>
if negb (existsb (String.eqb protocol) ["http:"; "https:"])
then (db, error 400 "Only HTTP/HTTPS URLs are allowed")
else if Z.of_nat (String.length url) >? 2048
then (db, error 400 "URL too long (max 2048 chars)")
else
  let userId := option_map auth_id (req_user a) in
  match userId with
  | Some uid =>
    if truthy_num userId then
      match findUserById uid db with
      | None => (db, error 500 "Failed to create QR code")
      | Some user =>
        let count := countUserQRs userId db in
        let limit := limit_of (u_plan user) in
        if num_ge count limit then
          (db, Json 403
             [("error", JStr ("Free plan limit reached ("
                              ++ number_to_string limit
                              ++ " QR codes). Upgrade to Pro for more."));
              ("upgrade", JBool true)])
        else insert_qr userId url body e db
      end
    else insert_qr userId url body e db
  | None => insert_qr userId url body e db
  end
end
end.

(** [qr.expires_at && new Date(qr.expires_at) < new Date()] *)
Definition expired (qr : qr_code) (t : Z) : bool :=
match expires_at qr with
| Some text => truthy (Some text) && date_before text t
| None => false
end.

(** The password check of the redirect: [qr.password] is set and
  [!providedPw || !bcrypt.compareSync(providedPw, qr.password)].
  [bcrypt.compareSync] throws on a value that is not a string: [None]. *)
Definition password_missing (qr : qr_code) (providedPw : query_value)
  : option bool :=
match password qr with
| Some hash =>
    if truthy (Some hash) then
      if negb (query_truthy providedPw) then Some true
      else
        match providedPw with
        | QText pw => Some (negb (compareSync pw hash))
        | _ => None
        end
    else Some false
| None => Some false
end.

(** [app.get('/r/:code', ...)] with [req.query.pw]; the [catch] answers an
  exception with the 500. *)
Definition get_r (code : string) (pw : query_value) (e : env)
  (db : database) : database * response :=
match findByCode code db with
| None => (db, SendFile 404 "index.html")
| Some qr =>
    if expired qr (now e)
    then (db, error 410 "This QR code has expired")
    else
      match password_missing qr pw with
      | None => (db, error 500 "Server error")
      | Some true => (db, SendFile 200 "password.html")
      | Some false =>
          (fst (incrementScan (now e) code db),
           Redirect 302 (destination_url qr))
      end
end.

(** [authRequired]: the answer that ends the request, if any. *)
Definition authRequired (a : authorization) : response + auth_user :=
match a with
| NoToken => inl (error 401 "Authentication required")
| BadToken => inl (error 401 "Invalid or expired token")
| Token u => inr u
end.

(** [app.put('/api/qr/:code', authRequired, ...)] *)
Definition put_api_qr (a : authorization) (code : string)
  (url : option string) (db : database) : database * response :=
match authRequired a with
| inl r => (db, r)
| inr user =>
match url with
| None => (db, error 400 "New URL is required")
| Some url =>
if negb (truthy (Some url)) then (db, error 400 "New URL is required")
else
match URL url with
| None => (db, error 400 "Invalid URL format")
| Some _ =>
    let result := updateDestination url code (Some (auth_id user)) db in
    if snd result =? 0
    then (fst result, error 404 "QR code not found or not owned by you")
    else (fst result,
          Json 200 [("message", JStr "Destination updated");
                    ("shortCode", JStr code);
                    ("newUrl", JStr url)])
end
end
end.

(** [app.delete('/api/qr/:code', authRequired, ...)] *)
Definition delete_api_qr (a : authorization) (code : string)
  (db : database) : database * response :=
match authRequired a with
| inl r => (db, r)
| inr user =>
    let result := deleteQR code (Some (auth_id user)) db in
    if snd result =? 0
    then (fst result, error 404 "QR code not found or not owned by you")
    else (fst result, Json 200 [("message", JStr "QR code deactivated")])
end.

End Handlers.

Section Accounts.
Context `{Platform} `{TokenIssuer}.

(** [app.post('/api/auth/signup', ...)]. On a password that is not a
    string [bcrypt.hashSync] throws, and the [catch] answers the 500. *)
Definition post_signup (body : auth_body) (e : env) (db : database)
    : database * reply :=
  match body_email body, body_secret body with
  | Some email, Secret password =>
      if negb (truthy (Some email)) || negb (truthy (Some password))
      then (db, Plain (error 400 "Email and password are required"))
      else if Z.of_nat (String.length password) <? 6
      then (db, Plain (error 400 "Password must be at least 6 characters"))
      else
        match findUserByEmail email db with
        | Some _ => (db, Plain (error 409 "Email already registered"))
        | None =>
            let hashedPassword := hashSync password (salt e) in
            match createUser (now e) email hashedPassword db with
            | None => (db, Plain (error 500 "Failed to create account"))
            | Some (db', rowid) =>
                let token :=
                  jwt_sign {| auth_id := rowid; auth_email := email |} (now e) in
                (db', Nested 201
                        (VObj [("message", VStr "Account created");
                               ("token", VStr token);
                               ("user", VObj [("id", VNum rowid);
                                              ("email", VStr email);
                                              ("plan", VStr "free")])]))
            end
        end
  | Some email, NotText is_truthy is_short =>
      if negb (truthy (Some email)) || negb is_truthy
      then (db, Plain (error 400 "Email and password are required"))
      else if is_short
      then (db, Plain (error 400 "Password must be at least 6 characters"))
      else
        match findUserByEmail email db with
        | Some _ => (db, Plain (error 409 "Email already registered"))
        | None => (db, Plain (error 500 "Failed to create account"))
        end
  | _, _ => (db, Plain (error 400 "Email and password are required"))
  end.

(** [app.post('/api/auth/login', ...)]. On a password that is not a
    string [bcrypt.compareSync] throws, and the [catch] answers the 500. *)
Definition post_login (body : auth_body) (e : env) (db : database) : reply :=
  match body_email body, body_secret body with
  | Some email, Secret password =>
      if negb (truthy (Some email)) || negb (truthy (Some password))
      then Plain (error 400 "Email and password are required")
      else
        match findUserByEmail email db with
        | None => Plain (error 401 "Invalid email or password")
        | Some user =>
            if negb (compareSync password (u_password user))
            then Plain (error 401 "Invalid email or password")
            else
              let token :=
                jwt_sign {| auth_id := u_id user; auth_email := u_email user |}
                  (now e) in
              Nested 200
                (VObj [("token", VStr token);
                       ("user", VObj [("id", VNum (u_id user));
                                      ("email", VStr (u_email user));
                                      ("plan", VStr (u_plan user))])])
        end
  | Some email, NotText is_truthy _ =>
      if negb (truthy (Some email)) || negb is_truthy
      then Plain (error 400 "Email and password are required")
      else
        match findUserByEmail email db with
        | None => Plain (error 401 "Invalid email or password")
        | Some _ => Plain (error 500 "Login failed")
        end
  | _, _ => Plain (error 400 "Email and password are required")
  end.

(** [app.get('/api/auth/me', authRequired, ...)]: the row as
    [findUserById] selects it, without the password. *)
Definition get_me (a : authorization) (db : database) : reply :=
  match authRequired a with
  | inl r => Plain r
  | inr u =>
      match findUserById (auth_id u) db with
      | None => Plain (error 404 "User not found")
      | Some user =>
          Nested 200
            (VObj [("user", VObj [("id", VNum (u_id user));
                                  ("email", VStr (u_email user));
                                  ("plan", VStr (u_plan user));
                                  ("created_at", VNum (u_created_at user))])])
      end
  end.

End Accounts.

(** [app.get('/api/qr/:code/stats', ...)]: the columns that [getStats]
    selects. *)
Definition get_stats (code : string) (db : database) : response :=
  match getStats code db with
  | None => error 404 "QR code not found"
  | Some stats =>
      Json 200 [("short_code", JStr (short_code stats));
                ("destination_url", JStr (destination_url stats));
                ("scan_count", JNum (Num (scan_count stats)));
                ("created_at", JNum (Num (created_at stats)));
                ("last_scanned_at", json_of_time (last_scanned_at stats));
                ("expires_at", json_of_text (expires_at stats));
                ("is_active", JNum (Num (is_active stats)))]
  end.

(** A row of [getUserQRs] in the listing. *)
Definition listed (r : qr_code) : jvalue :=
  VObj [("short_code", VStr (short_code r));
        ("destination_url", VStr (destination_url r));
        ("scan_count", VNum (scan_count r));
        ("created_at", VNum (created_at r));
        ("last_scanned_at", jvalue_of_time (last_scanned_at r));
        ("expires_at", jvalue_of_text (expires_at r));
        ("is_active", VNum (is_active r))].

(** [limit === Infinity ? 'unlimited' : limit] *)
Definition shown_limit (limit : number) : jvalue :=
  match limit with
  | Infinity => VStr "unlimited"
  | Num n => VNum n
  end.

(** [app.get('/api/qr/my', authRequired, ...)]. The handler has no [try]:
    when the user row is missing, reading [user.plan] throws and the
    exception leaves the handler ([None]). *)
Definition get_my (a : authorization) (db : database) : option reply :=
  match authRequired a with
  | inl r => Some (Plain r)
  | inr u =>
      let qrs := getUserQRs (Some (auth_id u)) db in
      let count := countUserQRs (Some (auth_id u)) db in
      match findUserById (auth_id u) db with
      | None => None
      | Some user =>
          let limit := limit_of (u_plan user) in
          Some (Nested 200
                  (VObj [("qrCodes", VArr (map listed qrs));
                         ("usage", VObj [("count", VNum count);
                                         ("limit", shown_limit limit)]);
                         ("plan", VStr (u_plan user))]))
      end
  end.

End Express.

(** ** lib/db.js: the libsql database of the Next.js application *)

Module LibDb.

Record user := {
  u_id : Z;
  u_email : string;
  u_password : string;
  u_plan : string;
  u_created_at : Z
}.

(** A row of [qr_codes]; this schema has no [last_scanned_at]. *)
Record qr_code := {
  id : Z;
  short_code : string;
  destination_url : string;
  user_id : option Z;
  scan_count : Z;
  is_active : Z;
  expires_at : option string;
  password : option string;
  created_at : Z
}.

Record database := {
  users : list user;
  qr_codes : list qr_code
}.

Definition empty : database := {| users := []; qr_codes := [] |}.

Definition with_qr_codes (db : database) (t : list qr_code) : database :=
  {| users := users db; qr_codes := t |}.

Definition has_code (code : string) (r : qr_code) : bool :=
  String.eqb (short_code r) code.

(** [createQR(shortCode, url, userId, expiresAt, password)] at time
    [now]; [None] is the rejected promise of a UNIQUE violation. *)
Definition createQR (now : Z) (shortCode url : string) (userId : option Z)
    (expiresAt hashedPw : option string) (db : database) : option database :=
  if existsb (has_code shortCode) (qr_codes db) then None
  else Some (with_qr_codes db
    (qr_codes db ++
     [{| id := next_id (map id (qr_codes db));
         short_code := shortCode;
         destination_url := url;
         user_id := userId;
         scan_count := 0;
         is_active := 1;
         expires_at := expiresAt;
         password := hashedPw;
         created_at := now |}])).

(** [findByCode(code)] *)
Definition findByCode (code : string) (db : database) : option qr_code :=
  sql_first (fun r => has_code code r && (is_active r =? 1)) (qr_codes db).

Definition scanned (r : qr_code) : qr_code :=
  {| id := id r;
     short_code := short_code r;
     destination_url := destination_url r;
     user_id := user_id r;
     scan_count := scan_count r + 1;
     is_active := is_active r;
     expires_at := expires_at r;
     password := password r;
     created_at := created_at r |}.

(** [incrementScan(code)] *)
Definition incrementScan (code : string) (db : database) : database :=
  with_qr_codes db (sql_update (has_code code) scanned (qr_codes db)).

(** [getStats(code)] *)
Definition getStats (code : string) (db : database) : option qr_code :=
  sql_first (has_code code) (qr_codes db).

Definition owned_by (userId : option Z) (r : qr_code) : bool :=
  sql_eq (user_id r) userId.

(** [countUserQRs(userId)] *)
Definition countUserQRs (userId : option Z) (db : database) : Z :=
  sql_count (fun r => owned_by userId r && (is_active r =? 1)) (qr_codes db).

Definition with_destination (url : string) (r : qr_code) : qr_code :=
  {| id := id r;
     short_code := short_code r;
     destination_url := url;
     user_id := user_id r;
     scan_count := scan_count r;
     is_active := is_active r;
     expires_at := expires_at r;
     password := password r;
     created_at := created_at r |}.

(** [updateDestination(url, code, userId)]: the new database and
    [changes]. *)
Definition updateDestination (url code : string) (userId : option Z)
    (db : database) : database * Z :=
  let where_ r := has_code code r && owned_by userId r in
  (with_qr_codes db (sql_update where_ (with_destination url) (qr_codes db)),
   sql_count where_ (qr_codes db)).

Definition deactivated (r : qr_code) : qr_code :=
  {| id := id r;
     short_code := short_code r;
     destination_url := destination_url r;
     user_id := user_id r;
     scan_count := scan_count r;
     is_active := 0;
     expires_at := expires_at r;
     password := password r;
     created_at := created_at r |}.

(** [deleteQR(code, userId)] *)
Definition deleteQR (code : string) (userId : option Z) (db : database)
    : database * Z :=
  let where_ r := has_code code r && owned_by userId r in
  (with_qr_codes db (sql_update where_ deactivated (qr_codes db)),
   sql_count where_ (qr_codes db)).

(** [findUserById(id)] *)
Definition findUserById (uid : Z) (db : database) : option user :=
  sql_first (fun u => u_id u =? uid) (users db).

Definition unique_codes (db : database) : Prop :=
  NoDup (map short_code (qr_codes db)).

(** [createUser(email, hashedPassword)] at time [now]; [None] is the
    rejected promise of a UNIQUE violation on [email]. *)
Definition createUser (now : Z) (email hashedPassword : string)
    (db : database) : option (database * Z) :=
  if existsb (fun u => String.eqb (u_email u) email) (users db) then None
  else
    let rowid := next_id (map u_id (users db)) in
    Some ({| users := users db ++
               [{| u_id := rowid;
                   u_email := email;
                   u_password := hashedPassword;
                   u_plan := "free";
                   u_created_at := now |}];
             qr_codes := qr_codes db |}, rowid).

(** [findUserByEmail(email)] *)
Definition findUserByEmail (email : string) (db : database) : option user :=
  sql_first (fun u => String.eqb (u_email u) email) (users db).

(** [getUserQRs(userId)]: the active records of the owner, newest first. *)
Definition getUserQRs (userId : option Z) (db : database) : list qr_code :=
  order_by_desc created_at
    (filter (fun r => owned_by userId r && (is_active r =? 1)) (qr_codes db)).

Definition unique_emails (db : database) : Prop :=
  NoDup (map u_email (users db)).

End LibDb.

(** ** The route handlers under app/ *)

(** [s.includes(t)] and [s.startsWith(t)] *)
Definition includes (s t : string) : bool :=
  match index 0 t s with
  | Some _ => true
  | None => false
  end.

Definition startsWith (s t : string) : bool := prefix t s.

Module Next.
Import LibDb.

Section Handlers.
Context `{Platform}.

(** [getAuthUser()] *)
Definition getAuthUser (a : authorization) : option auth_user :=
match a with
| Token u => Some u
| _ => None
end.

Definition PLAN_LIMITS (plan : string) : option number :=
if String.eqb plan "free" then Some (Num 2)
else if String.eqb plan "pro" then Some (Num 50)
else if String.eqb plan "business" then Some Infinity
else None.

(** [PLAN_LIMITS[plan] || PLAN_LIMITS.free] *)
Definition limit_of (plan : string) : number :=
match PLAN_LIMITS plan with
| Some (Num 0) | None => Num 2
| Some l => l
end.

(** The [origin] and [host] headers of the request. *)
Record headers := { h_origin : option string; h_host : option string }.

Definition baseUrl (h : headers) : string :=
let origin :=
  if truthy (h_origin h) then h_origin h
  else if truthy (h_host h) then h_host h
  else Some "localhost:3000" in
match origin with
| Some origin =>
    let protocol := if includes origin "localhost" then "http" else "https" in
    if startsWith origin "http" then origin
    else protocol ++ "://" ++ origin
| None => ""
end.

(** The end of [POST]: generate, hash, insert, answer. *)
Definition insert_qr (userId : option Z) (url : string) (body : create_body)
  (h : headers) (e : env) (db : database) : database * response :=
let shortCode := fst (nanoid 8 (rng e)) in
let hashedPw :=
  match body_password body with
  | Some pw => if truthy (Some pw) then Some (hashSync pw (salt e)) else None
  | None => None
  end in
match createQR (now e) shortCode url userId
        (or_null (body_expiresAt body)) hashedPw db with
| None => (db, error 500 "Failed to create QR code")
| Some db' =>
    (db', Json 201 [("shortCode", JStr shortCode);
                    ("shortUrl", JStr (baseUrl h ++ "/r/" ++ shortCode));
                    ("destinationUrl", JStr url);
                    ("createdAt", JStr (toISOString (now e)))])
end.

(** [POST] of app/api/qr/route.js *)
Definition POST_qr (a : authorization) (body : create_body) (h : headers)
  (e : env) (db : database) : database * response :=
match body_url body with
| None => (db, error 400 "URL is required")
| Some url =>
if negb (truthy (Some url)) then (db, error 400 "URL is required")
else
match URL url with
| None => (db, error 400 "Invalid URL format")
| Some protocol =>
if negb (existsb (String.eqb protocol) ["http:"; "https:"])
then (db, error 400 "Only HTTP/HTTPS URLs allowed")
else if Z.of_nat (String.length url) >? 2048
then (db, error 400 "URL too long (max 2048)")
else
  let userId := option_map auth_id (getAuthUser a) in
  match userId with
  | Some uid =>
    if truthy_num userId then
      match findUserById uid db with
      | None => (db, error 500 "Failed to create QR code")
      | Some user =>
        let count := countUserQRs userId db in
        let limit := limit_of (u_plan user) in
        if num_ge count limit then
          (db, Json 403
             [("error", JStr ("Plan limit reached ("
                              ++ number_to_string limit
                              ++ " QR codes). Upgrade for more."));
              ("upgrade", JBool true)])
        else insert_qr userId url body h e db
      end
    else insert_qr userId url body h e db
  | None => insert_qr userId url body h e db
  end
end
end.

Definition expired (qr : qr_code) (t : Z) : bool :=
match expires_at qr with
| Some text => truthy (Some text) && date_before text t
| None => false
end.

Definition password_missing (qr : qr_code) (providedPw : option string) : bool :=
match password qr with
| Some hash =>
    truthy (Some hash) &&
    match providedPw with
    | Some pw => negb (truthy (Some pw)) || negb (compareSync pw hash)
    | None => true
    end
| None => false
end.

(** [GET] of the redirect route [/r/[code]]; [origin] is the origin of
  [request.url], against which the relative redirects are resolved, and
  [pw] is [searchParams.get('pw')]. [NextResponse.redirect] answers 307
  unless told otherwise. *)
Definition GET_r (origin code : string) (pw : option string) (e : env)
  (db : database) : database * response :=
match findByCode code db with
| None => (db, Redirect 307 (origin ++ "/"))
| Some qr =>
    if expired qr (now e)
    then (db, error 410 "This QR code has expired")
    else if password_missing qr pw
    then (db, Redirect 307 (origin ++ "/password/" ++ code))
    else (incrementScan code db, Redirect 302 (destination_url qr))
end.

(** [PUT] of app/api/qr/[code]/route.js *)
Definition PUT_qr (a : authorization) (code : string) (url : option string)
  (db : database) : database * response :=
match getAuthUser a with
| None => (db, error 401 "Authentication required")
| Some authUser =>
match url with
| None => (db, error 400 "New URL is required")
| Some url =>
if negb (truthy (Some url)) then (db, error 400 "New URL is required")
else
match URL url with
| None => (db, error 400 "Invalid URL format")
| Some _ =>
    let result := updateDestination url code (Some (auth_id authUser)) db in
    if snd result =? 0
    then (fst result, error 404 "QR code not found or not owned by you")
    else (fst result,
          Json 200 [("message", JStr "Destination updated");
                    ("shortCode", JStr code);
                    ("newUrl", JStr url)])
end
end
end.

(** [DELETE] of app/api/qr/[code]/route.js *)
Definition DELETE_qr (a : authorization) (code : string) (db : database)
  : database * response :=
match getAuthUser a with
| None => (db, error 401 "Authentication required")
| Some authUser =>
    let result := deleteQR code (Some (auth_id authUser)) db in
    if snd result =? 0
    then (fst result, error 404 "QR code not found or not owned by you")
    else (fst result, Json 200 [("message", JStr "QR code deactivated")])
end.

End Handlers.

Section Accounts.
Context `{Platform} `{TokenIssuer}.

(** [createToken(user)] of lib/auth.js *)
Definition createToken (uid : Z) (email : string) (t : Z) : string :=
  jwt_sign {| auth_id := uid; auth_email := email |} t.

(** [POST] of app/api/auth/signup/route.js; [bcrypt.hashSync] throws on a
    password that is not a string. *)
Definition POST_signup (body : auth_body) (e : env) (db : database)
    : database * reply :=
  match body_email body, body_secret body with
  | Some email, Secret password =>
      if negb (truthy (Some email)) || negb (truthy (Some password))
      then (db, Plain (error 400 "Email and password are required"))
      else if Z.of_nat (String.length password) <? 6
      then (db, Plain (error 400 "Password must be at least 6 characters"))
      else
        match findUserByEmail email db with
        | Some _ => (db, Plain (error 409 "Email already registered"))
        | None =>
            let hashedPassword := hashSync password (salt e) in
            match createUser (now e) email hashedPassword db with
            | None => (db, Plain (error 500 "Failed to create account"))
            | Some (db', rowid) =>
                let token := createToken rowid email (now e) in
                (db', Nested 201
                        (VObj [("message", VStr "Account created");
                               ("token", VStr token);
                               ("user", VObj [("id", VNum rowid);
                                              ("email", VStr email);
                                              ("plan", VStr "free")])]))
            end
        end
  | Some email, NotText is_truthy is_short =>
      if negb (truthy (Some email)) || negb is_truthy
      then (db, Plain (error 400 "Email and password are required"))
      else if is_short
      then (db, Plain (error 400 "Password must be at least 6 characters"))
      else
        match findUserByEmail email db with
        | Some _ => (db, Plain (error 409 "Email already registered"))
        | None => (db, Plain (error 500 "Failed to create account"))
        end
  | _, _ => (db, Plain (error 400 "Email and password are required"))
  end.

(** [POST] of app/api/auth/login/route.js; [bcrypt.compareSync] throws on
    a password that is not a string. *)
Definition POST_login (body : auth_body) (e : env) (db : database) : reply :=
  match body_email body, body_secret body with
  | Some email, Secret password =>
      if negb (truthy (Some email)) || negb (truthy (Some password))
      then Plain (error 400 "Email and password are required")
      else
        match findUserByEmail email db with
        | None => Plain (error 401 "Invalid email or password")
        | Some user =>
            if negb (compareSync password (u_password user))
            then Plain (error 401 "Invalid email or password")
            else
              let token := createToken (u_id user) (u_email user) (now e) in
              Nested 200
                (VObj [("token", VStr token);
                       ("user", VObj [("id", VNum (u_id user));
                                      ("email", VStr (u_email user));
                                      ("plan", VStr (u_plan user))])])
        end
  | Some email, NotText is_truthy _ =>
      if negb (truthy (Some email)) || negb is_truthy
      then Plain (error 400 "Email and password are required")
      else
        match findUserByEmail email db with
        | None => Plain (error 401 "Invalid email or password")
        | Some _ => Plain (error 500 "Login failed")
        end
  | _, _ => Plain (error 400 "Email and password are required")
  end.

(** [GET] of app/api/auth/me/route.js *)
Definition GET_me (a : authorization) (db : database) : reply :=
  match getAuthUser a with
  | None => Plain (error 401 "Authentication required")
  | Some authUser =>
      match findUserById (auth_id authUser) db with
      | None => Plain (error 404 "User not found")
      | Some user =>
          Nested 200
            (VObj [("user", VObj [("id", VNum (u_id user));
                                  ("email", VStr (u_email user));
                                  ("plan", VStr (u_plan user))])])
      end
  end.

End Accounts.

(** [GET] of app/api/qr/[code]/route.js: the columns that [getStats]
    selects. *)
Definition GET_stats (code : string) (db : database) : response :=
  match getStats code db with
  | None => error 404 "QR code not found"
  | Some stats =>
      Json 200 [("short_code", JStr (short_code stats));
                ("destination_url", JStr (destination_url stats));
                ("scan_count", JNum (Num (scan_count stats)));
                ("created_at", JNum (Num (created_at stats)));
                ("expires_at", json_of_text (expires_at stats))]
  end.

Definition listed (r : qr_code) : jvalue :=
  VObj [("short_code", VStr (short_code r));
        ("destination_url", VStr (destination_url r));
        ("scan_count", VNum (scan_count r));
        ("created_at", VNum (created_at r));
        ("expires_at", jvalue_of_text (expires_at r))].

Definition shown_limit (limit : number) : jvalue :=
  match limit with
  | Infinity => VStr "unlimited"
  | Num n => VNum n
  end.

(** [GET] of app/api/qr/route.js; [None] is the exception of reading
    [user.plan] when the user row is missing. *)
Definition GET_qr (a : authorization) (db : database) : option reply :=
  match getAuthUser a with
  | None => Some (Plain (error 401 "Authentication required"))
  | Some authUser =>
      let qrs := getUserQRs (Some (auth_id authUser)) db in
      let count := countUserQRs (Some (auth_id authUser)) db in
      match findUserById (auth_id authUser) db with
      | None => None
      | Some user =>
          let limit := limit_of (u_plan user) in
          Some (Nested 200
                  (VObj [("qrCodes", VArr (map listed qrs));
                         ("usage", VObj [("count", VNum count);
                                         ("limit", shown_limit limit)]);
                         ("plan", VStr (u_plan user))]))
      end
  end.

End Next.

(** ** A platform to run the handlers on

    An executable instance of [Platform], used where a statement is
    evaluated on concrete requests. [URL] is the scheme part of the URL
    parser; the bcrypt functions are a stand-in with bcrypt's equation (a
    password verifies against its own hash), the dates a stand-in that
    reads a time value in decimal. *)
Module Reference.

Definition is_alpha (c : ascii) : bool :=
  let n := nat_of_ascii c in
  ((65 <=? n) && (n <=? 90) || (97 <=? n) && (n <=? 122))%nat.

Definition is_scheme_char (c : ascii) : bool :=
  let n := nat_of_ascii c in
  (is_alpha c || (48 <=? n) && (n <=? 57)
   || (n =? 43) || (n =? 45) || (n =? 46))%nat.

Definition lower (c : ascii) : ascii :=
  let n := nat_of_ascii c in
  if ((65 <=? n) && (n <=? 90))%nat then ascii_of_nat (n + 32) else c.

(** Reads [scheme ":"] and gives the lower-cased scheme with its colon
    and the text after it. *)
Fixpoint scan_scheme (acc s : string) : option (string * string) :=
  match s with
  | EmptyString => None
  | String c rest =>
      if Ascii.eqb c ":" then Some (acc ++ ":", rest)
      else if is_scheme_char c then scan_scheme (acc ++ String (lower c) "") rest
      else None
  end.

Fixpoint skip_slashes (s : string) : string :=
  match s with
  | String c rest => if Ascii.eqb c "/" then skip_slashes rest else s
  | EmptyString => s
  end.

Definition special : list string := ["http:"; "https:"; "ftp:"; "ws:"; "wss:"].

(** A URL needs a scheme that starts with a letter, and one of a special
    scheme needs a host. *)
Definition protocol_of (s : string) : option string :=
  match s with
  | String c _ =>
      if is_alpha c then
        match scan_scheme "" s with
        | Some (scheme, rest) =>
            if existsb (String.eqb scheme) special
               && String.eqb (skip_slashes rest) ""
            then None else Some scheme
        | None => None
        end
      else None
  | EmptyString => None
  end.

Definition hash (pw salt_ : string) : string := "$2a$10$" ++ salt_ ++ "." ++ pw.

Definition compare (pw h : string) : bool :=
  match index 7 "." h with
  | Some i => String.eqb (substring (i + 1) (String.length h) h) pw
  | None => false
  end.

Definition date (text : string) : option Z :=
  option_map Z.of_int (NilZero.int_of_string text).

Definition iso (t : Z) : string := NilZero.string_of_int (Z.to_int t).

#[export] Instance platform : Platform := {|
  URL := protocol_of;
  hashSync := hash;
  compareSync := compare;
  Date_parse := date;
  toISOString := iso;
  BASE_URL := "http://localhost:3000"
|}.

Definition token (u : auth_user) (t : Z) : string :=
  "jwt." ++ auth_email u ++ "." ++ iso (auth_id u) ++ "." ++ iso t.

#[export] Instance tokens : TokenIssuer := {| jwt_sign := token |}.

End Reference.

(** ** The resolver's decisions, as the specification words them

    This part is written from section 4.4 of the specification and from
    nothing else: the record with the fields the specification names, the
    decisions NOT_FOUND, EXPIRED, PASSWORD_REQUIRED, ALLOWED evaluated in
    this order, each ending the evaluation. *)

Inductive Decision :=
  | NOT_FOUND
  | EXPIRED
  | PASSWORD_REQUIRED
  | ALLOWED (destination : string).

(** The fields of a ShortCodeRecord that the resolver reads. *)
Record ShortCodeRecord := {
  destination : string;
  expiresAt : option string;
  passwordHash : option string;
  active : bool
}.

Section Resolver.
Context `{Platform}.

(** "[expiresAt] is set and in the past" *)
Definition in_the_past (expiresAt : option string) (t : Z) : bool :=
  match expiresAt with
  | Some text =>
      match Date_parse text with
      | Some instant => instant <? t
      | None => false
      end
  | None => false
  end.

(** "[suppliedCredential] is absent OR fails verification against
    [passwordHash]"; only a plaintext can verify. *)
Definition absent_or_fails (suppliedCredential : query_value) (hash : string)
    : bool :=
  match suppliedCredential with
  | QAbsent => true
  | QText plaintext => negb (compareSync plaintext hash)
  | QNested => true
  end.

(** [resolve(code, suppliedCredential?)] on the record with the code, if
    there is one. *)
Definition resolve (record : option ShortCodeRecord)
    (suppliedCredential : query_value) (t : Z) : Decision :=
  match record with
  | None => NOT_FOUND
  | Some r =>
      if negb (active r) then NOT_FOUND
      else if in_the_past (expiresAt r) t then EXPIRED
      else
        match passwordHash r with
        | Some hash =>
            if absent_or_fails suppliedCredential hash
            then PASSWORD_REQUIRED
            else ALLOWED (destination r)
        | None => ALLOWED (destination r)
        end
  end.

(** A row of db.js as a ShortCodeRecord. *)
Definition express_record (r : Db.qr_code) : ShortCodeRecord :=
  {| destination := Db.destination_url r;
     expiresAt := Db.expires_at r;
     passwordHash := Db.password r;
     active := Db.is_active r =? 1 |}.

(** A row of lib/db.js as a ShortCodeRecord. *)
Definition next_record (r : LibDb.qr_code) : ShortCodeRecord :=
  {| destination := LibDb.destination_url r;
     expiresAt := LibDb.expires_at r;
     passwordHash := LibDb.password r;
     active := LibDb.is_active r =? 1 |}.

(** The decision of the specification for a request on the database of
    server.js. *)
Definition express_resolve (db : Db.database) (code : string)
    (suppliedCredential : query_value) (t : Z) : Decision :=
  resolve
    (option_map express_record
       (find (fun r => String.eqb (Db.short_code r) code) (Db.qr_codes db)))
    suppliedCredential t.

(** The decision of the specification for a request on the database of
    the Next.js application. *)
Definition next_resolve (db : LibDb.database) (code : string)
    (suppliedCredential : option string) (t : Z) : Decision :=
  resolve
    (option_map next_record
       (find (fun r => String.eqb (LibDb.short_code r) code)
          (LibDb.qr_codes db)))
    (query_text suppliedCredential) t.

End Resolver.

(** ** Sequences of owner calls *)

(** A call of [updateDestination] or [deleteQR] with the identity the
    caller presents ([None] is a NULL identity). *)
Inductive owner_call :=
  | UpdateDestination (url code : string) (userId : option Z)
  | Deactivate (code : string) (userId : option Z).

Definition express_call (c : owner_call) (db : Db.database) : Db.database :=
  match c with
  | UpdateDestination url code userId =>
      fst (Db.updateDestination url code userId db)
  | Deactivate code userId => fst (Db.deleteQR code userId db)
  end.

Definition next_call (c : owner_call) (db : LibDb.database) : LibDb.database :=
  match c with
  | UpdateDestination url code userId =>
      fst (LibDb.updateDestination url code userId db)
  | Deactivate code userId => fst (LibDb.deleteQR code userId db)
  end.

(** The calls of [cs] one after the other, the first one first. *)
Definition express_calls (cs : list owner_call) (db : Db.database) : Db.database :=
  fold_left (fun d c => express_call c d) cs db.

Definition next_calls (cs : list owner_call) (db : LibDb.database) : LibDb.database :=
  fold_left (fun d c => next_call c d) cs db.

(** The identity and the code of a call. *)
Definition caller_of (c : owner_call) : option Z :=
  match c with
  | UpdateDestination _ _ userId | Deactivate _ userId => userId
  end.

Definition code_of (c : owner_call) : string :=
  match c with
  | UpdateDestination _ code _ | Deactivate code _ => code
  end.

(** The same through the HTTP boundary: a PUT or a DELETE on
    [/api/qr/:code] with whatever [Authorization] header the caller sends. *)
Inductive owner_request :=
  | Put (a : authorization) (code : string) (url : option string)
  | Delete (a : authorization) (code : string).

Section OwnerRequests.
Context `{Platform}.

Definition express_request (q : owner_request) (db : Db.database) : Db.database :=
  match q with
  | Put a code url => fst (Express.put_api_qr a code url db)
  | Delete a code => fst (Express.delete_api_qr a code db)
  end.

Definition next_request (q : owner_request) (db : LibDb.database) : LibDb.database :=
  match q with
  | Put a code url => fst (Next.PUT_qr a code url db)
  | Delete a code => fst (Next.DELETE_qr a code db)
  end.

Definition express_requests (qs : list owner_request) (db : Db.database) : Db.database :=
  fold_left (fun d q => express_request q d) qs db.

Definition next_requests (qs : list owner_request) (db : LibDb.database) : LibDb.database :=
  fold_left (fun d q => next_request q d) qs db.

(** What a creation request with this body leaves in the [password]
    column: the hash of a password that is not the empty string. *)
Definition stored_password (body : create_body) (e : env) : option string :=
  match body_password body with
  | Some pw => if String.eqb pw "" then None else Some (hashSync pw (salt e))
  | None => None
  end.

End OwnerRequests.

(** ** Reachable databases

    The databases that the handlers make of one without any record, one
    request after the other. *)

Section Reachable.
Context `{Platform}.

Inductive express_reachable : Db.database -> Prop :=
  | express_start (db : Db.database) :
      Db.qr_codes db = [] -> express_reachable db
  | express_create (a : authorization) (body : create_body) (e : env)
      (db : Db.database) :
      express_reachable db ->
      express_reachable (fst (Express.post_api_qr a body e db))
  | express_redirect (code : string) (pw : query_value) (e : env)
      (db : Db.database) :
      express_reachable db ->
      express_reachable (fst (Express.get_r code pw e db))
  | express_owner (q : owner_request) (db : Db.database) :
      express_reachable db ->
      express_reachable (express_request q db).

Inductive next_reachable : LibDb.database -> Prop :=
  | next_start (db : LibDb.database) :
      LibDb.qr_codes db = [] -> next_reachable db
  | next_create (a : authorization) (body : create_body) (h : Next.headers)
      (e : env) (db : LibDb.database) :
      next_reachable db ->
      next_reachable (fst (Next.POST_qr a body h e db))
  | next_redirect (origin code : string) (pw : option string) (e : env)
      (db : LibDb.database) :
      next_reachable db ->
      next_reachable (fst (Next.GET_r origin code pw e db))
  | next_owner (q : owner_request) (db : LibDb.database) :
      next_reachable db ->
      next_reachable (next_request q db).

End Reachable.

(** ** The forms that call the creation routes *)

(** The result of [validateUrl]. *)
Record validation := {
  valid : bool;
  message : string;
  type : string
}.

(** The body that both forms post to [/api/qr] in dynamic mode:
    [JSON.stringify({ url })]. *)
Definition posted_body (url : string) : create_body :=
  {| body_url := Some url; body_expiresAt := None; body_password := None |}.

(** components/QRGenerator.js, the form of the Next.js application. *)
Module QRGenerator.
Section Form.
Context `{Platform}.

(** [String.prototype.trim], which the browser provides. *)
Variable trim : string -> string.

(** [validateUrl(input)] *)
Definition validateUrl (input : string) : validation :=
if negb (truthy (Some (trim input)))
then {| valid := false; message := ""; type := "" |}
else if Z.of_nat (String.length input) >? 2048
then {| valid := false; message := "URL too long (max 2048)"; type := "error" |}
else
  match URL input with
  | Some protocol =>
      if String.eqb protocol "http:"
      then {| valid := true; message := "⚠ HTTP — consider HTTPS";
              type := "warning" |}
      else if String.eqb protocol "https:"
      then {| valid := true; message := "✓ Valid secure URL";
              type := "valid" |}
      else {| valid := true; message := "✓ Valid link"; type := "valid" |}
  | None =>
      match URL ("https://" ++ input) with
      | Some _ =>
          {| valid := false;
             message := "Did you mean https://" ++ input ++ "?";
             type := "warning" |}
      | None =>
          {| valid := false; message := "Please enter a valid URL";
             type := "error" |}
      end
  end.

(** [generate()] in dynamic mode: the body of the request it sends, or
    [None] when it returns without one. *)
Definition generate (url : string) : option create_body :=
if negb (valid (validateUrl url)) then None
else Some (posted_body url).

End Form.
End QRGenerator.

(** public/app.js, the form that the Express server serves. *)
Module App.
Section Form.
Context `{Platform}.

Variable trim : string -> string.

(** [validateUrl(input)] *)
Definition validateUrl (input : string) : validation :=
if negb (truthy (Some input)) || negb (truthy (Some (trim input)))
then {| valid := false; message := ""; type := "" |}
else
  let trimmed := trim input in
  if Z.of_nat (String.length trimmed) >? 2048
  then {| valid := false; message := "URL is too long (max 2048 characters)";
          type := "error" |}
  else
    match URL trimmed with
    | Some protocol =>
        if String.eqb protocol "http:"
        then {| valid := true; message := "⚠ HTTP link — consider using HTTPS";
                type := "warning" |}
        else if String.eqb protocol "https:"
        then {| valid := true; message := "✓ Valid secure URL";
                type := "valid" |}
        else {| valid := true; message := "✓ Valid link"; type := "valid" |}
    | None =>
        match URL ("https://" ++ trimmed) with
        | Some _ =>
            {| valid := false;
               message := "Did you mean https://" ++ trimmed ++ "?";
               type := "warning" |}
        | None =>
            {| valid := false; message := "Please enter a valid URL";
               type := "error" |}
        end
    end.

(** [generateQR()] in dynamic mode, on the value of the input field: the
    body that [createDynamicQR] sends, or [None] when it returns without a
    request. *)
Definition generateQR (value : string) : option create_body :=
let url := trim value in
if negb (truthy (Some url)) then None
else if negb (valid (validateUrl url)) then None
else Some (posted_body url).

End Form.
End App.

(** [trim] on texts of ASCII characters, for the samples. *)
Definition is_space (c : ascii) : bool :=
  let n := nat_of_ascii c in
  ((9 <=? n) && (n <=? 13) || (n =? 32))%nat.

Fixpoint trim_start (s : string) : string :=
  match s with
  | String c rest => if is_space c then trim_start rest else s
  | EmptyString => s
  end.

Fixpoint trim_end (s : string) : string :=
  match s with
  | String c rest =>
      let rest' := trim_end rest in
      if is_space c && String.eqb rest' "" then "" else String c rest'
  | EmptyString => ""
  end.

Definition ascii_trim (s : string) : string := trim_end (trim_start s).

(** ** Every request that writes

    The creation, the redirect, the owner's PUT and DELETE and the signup
    are the requests that change a database; [express_run] and [next_run]
    serve a list of them, the first one first. A redirect request carries
    its [pw] parameter as either framework reads it: [req.query.pw] for
    server.js, [searchParams.get('pw')] for the Next.js route. *)

Inductive request :=
  | Create (a : authorization) (body : create_body) (h : Next.headers) (e : env)
  | Scan (origin code : string) (query_pw : query_value)
      (param_pw : option string) (e : env)
  | Owner (q : owner_request)
  | Signup (body : auth_body) (e : env).

Section Requests.
Context `{Platform} `{TokenIssuer}.

Definition express_handle (r : request) (db : Db.database) : Db.database :=
  match r with
  | Create a body _ e => fst (Express.post_api_qr a body e db)
  | Scan _ code pw _ e => fst (Express.get_r code pw e db)
  | Owner q => express_request q db
  | Signup body e => fst (Express.post_signup body e db)
  end.

Definition next_handle (r : request) (db : LibDb.database) : LibDb.database :=
  match r with
  | Create a body h e => fst (Next.POST_qr a body h e db)
  | Scan origin code _ pw e => fst (Next.GET_r origin code pw e db)
  | Owner q => next_request q db
  | Signup body e => fst (Next.POST_signup body e db)
  end.

Definition express_run (rs : list request) (db : Db.database) : Db.database :=
  fold_left (fun d r => express_handle r d) rs db.

Definition next_run (rs : list request) (db : LibDb.database) : LibDb.database :=
  fold_left (fun d r => next_handle r d) rs db.

End Requests.

(** What may become of a stored record: [r'] is [r] but for its
    destination, a scan count that is no smaller, a [last_scanned_at] and
    an [is_active] that is the same or 0. *)
Definition express_evolves (r r' : Db.qr_code) : Prop :=
  Db.id r' = Db.id r
  /\ Db.short_code r' = Db.short_code r
  /\ Db.user_id r' = Db.user_id r
  /\ Db.created_at r' = Db.created_at r
  /\ Db.expires_at r' = Db.expires_at r
  /\ Db.password r' = Db.password r
  /\ Db.scan_count r <= Db.scan_count r'
  /\ (Db.is_active r' = Db.is_active r \/ Db.is_active r' = 0).

Definition next_evolves (r r' : LibDb.qr_code) : Prop :=
  LibDb.id r' = LibDb.id r
  /\ LibDb.short_code r' = LibDb.short_code r
  /\ LibDb.user_id r' = LibDb.user_id r
  /\ LibDb.created_at r' = LibDb.created_at r
  /\ LibDb.expires_at r' = LibDb.expires_at r
  /\ LibDb.password r' = LibDb.password r
  /\ LibDb.scan_count r <= LibDb.scan_count r'
  /\ (LibDb.is_active r' = LibDb.is_active r \/ LibDb.is_active r' = 0).

(** The bytes that [crypto.randomBytes] can give. *)
Definition is_byte (b : Z) : Prop := 0 <= b < 256.

(** The characters of the base64url alphabet. *)
Definition url_safe (c : ascii) : bool :=
  existsb (Ascii.eqb c) (list_ascii_of_string base64url_alphabet).

(** The 256 byte values and the 64 values of a base64 digit, to check the
    digit arithmetic of [base64url] on all of them. *)
Definition byte_values : list Z := map Z.of_nat (seq 0 256).

Definition digit_values : list Z := map Z.of_nat (seq 0 64).

(** A base64 digit whose character is in the alphabet. *)
Definition digit_ok (n : Z) : bool :=
  (0 <=? n) && (n <? 64)
  && match b64 n with
     | String c EmptyString => url_safe c
     | _ => false
     end.

(** A base64 digit: [b64] gives it one character of the alphabet. *)
Definition safe_digit (n : Z) : Prop :=
  0 <= n < 64 /\ exists c, b64 n = String c "" /\ url_safe c = true.

(** The four base64 digits of three bytes, and the text of a list of
    digits. *)
Definition triple_digits (a b c : Z) : list Z :=
  [Z.shiftr a 2;
   Z.lor (Z.shiftl (Z.land a 3) 4) (Z.shiftr b 4);
   Z.lor (Z.shiftl (Z.land b 15) 2) (Z.shiftr c 6);
   Z.land c 63].

Definition digits_text (ds : list Z) : string :=
  fold_right (fun d s => b64 d ++ s) "" ds.

(** The digits that [base64url] takes from a byte and its successor are
    base64 digits, and the bytes can be read back from them. *)
Definition digits_ok (a b : Z) : bool :=
  digit_ok (Z.shiftr a 2)
  && digit_ok (Z.lor (Z.shiftl (Z.land a 3) 4) (Z.shiftr b 4))
  && digit_ok (Z.lor (Z.shiftl (Z.land a 15) 2) (Z.shiftr b 6))
  && digit_ok (Z.land a 63)
  && digit_ok (Z.shiftl (Z.land a 3) 4)
  && digit_ok (Z.shiftl (Z.land a 15) 2)
  && (a =? 4 * Z.shiftr a 2
           + Z.lor (Z.shiftl (Z.land a 3) 4) (Z.shiftr b 4) / 16)
  && (b / 16 =? Z.lor (Z.shiftl (Z.land a 3) 4) (Z.shiftr b 4) mod 16)
  && (a mod 16 =? Z.lor (Z.shiftl (Z.land a 15) 2) (Z.shiftr b 6) / 4)
  && (b =? 64 * (Z.lor (Z.shiftl (Z.land a 15) 2) (Z.shiftr b 6) mod 4)
           + Z.land b 63)
  && (a =? 16 * (a / 16) + a mod 16).



(** [SELECT COUNT( * ) ... WHERE user_id = ? AND is_active = 1] on the
    Express schema: the count of the owner's active records that the
    quota is about. *)
Definition express_countActive (userId : option Z) (db : Db.database) : Z :=
  sql_count (fun r => Db.owned_by userId r && (Db.is_active r =? 1))
            (Db.qr_codes db).

(** ** Sample data *)

Module Sample.

Definition alice : auth_user := {| auth_id := 7; auth_email := "alice@example.com" |}.
Definition bob : auth_user := {| auth_id := 8; auth_email := "bob@example.com" |}.

Definition secret_hash : string := Reference.hash "secret123" "c2FsdHNhbHRzYWx0c2FsdA".

Module E.
Import Db.

Definition alice_row : user :=
  {| u_id := 7; u_email := "alice@example.com"; u_password := "$2a$10$x";
     u_plan := "free"; u_created_at := 50 |}.

(** An anonymous record; its code is [nanoid] of the bytes 0, 1, ... *)
Definition menu : qr_code :=
  {| id := 1; short_code := "AAECAwQF";
     destination_url := "https://example.com/menu"; user_id := None;
     scan_count := 0; created_at := 100; last_scanned_at := None;
     expires_at := None; password := None; is_active := 1 |}.

(** A password-protected record of alice. *)
Definition vault : qr_code :=
  {| id := 2; short_code := "vault001";
     destination_url := "https://example.com/vault"; user_id := Some 7;
     scan_count := 3; created_at := 110; last_scanned_at := Some 150;
     expires_at := None; password := Some secret_hash; is_active := 1 |}.

(** Two records that alice has deactivated. *)
Definition retired1 : qr_code :=
  {| id := 3; short_code := "retired1";
     destination_url := "https://example.com/old"; user_id := Some 7;
     scan_count := 5; created_at := 120; last_scanned_at := Some 130;
     expires_at := None; password := None; is_active := 0 |}.

Definition retired2 : qr_code :=
  {| id := 4; short_code := "retired2";
     destination_url := "https://example.com/older"; user_id := Some 7;
     scan_count := 0; created_at := 125; last_scanned_at := None;
     expires_at := None; password := None; is_active := 0 |}.

Definition db : database :=
  {| users := [alice_row]; qr_codes := [menu; vault; retired1; retired2] |}.

(** alice with nothing but her two deactivated records. *)
Definition db_retired : database :=
  {| users := [alice_row]; qr_codes := [retired1; retired2] |}.
End E.

Module N.
Import LibDb.

Definition alice_row : user :=
  {| u_id := 7; u_email := "alice@example.com"; u_password := "$2a$10$x";
     u_plan := "free"; u_created_at := 50 |}.

Definition menu : qr_code :=
  {| id := 1; short_code := "AAECAwQF";
     destination_url := "https://example.com/menu"; user_id := None;
     scan_count := 0; is_active := 1; expires_at := None;
     password := None; created_at := 100 |}.

Definition vault : qr_code :=
  {| id := 2; short_code := "vault001";
     destination_url := "https://example.com/vault"; user_id := Some 7;
     scan_count := 3; is_active := 1; expires_at := None;
     password := Some secret_hash; created_at := 110 |}.

Definition retired1 : qr_code :=
  {| id := 3; short_code := "retired1";
     destination_url := "https://example.com/old"; user_id := Some 7;
     scan_count := 5; is_active := 0; expires_at := None;
     password := None; created_at := 120 |}.

Definition retired2 : qr_code :=
  {| id := 4; short_code := "retired2";
     destination_url := "https://example.com/older"; user_id := Some 7;
     scan_count := 0; is_active := 0; expires_at := None;
     password := None; created_at := 125 |}.

Definition db : database :=
  {| users := [alice_row]; qr_codes := [menu; vault; retired1; retired2] |}.

Definition db_retired : database :=
  {| users := [alice_row]; qr_codes := [retired1; retired2] |}.
End N.

(** A request at time 200 whose random source yields the code
    ["AAECAwQF"] first and ["CAkKCwwN"] next. *)
Definition at200 : env :=
  {| now := 200;
     rng := [0; 1; 2; 3; 4; 5; 6; 7; 8; 9; 10; 11; 12; 13; 14; 15];
     salt := "c2FsdHNhbHRzYWx0c2FsdA" |}.

Definition menu_body : create_body :=
  {| body_url := Some "https://example.com/menu";
     body_expiresAt := None;
     body_password := None |}.

Definition empty_password_body : create_body :=
  {| body_url := Some "https://example.com/menu";
     body_expiresAt := None;
     body_password := Some "" |}.

Definition carol_body : auth_body :=
  {| body_email := Some "carol@example.com"; body_secret := Secret "hunter22" |}.



Definition no_headers : Next.headers :=
  {| Next.h_origin := None; Next.h_host := None |}.

End Sample.

(** ** Lemmas on tables *)

Section SqlFacts.
Context {row : Type}.
Variable key : row -> string.

Local Abbreviation on := (key_is key).

Lemma find_absent (k : string) (p : row -> bool) (t : list row) :
  ~ In k (map key t) -> find (fun r => on k r && p r) t = None.
Proof.
  induction t as [|a t IH]; simpl; intros Hk; [reflexivity|].
  unfold key_is at 1. destruct (String.eqb_spec (key a) k) as [E|E].
  - exfalso. apply Hk. now left.
  - simpl. apply IH. intros Hin. apply Hk. now right.
Qed.

Lemma sql_update_cons (w : row -> bool) (set : row -> row) (a : row)
    (t : list row) :
  sql_update w set (a :: t) = (if w a then set a else a) :: sql_update w set t.
Proof. reflexivity. Qed.

Lemma sql_count_cons (w : row -> bool) (a : row) (t : list row) :
  sql_count w (a :: t) = (if w a then 1 else 0) + sql_count w t.
Proof.
  unfold sql_count. cbn [filter]. destruct (w a); cbn [List.length]; lia.
Qed.

Lemma update_absent (k : string) (p : row -> bool) (set : row -> row)
    (t : list row) :
  ~ In k (map key t) ->
  sql_update (fun r => on k r && p r) set t = t
  /\ sql_count (fun r => on k r && p r) t = 0.
Proof.
  induction t as [|a t IH]; intros Hk; [now split|].
  rewrite sql_update_cons, sql_count_cons.
  assert (Hn : on k a = false).
  { unfold key_is. apply String.eqb_neq. intros E. apply Hk. now left. }
  rewrite Hn. cbn [andb].
  destruct IH as [IH1 IH2]; [intros Hin; apply Hk; now right|].
  rewrite IH1, IH2. now split.
Qed.

Lemma find_key_none (k : string) (t : list row) :
  find (on k) t = None -> ~ In k (map key t).
Proof.
  induction t as [|a t IH]; simpl; [tauto|].
  unfold key_is at 1. destruct (String.eqb_spec (key a) k) as [E|E]; [discriminate|].
  intros Hf [Ha|Hin]; [congruence | now apply IH].
Qed.

Lemma find_key_some (k : string) (t : list row) (r : row) :
  find (on k) t = Some r -> key r = k /\ In r t.
Proof.
  intros Hf. apply find_some in Hf. destruct Hf as [Hin Hk].
  unfold key_is in Hk. apply String.eqb_eq in Hk. now split.
Qed.

(** With a unique key, the rows selected by [key = k AND p] are the row
    with key [k], when it satisfies [p]. *)
Lemma find_unique (k : string) (p : row -> bool) (t : list row) :
  NoDup (map key t) ->
  find (fun r => on k r && p r) t =
  match find (on k) t with
  | Some r => if p r then Some r else None
  | None => None
  end.
Proof.
  induction t as [|a t IH]; simpl; intros Hnd; [reflexivity|].
  inversion Hnd as [|x l Hnotin Hnd' Heq]; subst.
  unfold key_is at 1 3. destruct (String.eqb_spec (key a) k) as [E|E]; simpl.
  - destruct (p a); [reflexivity|].
    apply find_absent. now rewrite <- E.
  - now apply IH.
Qed.

(** With a unique key, an UPDATE with [WHERE key = k AND p] rewrites the
    one row with key [k] when it satisfies [p], and nothing otherwise. *)
Lemma update_unique (k : string) (p : row -> bool) (set : row -> row)
    (t : list row) :
  NoDup (map key t) ->
  match find (on k) t with
  | Some r =>
      if p r then
        exists before after,
          t = (before ++ r :: after)%list
          /\ sql_update (fun r => on k r && p r) set t
             = (before ++ set r :: after)%list
          /\ sql_count (fun r => on k r && p r) t = 1
      else
        sql_update (fun r => on k r && p r) set t = t
        /\ sql_count (fun r => on k r && p r) t = 0
  | None =>
      sql_update (fun r => on k r && p r) set t = t
      /\ sql_count (fun r => on k r && p r) t = 0
  end.
Proof.
  induction t as [|a t IH]; intros Hnd; [now split|].
  inversion Hnd as [|x l Hnotin Hnd' Heq]; subst.
  rewrite sql_update_cons, sql_count_cons. cbn [find].
  destruct (on k a) eqn:Hon; cbn [andb].
  - assert (Hk : ~ In k (map key t)).
    { unfold key_is in Hon. apply String.eqb_eq in Hon. now rewrite <- Hon. }
    destruct (update_absent k p set t Hk) as [Hu Hc].
    rewrite Hu, Hc. destruct (p a).
    + exists [], t. now repeat split.
    + now split.
  - specialize (IH Hnd').
    destruct (find (on k) t) as [r|].
    + destruct (p r).
      * destruct IH as (before & after & Ht & Hu & Hc).
        exists (a :: before), after. rewrite Hu, Hc, Ht at 1. now repeat split.
      * destruct IH as [Hu Hc]. rewrite Hu, Hc. now split.
    + destruct IH as [Hu Hc]. rewrite Hu, Hc. now split.
Qed.

(** An UPDATE leaves in place every row its WHERE clause rejects. *)
Lemma update_nth (where_ : row -> bool) (set : row -> row) (t : list row)
    (n : nat) (r : row) :
  nth_error t n = Some r ->
  nth_error (sql_update where_ set t) n
  = Some (if where_ r then set r else r).
Proof.
  intros Hn. unfold sql_update. rewrite nth_error_map, Hn. reflexivity.
Qed.

Lemma in_unique_find (t : list row) (r : row) :
  NoDup (map key t) -> In r t -> find (on (key r)) t = Some r.
Proof.
  induction t as [|a t IH]; simpl; intros Hnd Hin; [tauto|].
  inversion Hnd as [|x l Hnotin Hnd' Heq]; subst.
  unfold key_is at 1. destruct (String.eqb_spec (key a) (key r)) as [E|E].
  - destruct Hin as [->|Hin]; [reflexivity|].
    exfalso. apply Hnotin. rewrite E. now apply in_map.
  - destruct Hin as [->|Hin]; [congruence | now apply IH].
Qed.
(** An UPDATE that does not assign the key column keeps the keys. *)
Lemma update_keys (where_ : row -> bool) (set : row -> row) (t : list row) :
  (forall r, key (set r) = key r) ->
  map key (sql_update where_ set t) = map key t.
Proof.
  intros Hset. unfold sql_update. rewrite map_map. apply map_ext.
  intros r. destruct (where_ r); [apply Hset | reflexivity].
Qed.

(** An INSERT under a key that no row has keeps the keys unique. *)
Lemma insert_unique (k : string) (t : list row) (x : row) :
  NoDup (map key t) ->
  existsb (on k) t = false ->
  key x = k ->
  NoDup (map key (t ++ [x])).
Proof.
  intros Hnd Hex Hk. rewrite map_app. cbn [map].
  apply NoDup_app; [exact Hnd | repeat constructor; cbn; tauto|].
  intros y Hy [Hin|[]]. subst y. rewrite Hk in Hy.
  apply in_map_iff in Hy. destruct Hy as (r & Hr & Hin).
  assert (Hex' : existsb (on k) t = true).
  { apply existsb_exists. exists r. split; [exact Hin|].
    unfold key_is. now apply String.eqb_eq. }
  congruence.
Qed.
End SqlFacts.

(** ** Facts on the database of the Express server *)

Module DbFacts.
Import Db.

Lemma with_qr_codes_same (db : database) : with_qr_codes db (qr_codes db) = db.
Proof. now destruct db. Qed.

Lemma findByCode_getStats (code : string) (db : database) :
  unique_codes db ->
  findByCode code db =
  match getStats code db with
  | Some r => if is_active r =? 1 then Some r else None
  | None => None
  end.
Proof.
  intros Hu.
  exact (find_unique short_code code (fun r => is_active r =? 1) _ Hu).
Qed.

Lemma getStats_in (db : database) (r : qr_code) :
  unique_codes db -> In r (qr_codes db) -> getStats (short_code r) db = Some r.
Proof. intros Hu Hin. exact (in_unique_find short_code _ r Hu Hin). Qed.

Lemma getStats_code (code : string) (db : database) (r : qr_code) :
  getStats code db = Some r -> short_code r = code /\ In r (qr_codes db).
Proof. intros Hg. exact (find_key_some short_code code _ _ Hg). Qed.

(** An UPDATE keyed by the code and a further condition [p]. *)
Lemma update_by_code (p : qr_code -> bool) (set : qr_code -> qr_code)
    (code : string) (db : database) :
  unique_codes db ->
  match getStats code db with
  | Some r =>
      if p r then
        exists before after,
          qr_codes db = (before ++ r :: after)%list
          /\ sql_update (fun r => has_code code r && p r) set (qr_codes db)
             = (before ++ set r :: after)%list
          /\ sql_count (fun r => has_code code r && p r) (qr_codes db) = 1
      else
        sql_update (fun r => has_code code r && p r) set (qr_codes db)
        = qr_codes db
        /\ sql_count (fun r => has_code code r && p r) (qr_codes db) = 0
  | None =>
      sql_update (fun r => has_code code r && p r) set (qr_codes db)
      = qr_codes db
      /\ sql_count (fun r => has_code code r && p r) (qr_codes db) = 0
  end.
Proof. intros Hu. exact (update_unique short_code code p set _ Hu). Qed.

Lemma where_true (code : string) (t : list qr_code) (set : qr_code -> qr_code) :
  sql_update (has_code code) set t
  = sql_update (fun r => has_code code r && true) set t
  /\ sql_count (has_code code) t
     = sql_count (fun r => has_code code r && true) t.
Proof.
  unfold sql_update, sql_count. split.
  - apply map_ext. intros r. now rewrite andb_true_r.
  - do 2 f_equal. apply filter_ext. intros r. now rewrite andb_true_r.
Qed.

(** [incrementScan] touches the one row with the code, whatever its
    [is_active]. *)
Lemma incrementScan_spec (t : Z) (code : string) (db : database) :
  unique_codes db ->
  match getStats code db with
  | Some r =>
      exists before after,
        qr_codes db = (before ++ r :: after)%list
        /\ qr_codes (fst (incrementScan t code db))
           = (before ++ scanned t r :: after)%list
        /\ users (fst (incrementScan t code db)) = users db
        /\ snd (incrementScan t code db) = 1
  | None => incrementScan t code db = (db, 0)
  end.
Proof.
  intros Hu. pose proof (update_by_code (fun _ => true) (scanned t) code db Hu) as Hupd.
  unfold incrementScan. cbn [fst snd].
  destruct (where_true code (qr_codes db) (scanned t)) as [-> ->].
  destruct (getStats code db) as [r|].
  - destruct Hupd as (before & after & Ht & Hs & Hc).
    exists before, after. rewrite Hs, Hc. now repeat split.
  - destruct Hupd as [-> ->]. now rewrite with_qr_codes_same.
Qed.

(** [updateDestination] touches the one row with the code when the
    caller owns it, whatever its [is_active]. *)
Lemma updateDestination_spec (url code : string) (userId : option Z)
    (db : database) :
  unique_codes db ->
  match getStats code db with
  | Some r =>
      if owned_by userId r then
        exists before after,
          qr_codes db = (before ++ r :: after)%list
          /\ qr_codes (fst (updateDestination url code userId db))
             = (before ++ with_destination url r :: after)%list
          /\ users (fst (updateDestination url code userId db)) = users db
          /\ snd (updateDestination url code userId db) = 1
      else updateDestination url code userId db = (db, 0)
  | None => updateDestination url code userId db = (db, 0)
  end.
Proof.
  intros Hu.
  pose proof (update_by_code (owned_by userId) (with_destination url) code db Hu) as Hupd.
  unfold updateDestination. cbn [fst snd].
  destruct (getStats code db) as [r|].
  - destruct (owned_by userId r).
    + destruct Hupd as (before & after & Ht & Hs & Hc).
      exists before, after. rewrite Hs, Hc. now repeat split.
    + destruct Hupd as [-> ->]. now rewrite with_qr_codes_same.
  - destruct Hupd as [-> ->]. now rewrite with_qr_codes_same.
Qed.

Lemma deleteQR_spec (code : string) (userId : option Z) (db : database) :
  unique_codes db ->
  match getStats code db with
  | Some r =>
      if owned_by userId r then
        exists before after,
          qr_codes db = (before ++ r :: after)%list
          /\ qr_codes (fst (deleteQR code userId db))
             = (before ++ deactivated r :: after)%list
          /\ users (fst (deleteQR code userId db)) = users db
          /\ snd (deleteQR code userId db) = 1
      else deleteQR code userId db = (db, 0)
  | None => deleteQR code userId db = (db, 0)
  end.
Proof.
  intros Hu.
  pose proof (update_by_code (owned_by userId) deactivated code db Hu) as Hupd.
  unfold deleteQR. cbn [fst snd].
  destruct (getStats code db) as [r|].
  - destruct (owned_by userId r).
    + destruct Hupd as (before & after & Ht & Hs & Hc).
      exists before, after. rewrite Hs, Hc. now repeat split.
    + destruct Hupd as [-> ->]. now rewrite with_qr_codes_same.
  - destruct Hupd as [-> ->]. now rewrite with_qr_codes_same.
Qed.

Lemma owned_by_anonymous (userId : option Z) (r : qr_code) :
  user_id r = None -> owned_by userId r = false.
Proof. unfold owned_by. now intros ->. Qed.

Lemma owned_by_owner (userId : option Z) (r : qr_code) :
  owned_by userId r = true ->
  exists uid, userId = Some uid /\ user_id r = Some uid.
Proof.
  unfold owned_by, sql_eq. destruct (user_id r) as [a|], userId as [b|];
    try discriminate.
  intros E. apply Z.eqb_eq in E. subst. now exists b.
Qed.

End DbFacts.

(** ** Facts on the database of the Next.js application *)

Module LibDbFacts.
Import LibDb.

Lemma lib_with_qr_codes_same (db : database) : with_qr_codes db (qr_codes db) = db.
Proof. now destruct db. Qed.

Lemma lib_findByCode_getStats (code : string) (db : database) :
  unique_codes db ->
  findByCode code db =
  match getStats code db with
  | Some r => if is_active r =? 1 then Some r else None
  | None => None
  end.
Proof.
  intros Hu.
  exact (find_unique short_code code (fun r => is_active r =? 1) _ Hu).
Qed.

Lemma lib_getStats_in (db : database) (r : qr_code) :
  unique_codes db -> In r (qr_codes db) -> getStats (short_code r) db = Some r.
Proof. intros Hu Hin. exact (in_unique_find short_code _ r Hu Hin). Qed.

Lemma lib_getStats_code (code : string) (db : database) (r : qr_code) :
  getStats code db = Some r -> short_code r = code /\ In r (qr_codes db).
Proof. intros Hg. exact (find_key_some short_code code _ _ Hg). Qed.

Lemma lib_update_by_code (p : qr_code -> bool) (set : qr_code -> qr_code)
    (code : string) (db : database) :
  unique_codes db ->
  match getStats code db with
  | Some r =>
      if p r then
        exists before after,
          qr_codes db = (before ++ r :: after)%list
          /\ sql_update (fun r => has_code code r && p r) set (qr_codes db)
             = (before ++ set r :: after)%list
          /\ sql_count (fun r => has_code code r && p r) (qr_codes db) = 1
      else
        sql_update (fun r => has_code code r && p r) set (qr_codes db)
        = qr_codes db
        /\ sql_count (fun r => has_code code r && p r) (qr_codes db) = 0
  | None =>
      sql_update (fun r => has_code code r && p r) set (qr_codes db)
      = qr_codes db
      /\ sql_count (fun r => has_code code r && p r) (qr_codes db) = 0
  end.
Proof. intros Hu. exact (update_unique short_code code p set _ Hu). Qed.

Lemma lib_incrementScan_spec (code : string) (db : database) :
  unique_codes db ->
  match getStats code db with
  | Some r =>
      exists before after,
        qr_codes db = (before ++ r :: after)%list
        /\ qr_codes (incrementScan code db)
           = (before ++ scanned r :: after)%list
        /\ users (incrementScan code db) = users db
  | None => incrementScan code db = db
  end.
Proof.
  intros Hu. pose proof (lib_update_by_code (fun _ => true) scanned code db Hu) as Hupd.
  unfold incrementScan.
  assert (Hw : sql_update (has_code code) scanned (qr_codes db)
               = sql_update (fun r => has_code code r && true) scanned (qr_codes db)).
  { apply map_ext. intros r. now rewrite andb_true_r. }
  rewrite Hw.
  destruct (getStats code db) as [r|].
  - destruct Hupd as (before & after & Ht & Hs & Hc).
    exists before, after. rewrite Hs. now repeat split.
  - destruct Hupd as [-> _]. now rewrite lib_with_qr_codes_same.
Qed.

Lemma lib_updateDestination_spec (url code : string) (userId : option Z)
    (db : database) :
  unique_codes db ->
  match getStats code db with
  | Some r =>
      if owned_by userId r then
        exists before after,
          qr_codes db = (before ++ r :: after)%list
          /\ qr_codes (fst (updateDestination url code userId db))
             = (before ++ with_destination url r :: after)%list
          /\ users (fst (updateDestination url code userId db)) = users db
          /\ snd (updateDestination url code userId db) = 1
      else updateDestination url code userId db = (db, 0)
  | None => updateDestination url code userId db = (db, 0)
  end.
Proof.
  intros Hu.
  pose proof (lib_update_by_code (owned_by userId) (with_destination url) code db Hu) as Hupd.
  unfold updateDestination. cbn [fst snd].
  destruct (getStats code db) as [r|].
  - destruct (owned_by userId r).
    + destruct Hupd as (before & after & Ht & Hs & Hc).
      exists before, after. rewrite Hs, Hc. now repeat split.
    + destruct Hupd as [-> ->]. now rewrite lib_with_qr_codes_same.
  - destruct Hupd as [-> ->]. now rewrite lib_with_qr_codes_same.
Qed.

Lemma lib_deleteQR_spec (code : string) (userId : option Z) (db : database) :
  unique_codes db ->
  match getStats code db with
  | Some r =>
      if owned_by userId r then
        exists before after,
          qr_codes db = (before ++ r :: after)%list
          /\ qr_codes (fst (deleteQR code userId db))
             = (before ++ deactivated r :: after)%list
          /\ users (fst (deleteQR code userId db)) = users db
          /\ snd (deleteQR code userId db) = 1
      else deleteQR code userId db = (db, 0)
  | None => deleteQR code userId db = (db, 0)
  end.
Proof.
  intros Hu.
  pose proof (lib_update_by_code (owned_by userId) deactivated code db Hu) as Hupd.
  unfold deleteQR. cbn [fst snd].
  destruct (getStats code db) as [r|].
  - destruct (owned_by userId r).
    + destruct Hupd as (before & after & Ht & Hs & Hc).
      exists before, after. rewrite Hs, Hc. now repeat split.
    + destruct Hupd as [-> ->]. now rewrite lib_with_qr_codes_same.
  - destruct Hupd as [-> ->]. now rewrite lib_with_qr_codes_same.
Qed.

Lemma lib_owned_by_anonymous (userId : option Z) (r : qr_code) :
  user_id r = None -> owned_by userId r = false.
Proof. unfold owned_by. now intros ->. Qed.

Lemma lib_owned_by_owner (userId : option Z) (r : qr_code) :
  owned_by userId r = true ->
  exists uid, userId = Some uid /\ user_id r = Some uid.
Proof.
  unfold owned_by, sql_eq. destruct (user_id r) as [a|], userId as [b|];
    try discriminate.
  intros E. apply Z.eqb_eq in E. subst. now exists b.
Qed.

End LibDbFacts.

Ltac nodup_codes :=
  repeat (constructor; [simpl; intuition discriminate|]); constructor.


(** ** The redirect resolver *)

Section ResolverFacts.
Context `{Platform}.

(** The expiry check of the handlers is "set and in the past" on every
    record whose [expires_at] is not the empty text. *)
Lemma express_expired_past (r : Db.qr_code) (t : Z) :
  Db.expires_at r <> Some "" ->
  Express.expired r t = in_the_past (Db.expires_at r) t.
Proof.
  unfold Express.expired, in_the_past, date_before.
  destruct (Db.expires_at r) as [text|]; [|reflexivity].
  intros Hne. cbn [truthy].
  destruct (String.eqb text "") eqn:E; [|reflexivity].
  apply String.eqb_eq in E. now subst.
Qed.

Lemma next_expired_past (r : LibDb.qr_code) (t : Z) :
  LibDb.expires_at r <> Some "" ->
  Next.expired r t = in_the_past (LibDb.expires_at r) t.
Proof.
  unfold Next.expired, in_the_past, date_before.
  destruct (LibDb.expires_at r) as [text|]; [|reflexivity].
  intros Hne. cbn [truthy].
  destruct (String.eqb text "") eqn:E; [|reflexivity].
  apply String.eqb_eq in E. now subst.
Qed.

(** The password check of server.js against the specification's: they
    agree but on an array or object, where [bcrypt.compareSync] throws. *)
Lemma express_password_check (r : Db.qr_code) (q : query_value) :
  Db.password r <> Some "" ->
  (forall hash, Db.password r = Some hash -> compareSync "" hash = false) ->
  Express.password_missing r q
  = match Db.password r with
    | Some hash =>
        match q with
        | QNested => None
        | _ => Some (absent_or_fails q hash)
        end
    | None => Some false
    end.
Proof.
  intros Hne Hempty. unfold Express.password_missing.
  destruct (Db.password r) as [hash|]; [|reflexivity].
  assert (Hh : truthy (Some hash) = true).
  { cbn [truthy]. destruct (String.eqb hash "") eqn:E; [|reflexivity].
    apply String.eqb_eq in E. now subst. }
  rewrite Hh. destruct q as [|s|]; cbn [query_truthy negb absent_or_fails];
    try reflexivity.
  cbn [truthy]. destruct (String.eqb s "") eqn:E; cbn [negb]; [|reflexivity].
  apply String.eqb_eq in E. subst s. now rewrite (Hempty hash eq_refl).
Qed.

Lemma next_password_check (r : LibDb.qr_code) (pw : option string) :
  LibDb.password r <> Some "" ->
  (forall hash, LibDb.password r = Some hash -> compareSync "" hash = false) ->
  Next.password_missing r pw
  = match LibDb.password r with
    | Some hash => absent_or_fails (query_text pw) hash
    | None => false
    end.
Proof.
  intros Hne Hempty. unfold Next.password_missing.
  destruct (LibDb.password r) as [hash|]; [|reflexivity].
  assert (Hh : truthy (Some hash) = true).
  { cbn [truthy]. destruct (String.eqb hash "") eqn:E; [|reflexivity].
    apply String.eqb_eq in E. now subst. }
  rewrite Hh. cbn [andb].
  destruct pw as [s|]; cbn [query_text absent_or_fails]; [|reflexivity].
  cbn [truthy]. destruct (String.eqb s "") eqn:E; cbn [negb orb]; [|reflexivity].
  apply String.eqb_eq in E. subst s. now rewrite (Hempty hash eq_refl).
Qed.

(** What [incrementScan] does to the record with the code, column by
    column. *)
Lemma express_scan_effect (t : Z) (code : string) (db : Db.database)
    (r : Db.qr_code) :
  Db.unique_codes db ->
  Db.getStats code db = Some r ->
  exists r' before after,
    Db.qr_codes db = (before ++ r :: after)%list
    /\ Db.qr_codes (fst (Db.incrementScan t code db))
       = (before ++ r' :: after)%list
    /\ Db.users (fst (Db.incrementScan t code db)) = Db.users db
    /\ snd (Db.incrementScan t code db) = 1
    /\ Db.scan_count r' = Db.scan_count r + 1
    /\ Db.last_scanned_at r' = Some t
    /\ Db.id r' = Db.id r
    /\ Db.short_code r' = Db.short_code r
    /\ Db.destination_url r' = Db.destination_url r
    /\ Db.user_id r' = Db.user_id r
    /\ Db.created_at r' = Db.created_at r
    /\ Db.expires_at r' = Db.expires_at r
    /\ Db.password r' = Db.password r
    /\ Db.is_active r' = Db.is_active r.
Proof.
  intros Hu Hg. pose proof (DbFacts.incrementScan_spec t code db Hu) as Hs.
  rewrite Hg in Hs. destruct Hs as (before & after & Ht & Hq & Husers & Hc).
  exists (Db.scanned t r), before, after. now repeat split.
Qed.

Lemma next_scan_effect (code : string) (db : LibDb.database)
    (r : LibDb.qr_code) :
  LibDb.unique_codes db ->
  LibDb.getStats code db = Some r ->
  exists r' before after,
    LibDb.qr_codes db = (before ++ r :: after)%list
    /\ LibDb.qr_codes (LibDb.incrementScan code db)
       = (before ++ r' :: after)%list
    /\ LibDb.users (LibDb.incrementScan code db) = LibDb.users db
    /\ LibDb.scan_count r' = LibDb.scan_count r + 1
    /\ LibDb.id r' = LibDb.id r
    /\ LibDb.short_code r' = LibDb.short_code r
    /\ LibDb.destination_url r' = LibDb.destination_url r
    /\ LibDb.user_id r' = LibDb.user_id r
    /\ LibDb.created_at r' = LibDb.created_at r
    /\ LibDb.expires_at r' = LibDb.expires_at r
    /\ LibDb.password r' = LibDb.password r
    /\ LibDb.is_active r' = LibDb.is_active r.
Proof.
  intros Hu Hg. pose proof (LibDbFacts.lib_incrementScan_spec code db Hu) as Hs.
  rewrite Hg in Hs. destruct Hs as (before & after & Ht & Hq & Husers).
  exists (LibDb.scanned r), before, after. now repeat split.
Qed.

(** The redirect of server.js, branch by branch, for the record that has
    the code. *)
Lemma express_get_r_found (db : Db.database) (code : string)
    (q : query_value) (e : env) (r : Db.qr_code) :
  Db.unique_codes db ->
  Db.getStats code db = Some r ->
  Express.get_r code q e db
  = if negb (Db.is_active r =? 1) then (db, SendFile 404 "index.html")
    else if Express.expired r (now e)
    then (db, error 410 "This QR code has expired")
    else
      match Express.password_missing r q with
      | None => (db, error 500 "Server error")
      | Some true => (db, SendFile 200 "password.html")
      | Some false =>
          (fst (Db.incrementScan (now e) code db),
           Redirect 302 (Db.destination_url r))
      end.
Proof.
  intros Hu Hg. unfold Express.get_r.
  rewrite (DbFacts.findByCode_getStats code db Hu), Hg.
  now destruct (Db.is_active r =? 1).
Qed.

Lemma next_GET_r_found (db : LibDb.database) (origin code : string)
    (pw : option string) (e : env) (r : LibDb.qr_code) :
  LibDb.unique_codes db ->
  LibDb.getStats code db = Some r ->
  Next.GET_r origin code pw e db
  = if negb (LibDb.is_active r =? 1) then (db, Redirect 307 (origin ++ "/"))
    else if Next.expired r (now e)
    then (db, error 410 "This QR code has expired")
    else if Next.password_missing r pw
    then (db, Redirect 307 (origin ++ "/password/" ++ code))
    else (LibDb.incrementScan code db, Redirect 302 (LibDb.destination_url r)).
Proof.
  intros Hu Hg. unfold Next.GET_r.
  rewrite (LibDbFacts.lib_findByCode_getStats code db Hu), Hg.
  now destruct (LibDb.is_active r =? 1).
Qed.

Lemma express_not_found_absent (db : Db.database) (code : string)
    (q : query_value) (e : env) :
  Db.getStats code db = None ->
  Express.get_r code q e db = (db, SendFile 404 "index.html").
Proof.
  intros Hg. unfold Express.get_r, Db.findByCode, sql_first.
  apply (find_key_none Db.short_code) in Hg.
  pose proof (find_absent Db.short_code code
                (fun r => Db.is_active r =? 1) (Db.qr_codes db) Hg) as Hf.
  unfold key_is in Hf. unfold Db.has_code. now rewrite Hf.
Qed.

Lemma express_not_found_inactive (db : Db.database) (code : string)
    (q : query_value) (e : env) (r : Db.qr_code) :
  Db.unique_codes db ->
  Db.getStats code db = Some r ->
  Db.is_active r <> 1 ->
  Express.get_r code q e db = (db, SendFile 404 "index.html").
Proof.
  intros Hu Hg Hi. unfold Express.get_r.
  rewrite (DbFacts.findByCode_getStats code db Hu), Hg.
  apply Z.eqb_neq in Hi. now rewrite Hi.
Qed.

Lemma next_not_found_absent (db : LibDb.database) (origin code : string)
    (pw : option string) (e : env) :
  LibDb.getStats code db = None ->
  Next.GET_r origin code pw e db = (db, Redirect 307 (origin ++ "/")).
Proof.
  intros Hg. unfold Next.GET_r, LibDb.findByCode, sql_first.
  apply (find_key_none LibDb.short_code) in Hg.
  pose proof (find_absent LibDb.short_code code
                (fun r => LibDb.is_active r =? 1) (LibDb.qr_codes db) Hg) as Hf.
  unfold key_is in Hf. unfold LibDb.has_code. now rewrite Hf.
Qed.

Lemma next_not_found_inactive (db : LibDb.database) (origin code : string)
    (pw : option string) (e : env) (r : LibDb.qr_code) :
  LibDb.unique_codes db ->
  LibDb.getStats code db = Some r ->
  LibDb.is_active r <> 1 ->
  Next.GET_r origin code pw e db = (db, Redirect 307 (origin ++ "/")).
Proof.
  intros Hu Hg Hi. unfold Next.GET_r.
  rewrite (LibDbFacts.lib_findByCode_getStats code db Hu), Hg.
  apply Z.eqb_neq in Hi. now rewrite Hi.
Qed.

(** C1. The redirect against the decisions of the specification, for
    every request and every database with unique codes whose records are
    as the creation route writes them (no empty [expires_at], no empty
    hash, no hash that the empty text verifies against).

    The Next.js route answers the decision obtained by evaluating
    NOT_FOUND (no record, or an inactive one), EXPIRED, PASSWORD_REQUIRED,
    ALLOWED in this order. server.js does so too, with one exception:
    when the decision is PASSWORD_REQUIRED and the credential is an array
    or an object, it answers 500 "Server error" and not the password
    prompt.

    On both, when the decision is ALLOWED the one record with the code has
    its scan count raised by exactly one (on server.js its
    [last_scanned_at] set to the time of the request), every other column,
    row and the users unchanged; on every other decision, the exception
    included, the database is left as it was. *)
Theorem resolve_order_and_scan_count (db : Db.database)
    (ldb : LibDb.database) (origin code : string) (q : query_value)
    (pw : option string) (e : env) :
  Db.unique_codes db ->
  (forall r, In r (Db.qr_codes db) ->
     Db.expires_at r <> Some "" /\ Db.password r <> Some ""
     /\ forall hash, Db.password r = Some hash -> compareSync "" hash = false) ->
  LibDb.unique_codes ldb ->
  (forall r, In r (LibDb.qr_codes ldb) ->
     LibDb.expires_at r <> Some "" /\ LibDb.password r <> Some ""
     /\ forall hash, LibDb.password r = Some hash ->
                     compareSync "" hash = false) ->
  match express_resolve db code q (now e) with
  | NOT_FOUND =>
      Express.get_r code q e db = (db, SendFile 404 "index.html")
  | EXPIRED =>
      Express.get_r code q e db = (db, error 410 "This QR code has expired")
  | PASSWORD_REQUIRED =>
      Express.get_r code q e db
      = (db, match q with
             | QNested => error 500 "Server error"
             | _ => SendFile 200 "password.html"
             end)
  | ALLOWED destination =>
      snd (Express.get_r code q e db) = Redirect 302 destination
      /\ exists r r' before after,
           Db.short_code r = code
           /\ Db.is_active r = 1
           /\ Db.destination_url r = destination
           /\ Db.qr_codes db = (before ++ r :: after)%list
           /\ Db.qr_codes (fst (Express.get_r code q e db))
              = (before ++ r' :: after)%list
           /\ Db.users (fst (Express.get_r code q e db)) = Db.users db
           /\ Db.scan_count r' = Db.scan_count r + 1
           /\ Db.last_scanned_at r' = Some (now e)
           /\ Db.id r' = Db.id r
           /\ Db.short_code r' = Db.short_code r
           /\ Db.destination_url r' = Db.destination_url r
           /\ Db.user_id r' = Db.user_id r
           /\ Db.created_at r' = Db.created_at r
           /\ Db.expires_at r' = Db.expires_at r
           /\ Db.password r' = Db.password r
           /\ Db.is_active r' = Db.is_active r
  end
  /\ match next_resolve ldb code pw (now e) with
     | NOT_FOUND =>
         Next.GET_r origin code pw e ldb = (ldb, Redirect 307 (origin ++ "/"))
     | EXPIRED =>
         Next.GET_r origin code pw e ldb
         = (ldb, error 410 "This QR code has expired")
     | PASSWORD_REQUIRED =>
         Next.GET_r origin code pw e ldb
         = (ldb, Redirect 307 (origin ++ "/password/" ++ code))
     | ALLOWED destination =>
         snd (Next.GET_r origin code pw e ldb) = Redirect 302 destination
         /\ exists r r' before after,
              LibDb.short_code r = code
              /\ LibDb.is_active r = 1
              /\ LibDb.destination_url r = destination
              /\ LibDb.qr_codes ldb = (before ++ r :: after)%list
              /\ LibDb.qr_codes (fst (Next.GET_r origin code pw e ldb))
                 = (before ++ r' :: after)%list
              /\ LibDb.users (fst (Next.GET_r origin code pw e ldb))
                 = LibDb.users ldb
              /\ LibDb.scan_count r' = LibDb.scan_count r + 1
              /\ LibDb.id r' = LibDb.id r
              /\ LibDb.short_code r' = LibDb.short_code r
              /\ LibDb.destination_url r' = LibDb.destination_url r
              /\ LibDb.user_id r' = LibDb.user_id r
              /\ LibDb.created_at r' = LibDb.created_at r
              /\ LibDb.expires_at r' = LibDb.expires_at r
              /\ LibDb.password r' = LibDb.password r
              /\ LibDb.is_active r' = LibDb.is_active r
     end.
Proof.
  intros Hu Hw Hlu Hlw. split.
  - unfold express_resolve, resolve.
    change (find (fun r => String.eqb (Db.short_code r) code) (Db.qr_codes db))
      with (Db.getStats code db).
    destruct (Db.getStats code db) as [r|] eqn:Hg; cbn [option_map];
      [|exact (express_not_found_absent db code q e Hg)].
    destruct (DbFacts.getStats_code code db r Hg) as [Hcode Hin].
    destruct (Hw r Hin) as (He & Hp & Hc).
    rewrite (express_get_r_found db code q e r Hu Hg).
    rewrite (express_expired_past r (now e) He).
    rewrite (express_password_check r q Hp Hc).
    cbn [express_record active expiresAt passwordHash destination].
    destruct (Db.is_active r =? 1) eqn:Ha; cbn [negb]; [|reflexivity].
    apply Z.eqb_eq in Ha.
    destruct (in_the_past (Db.expires_at r) (now e)); [reflexivity|].
    assert (Hscan :
      exists r0 r' before after,
        Db.short_code r0 = code
        /\ Db.is_active r0 = 1
        /\ Db.destination_url r0 = Db.destination_url r
        /\ Db.qr_codes db = (before ++ r0 :: after)%list
        /\ Db.qr_codes (fst (Db.incrementScan (now e) code db))
           = (before ++ r' :: after)%list
        /\ Db.users (fst (Db.incrementScan (now e) code db)) = Db.users db
        /\ Db.scan_count r' = Db.scan_count r0 + 1
        /\ Db.last_scanned_at r' = Some (now e)
        /\ Db.id r' = Db.id r0
        /\ Db.short_code r' = Db.short_code r0
        /\ Db.destination_url r' = Db.destination_url r0
        /\ Db.user_id r' = Db.user_id r0
        /\ Db.created_at r' = Db.created_at r0
        /\ Db.expires_at r' = Db.expires_at r0
        /\ Db.password r' = Db.password r0
        /\ Db.is_active r' = Db.is_active r0).
    { destruct (express_scan_effect (now e) code db r Hu Hg)
        as (r' & before & after & Ht & Hq & Husers & _ & Hrest).
      exists r, r', before, after. now repeat split. }
    destruct (Db.password r) as [hash|].
    + destruct q as [|s|]; cbn [absent_or_fails]; try reflexivity.
      destruct (compareSync s hash); cbn [negb fst snd];
        [split; [reflexivity|exact Hscan] | reflexivity].
    + cbn [fst snd]. split; [reflexivity|exact Hscan].
  - unfold next_resolve, resolve.
    change (find (fun r => String.eqb (LibDb.short_code r) code)
              (LibDb.qr_codes ldb))
      with (LibDb.getStats code ldb).
    destruct (LibDb.getStats code ldb) as [r|] eqn:Hg; cbn [option_map];
      [|exact (next_not_found_absent ldb origin code pw e Hg)].
    destruct (LibDbFacts.lib_getStats_code code ldb r Hg) as [Hcode Hin].
    destruct (Hlw r Hin) as (He & Hp & Hc).
    rewrite (next_GET_r_found ldb origin code pw e r Hlu Hg).
    rewrite (next_expired_past r (now e) He).
    rewrite (next_password_check r pw Hp Hc).
    cbn [next_record active expiresAt passwordHash destination].
    destruct (LibDb.is_active r =? 1) eqn:Ha; cbn [negb]; [|reflexivity].
    apply Z.eqb_eq in Ha.
    destruct (in_the_past (LibDb.expires_at r) (now e)); [reflexivity|].
    assert (Hscan :
      exists r0 r' before after,
        LibDb.short_code r0 = code
        /\ LibDb.is_active r0 = 1
        /\ LibDb.destination_url r0 = LibDb.destination_url r
        /\ LibDb.qr_codes ldb = (before ++ r0 :: after)%list
        /\ LibDb.qr_codes (LibDb.incrementScan code ldb)
           = (before ++ r' :: after)%list
        /\ LibDb.users (LibDb.incrementScan code ldb) = LibDb.users ldb
        /\ LibDb.scan_count r' = LibDb.scan_count r0 + 1
        /\ LibDb.id r' = LibDb.id r0
        /\ LibDb.short_code r' = LibDb.short_code r0
        /\ LibDb.destination_url r' = LibDb.destination_url r0
        /\ LibDb.user_id r' = LibDb.user_id r0
        /\ LibDb.created_at r' = LibDb.created_at r0
        /\ LibDb.expires_at r' = LibDb.expires_at r0
        /\ LibDb.password r' = LibDb.password r0
        /\ LibDb.is_active r' = LibDb.is_active r0).
    { destruct (next_scan_effect code ldb r Hlu Hg)
        as (r' & before & after & Ht & Hq & Husers & Hrest).
      exists r, r', before, after. now repeat split. }
    destruct (LibDb.password r) as [hash|].
    + destruct (absent_or_fails (query_text pw) hash); cbn [fst snd];
        [reflexivity | split; [reflexivity|exact Hscan]].
    + cbn [fst snd]. split; [reflexivity|exact Hscan].
Qed.

(** C6. A code that no record has (in [db1], [ldb1]) and a code whose
    record is inactive (in [db2], [ldb2]) get the same answer to the same
    request, whatever its credential: the 404 with the landing page on
    server.js, the redirect to the landing page on the Next.js route;
    neither request changes its database. *)
Theorem not_found_indistinguishable (db1 db2 : Db.database)
    (ldb1 ldb2 : LibDb.database) (r : Db.qr_code) (lr : LibDb.qr_code)
    (origin code : string) (q : query_value) (pw : option string) (e : env) :
  Db.getStats code db1 = None ->
  Db.unique_codes db2 ->
  Db.getStats code db2 = Some r ->
  Db.is_active r <> 1 ->
  LibDb.getStats code ldb1 = None ->
  LibDb.unique_codes ldb2 ->
  LibDb.getStats code ldb2 = Some lr ->
  LibDb.is_active lr <> 1 ->
  (snd (Express.get_r code q e db1) = snd (Express.get_r code q e db2)
   /\ snd (Express.get_r code q e db1) = SendFile 404 "index.html"
   /\ fst (Express.get_r code q e db1) = db1
   /\ fst (Express.get_r code q e db2) = db2)
  /\ (snd (Next.GET_r origin code pw e ldb1)
      = snd (Next.GET_r origin code pw e ldb2)
      /\ snd (Next.GET_r origin code pw e ldb1) = Redirect 307 (origin ++ "/")
      /\ fst (Next.GET_r origin code pw e ldb1) = ldb1
      /\ fst (Next.GET_r origin code pw e ldb2) = ldb2).
Proof.
  intros Hg1 Hu2 Hg2 Hi2 Hlg1 Hlu2 Hlg2 Hli2.
  rewrite (express_not_found_absent db1 code q e Hg1).
  rewrite (express_not_found_inactive db2 code q e r Hu2 Hg2 Hi2).
  rewrite (next_not_found_absent ldb1 origin code pw e Hlg1).
  rewrite (next_not_found_inactive ldb2 origin code pw e lr Hlu2 Hlg2 Hli2).
  now repeat split.
Qed.

Lemma express_wrong_as_missing (r : Db.qr_code) (hash wrong : string) :
  Db.password r = Some hash ->
  compareSync wrong hash = false ->
  Express.password_missing r (QText wrong) = Express.password_missing r QAbsent.
Proof.
  intros Hp Hc. unfold Express.password_missing. rewrite Hp, Hc.
  cbn [query_truthy negb]. destruct (truthy (Some hash)); [|reflexivity].
  now destruct (truthy (Some wrong)).
Qed.

Lemma next_wrong_as_missing (r : LibDb.qr_code) (hash wrong : string) :
  LibDb.password r = Some hash ->
  compareSync wrong hash = false ->
  Next.password_missing r (Some wrong) = Next.password_missing r None.
Proof.
  intros Hp Hc. unfold Next.password_missing. rewrite Hp, Hc.
  cbn [negb]. now rewrite orb_true_r.
Qed.

(** C7. For a record with a stored password hash:

    - a text credential that does not verify against the hash gives the
      same result (response and database) as no credential, on both back
      ends; when the record is active, not expired and its hash is not
      the empty string, that result is the password prompt and an
      unchanged database. [searchParams.get] gives the Next.js route
      nothing but a text or no credential, so that route never tells a
      wrong credential from none;
    - on server.js a credential that is an array or an object
      ([?pw=a&pw=b]) is none that verifies, and for such a record it is
      answered 500 "Server error" and not the prompt: that wrong
      credential is told from no credential. *)
Theorem wrong_credential_answers (db : Db.database)
    (ldb : LibDb.database) (r : Db.qr_code) (lr : LibDb.qr_code)
    (hash lhash wrong origin : string) (e : env) :
  Db.unique_codes db ->
  In r (Db.qr_codes db) ->
  Db.password r = Some hash ->
  compareSync wrong hash = false ->
  LibDb.unique_codes ldb ->
  In lr (LibDb.qr_codes ldb) ->
  LibDb.password lr = Some lhash ->
  compareSync wrong lhash = false ->
  (Express.get_r (Db.short_code r) (QText wrong) e db
   = Express.get_r (Db.short_code r) QAbsent e db
   /\ (Db.is_active r = 1 -> Express.expired r (now e) = false ->
       hash <> "" ->
       Express.get_r (Db.short_code r) QAbsent e db
       = (db, SendFile 200 "password.html")
       /\ Express.get_r (Db.short_code r) QNested e db
          = (db, error 500 "Server error")
       /\ snd (Express.get_r (Db.short_code r) QNested e db)
          <> snd (Express.get_r (Db.short_code r) QAbsent e db)))
  /\ (Next.GET_r origin (LibDb.short_code lr) (Some wrong) e ldb
      = Next.GET_r origin (LibDb.short_code lr) None e ldb
      /\ (LibDb.is_active lr = 1 -> Next.expired lr (now e) = false ->
          lhash <> "" ->
          Next.GET_r origin (LibDb.short_code lr) None e ldb
          = (ldb, Redirect 307 (origin ++ "/password/" ++ LibDb.short_code lr)))).
Proof.
  intros Hu Hin Hp Hc Hlu Hlin Hlp Hlc. split.
  - rewrite !(express_get_r_found db _ _ e r Hu (DbFacts.getStats_in db r Hu Hin)).
    rewrite (express_wrong_as_missing r hash wrong Hp Hc).
    split; [reflexivity|]. intros Ha He Hh.
    apply Z.eqb_eq in Ha. rewrite Ha, He. cbn [negb].
    unfold Express.password_missing. rewrite Hp.
    apply String.eqb_neq in Hh. cbn [truthy query_truthy negb]. rewrite Hh.
    cbn [negb fst snd]. now repeat split.
  - unfold Next.GET_r.
    rewrite (LibDbFacts.lib_findByCode_getStats _ ldb Hlu),
            (LibDbFacts.lib_getStats_in ldb lr Hlu Hlin).
    destruct (LibDb.is_active lr =? 1) eqn:Ha.
    + rewrite (next_wrong_as_missing lr lhash wrong Hlp Hlc).
      split; [reflexivity|]. intros _ He Hh. rewrite He.
      unfold Next.password_missing. rewrite Hlp.
      apply String.eqb_neq in Hh. cbn [truthy]. now rewrite Hh.
    + split; [reflexivity|]. intros Hone. rewrite Hone in Ha. discriminate.
Qed.

End ResolverFacts.

(** The sample records are as the creation route writes them. *)
Lemma sample_records_written :
  (forall r, In r (Db.qr_codes Sample.E.db) ->
     Db.expires_at r <> Some "" /\ Db.password r <> Some ""
     /\ forall hash, Db.password r = Some hash ->
                     @compareSync Reference.platform "" hash = false)
  /\ (forall r, In r (LibDb.qr_codes Sample.N.db) ->
        LibDb.expires_at r <> Some "" /\ LibDb.password r <> Some ""
        /\ forall hash, LibDb.password r = Some hash ->
                        @compareSync Reference.platform "" hash = false).
Proof.
  split; intros r Hin; simpl in Hin;
    repeat (destruct Hin as [<-|Hin]; [|]); try contradiction;
    (split; [discriminate|]; split; [discriminate|]);
    intros hash Hh; simpl in Hh; try discriminate;
    injection Hh as <-; reflexivity.
Qed.

Lemma resolve_order_and_scan_count_witness :
  Db.unique_codes Sample.E.db
  /\ LibDb.unique_codes Sample.N.db
  /\ @Express.get_r Reference.platform "vault001" QNested Sample.at200
       Sample.E.db
     = (Sample.E.db, error 500 "Server error")
  /\ @Express.get_r Reference.platform "vault001" (QText "wrong") Sample.at200
       Sample.E.db
     = (Sample.E.db, SendFile 200 "password.html")
  /\ (exists r r' before after,
        Db.qr_codes Sample.E.db = (before ++ r :: after)%list
        /\ Db.qr_codes
             (fst (@Express.get_r Reference.platform "vault001"
                     (QText "secret123") Sample.at200 Sample.E.db))
           = (before ++ r' :: after)%list
        /\ Db.short_code r = "vault001"
        /\ Db.scan_count r' = Db.scan_count r + 1
        /\ Db.last_scanned_at r' = Some 200)
  /\ @Next.GET_r Reference.platform "https://qr.example" "retired1" None
       Sample.at200 Sample.N.db
     = (Sample.N.db, Redirect 307 "https://qr.example/").
Proof.
  assert (Hu : Db.unique_codes Sample.E.db)
    by (unfold Db.unique_codes; simpl; nodup_codes).
  assert (Hl : LibDb.unique_codes Sample.N.db)
    by (unfold LibDb.unique_codes; simpl; nodup_codes).
  destruct sample_records_written as [Hw Hlw].
  split; [exact Hu|]. split; [exact Hl|]. split; [|split; [|split]].
  - exact (proj1 (@resolve_order_and_scan_count Reference.platform
             Sample.E.db Sample.N.db "https://qr.example" "vault001"
             QNested None Sample.at200 Hu Hw Hl Hlw)).
  - exact (proj1 (@resolve_order_and_scan_count Reference.platform
             Sample.E.db Sample.N.db "https://qr.example" "vault001"
             (QText "wrong") None Sample.at200 Hu Hw Hl Hlw)).
  - destruct (proj1 (@resolve_order_and_scan_count Reference.platform
             Sample.E.db Sample.N.db "https://qr.example" "vault001"
             (QText "secret123") None Sample.at200 Hu Hw Hl Hlw))
      as (_ & r & r' & before & after & Hc & _ & _ & Ht & Hq & _ & Hs & Hls & _).
    exists r, r', before, after. now repeat split.
  - exact (proj2 (@resolve_order_and_scan_count Reference.platform
             Sample.E.db Sample.N.db "https://qr.example" "retired1"
             QAbsent None Sample.at200 Hu Hw Hl Hlw)).
Defined.

Lemma not_found_indistinguishable_witness :
  snd (@Express.get_r Reference.platform "retired1" QAbsent Sample.at200 Db.empty)
  = snd (@Express.get_r Reference.platform "retired1" QAbsent Sample.at200 Sample.E.db)
  /\ snd (@Next.GET_r Reference.platform "https://qr.example" "retired1" None
            Sample.at200 LibDb.empty)
     = snd (@Next.GET_r Reference.platform "https://qr.example" "retired1" None
              Sample.at200 Sample.N.db).
Proof.
  assert (Hu : Db.unique_codes Sample.E.db)
    by (unfold Db.unique_codes; simpl; nodup_codes).
  assert (Hl : LibDb.unique_codes Sample.N.db)
    by (unfold LibDb.unique_codes; simpl; nodup_codes).
  assert (Hi : Db.is_active Sample.E.retired1 <> 1) by (simpl; lia).
  assert (Hli : LibDb.is_active Sample.N.retired1 <> 1) by (simpl; lia).
  pose proof (@not_found_indistinguishable Reference.platform
                Db.empty Sample.E.db LibDb.empty Sample.N.db
                Sample.E.retired1 Sample.N.retired1
                "https://qr.example" "retired1" QAbsent None Sample.at200
                eq_refl Hu eq_refl Hi eq_refl Hl eq_refl Hli) as W.
  split; [exact (proj1 (proj1 W)) | exact (proj1 (proj2 W))].
Defined.

Lemma wrong_credential_answers_witness :
  @Express.get_r Reference.platform "vault001" (QText "wrong") Sample.at200
     Sample.E.db
  = (Sample.E.db, SendFile 200 "password.html")
  /\ @Express.get_r Reference.platform "vault001" QNested Sample.at200
       Sample.E.db
     = (Sample.E.db, error 500 "Server error")
  /\ @Next.GET_r Reference.platform "https://qr.example" "vault001"
       (Some "wrong") Sample.at200 Sample.N.db
     = (Sample.N.db, Redirect 307 "https://qr.example/password/vault001").
Proof.
  assert (Hu : Db.unique_codes Sample.E.db)
    by (unfold Db.unique_codes; simpl; nodup_codes).
  assert (Hl : LibDb.unique_codes Sample.N.db)
    by (unfold LibDb.unique_codes; simpl; nodup_codes).
  assert (Hin : In Sample.E.vault (Db.qr_codes Sample.E.db))
    by (simpl; auto).
  assert (Hlin : In Sample.N.vault (LibDb.qr_codes Sample.N.db))
    by (simpl; auto).
  assert (Hne : Sample.secret_hash <> "") by (vm_compute; discriminate).
  pose proof (@wrong_credential_answers Reference.platform
                Sample.E.db Sample.N.db Sample.E.vault Sample.N.vault
                Sample.secret_hash Sample.secret_hash "wrong"
                "https://qr.example" Sample.at200
                Hu Hin eq_refl eq_refl Hl Hlin eq_refl eq_refl) as W.
  destruct W as [[We1 We2] [Wn1 Wn2]].
  destruct (We2 eq_refl eq_refl Hne) as (Wa & Wb & _).
  split; [exact (eq_trans We1 Wa)|]. split; [exact Wb|].
  exact (eq_trans Wn1 (Wn2 eq_refl eq_refl Hne)).
Defined.

(** ** Ownership *)

Lemma express_call_nth (c : owner_call) (db : Db.database) (n : nat)
    (r : Db.qr_code) :
  nth_error (Db.qr_codes db) n = Some r ->
  nth_error (Db.qr_codes (express_call c db)) n = Some r
  \/ (Db.has_code (code_of c) r && Db.owned_by (caller_of c) r = true
      /\ nth_error (Db.qr_codes (express_call c db)) n
         = Some (match c with
                 | UpdateDestination url _ _ => Db.with_destination url r
                 | Deactivate _ _ => Db.deactivated r
                 end)).
Proof.
  intros Hn. destruct c as [url code userId|code userId]; cbn.
  - rewrite (update_nth _ (Db.with_destination url) _ n r Hn).
    destruct (Db.has_code code r && Db.owned_by userId r); auto.
  - rewrite (update_nth _ Db.deactivated _ n r Hn).
    destruct (Db.has_code code r && Db.owned_by userId r); auto.
Qed.

Lemma next_call_nth (c : owner_call) (db : LibDb.database) (n : nat)
    (r : LibDb.qr_code) :
  nth_error (LibDb.qr_codes db) n = Some r ->
  nth_error (LibDb.qr_codes (next_call c db)) n = Some r
  \/ (LibDb.has_code (code_of c) r && LibDb.owned_by (caller_of c) r = true
      /\ nth_error (LibDb.qr_codes (next_call c db)) n
         = Some (match c with
                 | UpdateDestination url _ _ => LibDb.with_destination url r
                 | Deactivate _ _ => LibDb.deactivated r
                 end)).
Proof.
  intros Hn. destruct c as [url code userId|code userId]; cbn.
  - rewrite (update_nth _ (LibDb.with_destination url) _ n r Hn).
    destruct (LibDb.has_code code r && LibDb.owned_by userId r); auto.
  - rewrite (update_nth _ LibDb.deactivated _ n r Hn).
    destruct (LibDb.has_code code r && LibDb.owned_by userId r); auto.
Qed.

(** A call leaves a row alone unless the caller's identity is the row's
    owner, and that owner is not NULL. *)
Lemma express_call_owner_only (c : owner_call) (db : Db.database) (n : nat)
    (r : Db.qr_code) :
  nth_error (Db.qr_codes db) n = Some r ->
  nth_error (Db.qr_codes (express_call c db)) n <> Some r ->
  exists uid, caller_of c = Some uid /\ Db.user_id r = Some uid
              /\ Db.short_code r = code_of c.
Proof.
  intros Hn Hd. destruct (express_call_nth c db n r Hn) as [Hs|[Hw _]];
    [contradiction|].
  apply andb_prop in Hw. destruct Hw as [Hc Ho].
  destruct (DbFacts.owned_by_owner _ _ Ho) as (uid & Hu & Hr).
  exists uid. repeat split; auto. now apply String.eqb_eq.
Qed.

Lemma next_call_owner_only (c : owner_call) (db : LibDb.database) (n : nat)
    (r : LibDb.qr_code) :
  nth_error (LibDb.qr_codes db) n = Some r ->
  nth_error (LibDb.qr_codes (next_call c db)) n <> Some r ->
  exists uid, caller_of c = Some uid /\ LibDb.user_id r = Some uid
              /\ LibDb.short_code r = code_of c.
Proof.
  intros Hn Hd. destruct (next_call_nth c db n r Hn) as [Hs|[Hw _]];
    [contradiction|].
  apply andb_prop in Hw. destruct Hw as [Hc Ho].
  destruct (LibDbFacts.lib_owned_by_owner _ _ Ho) as (uid & Hu & Hr).
  exists uid. repeat split; auto. now apply String.eqb_eq.
Qed.

Lemma express_calls_anonymous (cs : list owner_call) (db : Db.database)
    (n : nat) (r : Db.qr_code) :
  nth_error (Db.qr_codes db) n = Some r ->
  Db.user_id r = None ->
  nth_error (Db.qr_codes (express_calls cs db)) n = Some r.
Proof.
  revert db. induction cs as [|c cs IH]; intros db Hn Ha; [exact Hn|].
  cbn. apply IH; [|exact Ha].
  destruct (express_call_nth c db n r Hn) as [Hs|[Hw _]]; [exact Hs|].
  rewrite (DbFacts.owned_by_anonymous _ r Ha), andb_false_r in Hw. discriminate.
Qed.

Lemma next_calls_anonymous (cs : list owner_call) (db : LibDb.database)
    (n : nat) (r : LibDb.qr_code) :
  nth_error (LibDb.qr_codes db) n = Some r ->
  LibDb.user_id r = None ->
  nth_error (LibDb.qr_codes (next_calls cs db)) n = Some r.
Proof.
  revert db. induction cs as [|c cs IH]; intros db Hn Ha; [exact Hn|].
  cbn. apply IH; [|exact Ha].
  destruct (next_call_nth c db n r Hn) as [Hs|[Hw _]]; [exact Hs|].
  rewrite (LibDbFacts.lib_owned_by_anonymous _ r Ha), andb_false_r in Hw.
  discriminate.
Qed.

Section OwnerRequestFacts.
Context `{Platform}.

(** A PUT or DELETE request does nothing to the database, or what one call
    with the identity of its token does. *)
Lemma express_request_call (q : owner_request) (db : Db.database) :
  express_request q db = db
  \/ exists c uid, caller_of c = Some uid /\ express_request q db = express_call c db.
Proof.
  destruct q as [a code url|a code]; cbn.
  - unfold Express.put_api_qr. destruct (Express.authRequired a) as [resp|user]; auto.
    destruct url as [url|]; auto.
    destruct (negb (truthy (Some url))); auto.
    destruct (URL url); auto.
    right. exists (UpdateDestination url code (Some (auth_id user))), (auth_id user).
    split; [reflexivity|].
    now destruct (snd (Db.updateDestination url code (Some (auth_id user)) db) =? 0).
  - unfold Express.delete_api_qr. destruct (Express.authRequired a) as [resp|user]; auto.
    right. exists (Deactivate code (Some (auth_id user))), (auth_id user).
    split; [reflexivity|].
    now destruct (snd (Db.deleteQR code (Some (auth_id user)) db) =? 0).
Qed.

Lemma next_request_call (q : owner_request) (db : LibDb.database) :
  next_request q db = db
  \/ exists c uid, caller_of c = Some uid /\ next_request q db = next_call c db.
Proof.
  destruct q as [a code url|a code]; cbn.
  - unfold Next.PUT_qr. destruct (Next.getAuthUser a) as [user|]; auto.
    destruct url as [url|]; auto.
    destruct (negb (truthy (Some url))); auto.
    destruct (URL url); auto.
    right. exists (UpdateDestination url code (Some (auth_id user))), (auth_id user).
    split; [reflexivity|].
    now destruct (snd (LibDb.updateDestination url code (Some (auth_id user)) db) =? 0).
  - unfold Next.DELETE_qr. destruct (Next.getAuthUser a) as [user|]; auto.
    right. exists (Deactivate code (Some (auth_id user))), (auth_id user).
    split; [reflexivity|].
    now destruct (snd (LibDb.deleteQR code (Some (auth_id user)) db) =? 0).
Qed.

Lemma express_requests_anonymous (qs : list owner_request) (db : Db.database)
    (n : nat) (r : Db.qr_code) :
  nth_error (Db.qr_codes db) n = Some r ->
  Db.user_id r = None ->
  nth_error (Db.qr_codes (express_requests qs db)) n = Some r.
Proof.
  revert db. induction qs as [|q qs IH]; intros db Hn Ha; [exact Hn|].
  cbn. apply IH; [|exact Ha].
  destruct (express_request_call q db) as [->|(c & uid & _ & ->)]; [exact Hn|].
  exact (express_calls_anonymous [c] db n r Hn Ha).
Qed.

Lemma next_requests_anonymous (qs : list owner_request) (db : LibDb.database)
    (n : nat) (r : LibDb.qr_code) :
  nth_error (LibDb.qr_codes db) n = Some r ->
  LibDb.user_id r = None ->
  nth_error (LibDb.qr_codes (next_requests qs db)) n = Some r.
Proof.
  revert db. induction qs as [|q qs IH]; intros db Hn Ha; [exact Hn|].
  cbn. apply IH; [|exact Ha].
  destruct (next_request_call q db) as [->|(c & uid & _ & ->)]; [exact Hn|].
  exact (next_calls_anonymous [c] db n r Hn Ha).
Qed.

(** C8. On both back ends, a record whose owner is NULL is, after any
    sequence of [updateDestination] and [deleteQR] calls under any identity
    (NULL included) and after any sequence of PUT and DELETE requests with
    any token, the very same row at the same place. And a single call
    changes a row only if the caller's identity is a non-NULL id equal to
    the row's owner (and the code is the row's). *)
Theorem anonymous_records_immutable (db : Db.database) (ldb : LibDb.database)
    (n m : nat) (r : Db.qr_code) (lr : LibDb.qr_code) :
  nth_error (Db.qr_codes db) n = Some r ->
  nth_error (LibDb.qr_codes ldb) m = Some lr ->
  (Db.user_id r = None ->
   (forall cs, nth_error (Db.qr_codes (express_calls cs db)) n = Some r)
   /\ (forall qs, nth_error (Db.qr_codes (express_requests qs db)) n = Some r))
  /\ (LibDb.user_id lr = None ->
      (forall cs, nth_error (LibDb.qr_codes (next_calls cs ldb)) m = Some lr)
      /\ (forall qs, nth_error (LibDb.qr_codes (next_requests qs ldb)) m = Some lr))
  /\ (forall c,
        nth_error (Db.qr_codes (express_call c db)) n <> Some r ->
        exists uid, caller_of c = Some uid /\ Db.user_id r = Some uid
                    /\ Db.short_code r = code_of c)
  /\ (forall c,
        nth_error (LibDb.qr_codes (next_call c ldb)) m <> Some lr ->
        exists uid, caller_of c = Some uid /\ LibDb.user_id lr = Some uid
                    /\ LibDb.short_code lr = code_of c).
Proof.
  intros Hn Hm. repeat split.
  - intros cs. now apply express_calls_anonymous.
  - intros qs. now apply express_requests_anonymous.
  - intros cs. now apply next_calls_anonymous.
  - intros qs. now apply next_requests_anonymous.
  - intros c. now apply express_call_owner_only.
  - intros c. now apply next_call_owner_only.
Qed.

End OwnerRequestFacts.

Lemma anonymous_records_immutable_witness :
  nth_error (Db.qr_codes Sample.E.db) 0 = Some Sample.E.menu
  /\ nth_error (LibDb.qr_codes Sample.N.db) 0 = Some Sample.N.menu
  /\ nth_error
       (Db.qr_codes
          (@express_requests Reference.platform
             [Put (Token Sample.alice) "AAECAwQF" (Some "https://example.com/x");
              Delete (Token Sample.bob) "AAECAwQF"]
             Sample.E.db)) 0
     = Some Sample.E.menu
  /\ nth_error
       (LibDb.qr_codes
          (next_calls [UpdateDestination "https://example.com/x" "AAECAwQF" None;
                       Deactivate "AAECAwQF" (Some 7)]
             Sample.N.db)) 0
     = Some Sample.N.menu.
Proof.
  pose proof (@anonymous_records_immutable Reference.platform
                Sample.E.db Sample.N.db 0%nat 0%nat Sample.E.menu Sample.N.menu
                eq_refl eq_refl) as W.
  destruct W as (We & Wn & _).
  split; [reflexivity|]. split; [reflexivity|]. split.
  - exact (proj2 (We eq_refl) _).
  - exact (proj1 (Wn eq_refl) _).
Defined.

(** ** updateDestination and incrementScan on deactivated records *)

(** A deactivated record of alice: her [updateDestination] rewrites its
    destination and reports one changed row, on both back ends. *)
Lemma updateDestination_inactive_counterexample :
  Db.is_active Sample.E.retired1 = 0
  /\ Db.updateDestination "https://example.com/new" "retired1" (Some 7)
       Sample.E.db
     <> (Sample.E.db, 0)
  /\ snd (Db.updateDestination "https://example.com/new" "retired1" (Some 7)
            Sample.E.db) = 1
  /\ option_map Db.destination_url (Db.getStats "retired1" Sample.E.db)
     = Some "https://example.com/old"
  /\ option_map Db.destination_url
       (Db.getStats "retired1"
          (fst (Db.updateDestination "https://example.com/new" "retired1"
                  (Some 7) Sample.E.db)))
     = Some "https://example.com/new"
  /\ LibDb.is_active Sample.N.retired1 = 0
  /\ snd (LibDb.updateDestination "https://example.com/new" "retired1" (Some 7)
            Sample.N.db) = 1
  /\ option_map LibDb.destination_url
       (LibDb.getStats "retired1"
          (fst (LibDb.updateDestination "https://example.com/new" "retired1"
                  (Some 7) Sample.N.db)))
     = Some "https://example.com/new".
Proof.
  split; [reflexivity|]. split; [|now vm_compute].
  intros E. apply (f_equal snd) in E. vm_compute in E. discriminate.
Qed.

(** C4, amended. On both back ends, with unique codes:
    [updateDestination(url, code, userId)] rewrites the one record with the
    code exactly when that record's owner equals [userId] (a NULL on
    either side never matches), whether the record is active or not. The
    record's destination is then [url], its other columns, the other rows
    and the users are as they were, and one changed row is reported. In
    every other case the database is unchanged and zero rows are
    reported. *)
Theorem updateDestination_owner_only (url code : string) (userId : option Z)
    (db : Db.database) (ldb : LibDb.database) :
  Db.unique_codes db ->
  LibDb.unique_codes ldb ->
  match Db.getStats code db with
  | Some r =>
      if sql_eq (Db.user_id r) userId then
        exists r' before after,
          Db.qr_codes db = (before ++ r :: after)%list
          /\ Db.qr_codes (fst (Db.updateDestination url code userId db))
             = (before ++ r' :: after)%list
          /\ Db.users (fst (Db.updateDestination url code userId db))
             = Db.users db
          /\ snd (Db.updateDestination url code userId db) = 1
          /\ Db.destination_url r' = url
          /\ Db.id r' = Db.id r
          /\ Db.short_code r' = Db.short_code r
          /\ Db.user_id r' = Db.user_id r
          /\ Db.scan_count r' = Db.scan_count r
          /\ Db.created_at r' = Db.created_at r
          /\ Db.last_scanned_at r' = Db.last_scanned_at r
          /\ Db.expires_at r' = Db.expires_at r
          /\ Db.password r' = Db.password r
          /\ Db.is_active r' = Db.is_active r
      else Db.updateDestination url code userId db = (db, 0)
  | None => Db.updateDestination url code userId db = (db, 0)
  end
  /\ match LibDb.getStats code ldb with
     | Some r =>
         if sql_eq (LibDb.user_id r) userId then
           exists r' before after,
             LibDb.qr_codes ldb = (before ++ r :: after)%list
             /\ LibDb.qr_codes (fst (LibDb.updateDestination url code userId ldb))
                = (before ++ r' :: after)%list
             /\ LibDb.users (fst (LibDb.updateDestination url code userId ldb))
                = LibDb.users ldb
             /\ snd (LibDb.updateDestination url code userId ldb) = 1
             /\ LibDb.destination_url r' = url
             /\ LibDb.id r' = LibDb.id r
             /\ LibDb.short_code r' = LibDb.short_code r
             /\ LibDb.user_id r' = LibDb.user_id r
             /\ LibDb.scan_count r' = LibDb.scan_count r
             /\ LibDb.created_at r' = LibDb.created_at r
             /\ LibDb.expires_at r' = LibDb.expires_at r
             /\ LibDb.password r' = LibDb.password r
             /\ LibDb.is_active r' = LibDb.is_active r
         else LibDb.updateDestination url code userId ldb = (ldb, 0)
     | None => LibDb.updateDestination url code userId ldb = (ldb, 0)
     end.
Proof.
  intros Hu Hl. split.
  - pose proof (DbFacts.updateDestination_spec url code userId db Hu) as Hs.
    unfold Db.owned_by in Hs.
    destruct (Db.getStats code db) as [r|]; [|exact Hs].
    destruct (sql_eq (Db.user_id r) userId); [|exact Hs].
    destruct Hs as (before & after & Ht & Hq & Husers & Hc).
    exists (Db.with_destination url r), before, after. now repeat split.
  - pose proof (LibDbFacts.lib_updateDestination_spec url code userId ldb Hl)
      as Hs.
    unfold LibDb.owned_by in Hs.
    destruct (LibDb.getStats code ldb) as [r|]; [|exact Hs].
    destruct (sql_eq (LibDb.user_id r) userId); [|exact Hs].
    destruct Hs as (before & after & Ht & Hq & Husers & Hc).
    exists (LibDb.with_destination url r), before, after. now repeat split.
Qed.

Lemma updateDestination_owner_only_witness :
  Db.unique_codes Sample.E.db
  /\ LibDb.unique_codes Sample.N.db
  /\ Db.updateDestination "https://example.com/new" "vault001" (Some 8)
       Sample.E.db
     = (Sample.E.db, 0)
  /\ (exists r' before after,
        Db.qr_codes
          (fst (Db.updateDestination "https://example.com/new" "vault001"
                  (Some 7) Sample.E.db))
        = (before ++ r' :: after)%list
        /\ snd (Db.updateDestination "https://example.com/new" "vault001"
                  (Some 7) Sample.E.db) = 1
        /\ Db.short_code r' = "vault001"
        /\ Db.destination_url r' = "https://example.com/new")
  /\ LibDb.updateDestination "https://example.com/new" "AAECAwQF" None
       Sample.N.db
     = (Sample.N.db, 0)
  /\ (exists r' before after,
        LibDb.qr_codes
          (fst (LibDb.updateDestination "https://example.com/new" "retired1"
                  (Some 7) Sample.N.db))
        = (before ++ r' :: after)%list
        /\ LibDb.short_code r' = "retired1"
        /\ LibDb.is_active r' = 0
        /\ LibDb.destination_url r' = "https://example.com/new").
Proof.
  assert (Hu : Db.unique_codes Sample.E.db)
    by (unfold Db.unique_codes; simpl; nodup_codes).
  assert (Hl : LibDb.unique_codes Sample.N.db)
    by (unfold LibDb.unique_codes; simpl; nodup_codes).
  split; [exact Hu|]. split; [exact Hl|]. split; [|split; [|split]].
  - exact (proj1 (updateDestination_owner_only "https://example.com/new"
                    "vault001" (Some 8) Sample.E.db Sample.N.db Hu Hl)).
  - destruct (proj1 (updateDestination_owner_only "https://example.com/new"
                       "vault001" (Some 7) Sample.E.db Sample.N.db Hu Hl))
      as (r' & before & after & _ & Hq & _ & Hc & Hd & _ & Hk & _).
    exists r', before, after. now repeat split.
  - exact (proj2 (updateDestination_owner_only "https://example.com/new"
                    "AAECAwQF" None Sample.E.db Sample.N.db Hu Hl)).
  - destruct (proj2 (updateDestination_owner_only "https://example.com/new"
                       "retired1" (Some 7) Sample.E.db Sample.N.db Hu Hl))
      as (r' & before & after & _ & Hq & _ & _ & Hd & _ & Hk & _ & _ & _ & _
          & _ & Ha).
    exists r', before, after. now repeat split.
Defined.




(** ** The quota on the creation path *)

Section QuotaFacts.
Context `{Platform}.

(** The answer of the creation path once the request is past validation
    and the owner's row is found: server.js compares [countUserQRs], which
    on db.js counts every record of the owner, deactivated ones included. *)
Lemma express_quota_decision (u : auth_user) (body : create_body) (e : env)
    (db : Db.database) (url protocol : string) (user : Db.user) :
  body_url body = Some url ->
  url <> "" ->
  URL url = Some protocol ->
  existsb (String.eqb protocol) ["http:"; "https:"] = true ->
  Z.of_nat (String.length url) <= 2048 ->
  auth_id u <> 0 ->
  Db.findUserById (auth_id u) db = Some user ->
  Express.post_api_qr (Token u) body e db =
  if num_ge (Db.countUserQRs (Some (auth_id u)) db)
            (Express.limit_of (Db.u_plan user))
  then (db, Json 403
              [("error", JStr ("Free plan limit reached ("
                               ++ (number_to_string (Express.limit_of (Db.u_plan user))
                                   ++ " QR codes). Upgrade to Pro for more.")));
               ("upgrade", JBool true)])
  else Express.insert_qr (Some (auth_id u)) url body e db.
Proof.
  intros Hb Hne Hurl Hp Hlen Hid Hf. unfold Express.post_api_qr.
  rewrite Hb. apply String.eqb_neq in Hne. cbn [truthy]. rewrite Hne. cbn [negb].
  rewrite Hurl, Hp. cbn [negb].
  assert (Hl : (Z.of_nat (String.length url) >? 2048) = false) by lia.
  rewrite Hl. cbn [Express.req_user option_map truthy_num].
  apply Z.eqb_neq in Hid. rewrite Hid. cbn [negb]. rewrite Hf. reflexivity.
Qed.

(** The same on the Next.js route, where [countUserQRs] of lib/db.js counts
    the owner's active records only. *)
Lemma next_quota_decision (u : auth_user) (body : create_body)
    (h : Next.headers) (e : env) (db : LibDb.database) (url protocol : string)
    (user : LibDb.user) :
  body_url body = Some url ->
  url <> "" ->
  URL url = Some protocol ->
  existsb (String.eqb protocol) ["http:"; "https:"] = true ->
  Z.of_nat (String.length url) <= 2048 ->
  auth_id u <> 0 ->
  LibDb.findUserById (auth_id u) db = Some user ->
  Next.POST_qr (Token u) body h e db =
  if num_ge (sql_count (fun r => LibDb.owned_by (Some (auth_id u)) r
                                 && (LibDb.is_active r =? 1))
                       (LibDb.qr_codes db))
            (Next.limit_of (LibDb.u_plan user))
  then (db, Json 403
              [("error", JStr ("Plan limit reached ("
                               ++ (number_to_string (Next.limit_of (LibDb.u_plan user))
                                   ++ " QR codes). Upgrade for more.")));
               ("upgrade", JBool true)])
  else Next.insert_qr (Some (auth_id u)) url body h e db.
Proof.
  intros Hb Hne Hurl Hp Hlen Hid Hf. unfold Next.POST_qr.
  rewrite Hb. apply String.eqb_neq in Hne. cbn [truthy]. rewrite Hne. cbn [negb].
  rewrite Hurl, Hp. cbn [negb].
  assert (Hl : (Z.of_nat (String.length url) >? 2048) = false) by lia.
  rewrite Hl. cbn [Next.getAuthUser option_map truthy_num].
  apply Z.eqb_neq in Hid. rewrite Hid. cbn [negb]. rewrite Hf. reflexivity.
Qed.

(** C2, at a failing input: alice is on the free plan (limit 2) and owns
    two records, both deactivated, so her count of active records is 0.
    On server.js her creation request is refused with the 403 that carries
    [upgrade: true]; the same request on the Next.js route is past the
    quota and answered by the insert. *)
Theorem express_quota_counts_deactivated (e : env) :
  URL "https://example.com/menu" = Some "https:" ->
  express_countActive (Some (auth_id Sample.alice)) Sample.E.db_retired = 0
  /\ Express.limit_of "free" = Num 2
  /\ Express.post_api_qr (Token Sample.alice) Sample.menu_body e
       Sample.E.db_retired
     = (Sample.E.db_retired,
        Json 403
          [("error",
            JStr "Free plan limit reached (2 QR codes). Upgrade to Pro for more.");
           ("upgrade", JBool true)])
  /\ Next.POST_qr (Token Sample.alice) Sample.menu_body Sample.no_headers e
       Sample.N.db_retired
     = Next.insert_qr (Some 7) "https://example.com/menu" Sample.menu_body
         Sample.no_headers e Sample.N.db_retired.
Proof.
  intros Hurl. split; [reflexivity|]. split; [reflexivity|]. split.
  - rewrite (express_quota_decision Sample.alice Sample.menu_body e
               Sample.E.db_retired "https://example.com/menu" "https:"
               Sample.E.alice_row);
      try reflexivity; try discriminate; try exact Hurl.
  - rewrite (next_quota_decision Sample.alice Sample.menu_body
               Sample.no_headers e
               Sample.N.db_retired "https://example.com/menu" "https:"
               Sample.N.alice_row);
      try reflexivity; try discriminate; try exact Hurl.
Qed.

End QuotaFacts.

Lemma express_quota_counts_deactivated_witness :
  @URL Reference.platform "https://example.com/menu" = Some "https:"
  /\ status_of
       (snd (@Express.post_api_qr Reference.platform (Token Sample.alice)
               Sample.menu_body Sample.at200 Sample.E.db_retired)) = 403
  /\ status_of
       (snd (@Next.POST_qr Reference.platform (Token Sample.alice)
               Sample.menu_body Sample.no_headers Sample.at200
               Sample.N.db_retired)) = 201.
Proof.
  pose proof (@express_quota_counts_deactivated Reference.platform
                Sample.at200 eq_refl) as W.
  destruct W as (_ & _ & We & Wn).
  split; [reflexivity|]. split.
  - exact (f_equal (fun o => status_of (snd o)) We).
  - exact (f_equal (fun o => status_of (snd o)) Wn).
Defined.

(** ** Validation of destinations *)

Section DestinationFacts.
Context `{Platform}.

(** The creation path refuses a destination that is not http/https or is
    longer than 2048 characters, with a 400 and an unchanged database. *)
Lemma express_create_validates (a : authorization) (body : create_body)
    (e : env) (db : Db.database) (url protocol : string) :
  body_url body = Some url ->
  URL url = Some protocol ->
  existsb (String.eqb protocol) ["http:"; "https:"] = false
  \/ 2048 < Z.of_nat (String.length url) ->
  fst (Express.post_api_qr a body e db) = db
  /\ status_of (snd (Express.post_api_qr a body e db)) = 400.
Proof.
  intros Hb Hurl Hbad. unfold Express.post_api_qr. rewrite Hb.
  destruct (negb (truthy (Some url))); [now split|]. rewrite Hurl.
  destruct (existsb (String.eqb protocol) ["http:"; "https:"]); cbn [negb];
    [|now split].
  destruct Hbad as [Hbad|Hbad]; [discriminate|].
  assert (Hl : (Z.of_nat (String.length url) >? 2048) = true) by lia.
  rewrite Hl. now split.
Qed.

Lemma next_create_validates (a : authorization) (body : create_body)
    (h : Next.headers) (e : env) (db : LibDb.database) (url protocol : string) :
  body_url body = Some url ->
  URL url = Some protocol ->
  existsb (String.eqb protocol) ["http:"; "https:"] = false
  \/ 2048 < Z.of_nat (String.length url) ->
  fst (Next.POST_qr a body h e db) = db
  /\ status_of (snd (Next.POST_qr a body h e db)) = 400.
Proof.
  intros Hb Hurl Hbad. unfold Next.POST_qr. rewrite Hb.
  destruct (negb (truthy (Some url))); [now split|]. rewrite Hurl.
  destruct (existsb (String.eqb protocol) ["http:"; "https:"]); cbn [negb];
    [|now split].
  destruct Hbad as [Hbad|Hbad]; [discriminate|].
  assert (Hl : (Z.of_nat (String.length url) >? 2048) = true) by lia.
  rewrite Hl. now split.
Qed.

(** The update path takes any text that parses as a URL. *)
Lemma express_put_any_url (u : auth_user) (db : Db.database) (r : Db.qr_code)
    (url protocol : string) :
  Db.unique_codes db ->
  In r (Db.qr_codes db) ->
  Db.user_id r = Some (auth_id u) ->
  url <> "" ->
  URL url = Some protocol ->
  status_of (snd (Express.put_api_qr (Token u) (Db.short_code r) (Some url) db))
  = 200
  /\ In (Db.with_destination url r)
        (Db.qr_codes
           (fst (Express.put_api_qr (Token u) (Db.short_code r) (Some url) db))).
Proof.
  intros Hu Hin Ho Hne Hurl. unfold Express.put_api_qr.
  cbn [Express.authRequired]. apply String.eqb_neq in Hne.
  cbn [truthy]. rewrite Hne. cbn [negb]. rewrite Hurl.
  pose proof (DbFacts.updateDestination_spec url (Db.short_code r)
                (Some (auth_id u)) db Hu) as Hs.
  rewrite (DbFacts.getStats_in db r Hu Hin) in Hs.
  unfold Db.owned_by, sql_eq in Hs. rewrite Ho, Z.eqb_refl in Hs.
  destruct Hs as (before & after & Ht & Hq & _ & Hc).
  rewrite Hc. cbn [Z.eqb fst snd status_of]. split; [reflexivity|].
  rewrite Hq. apply in_or_app. right. now left.
Qed.

Lemma next_put_any_url (u : auth_user) (db : LibDb.database)
    (r : LibDb.qr_code) (url protocol : string) :
  LibDb.unique_codes db ->
  In r (LibDb.qr_codes db) ->
  LibDb.user_id r = Some (auth_id u) ->
  url <> "" ->
  URL url = Some protocol ->
  status_of (snd (Next.PUT_qr (Token u) (LibDb.short_code r) (Some url) db))
  = 200
  /\ In (LibDb.with_destination url r)
        (LibDb.qr_codes
           (fst (Next.PUT_qr (Token u) (LibDb.short_code r) (Some url) db))).
Proof.
  intros Hu Hin Ho Hne Hurl. unfold Next.PUT_qr.
  cbn [Next.getAuthUser]. apply String.eqb_neq in Hne.
  cbn [truthy]. rewrite Hne. cbn [negb]. rewrite Hurl.
  pose proof (LibDbFacts.lib_updateDestination_spec url (LibDb.short_code r)
                (Some (auth_id u)) db Hu) as Hs.
  rewrite (LibDbFacts.lib_getStats_in db r Hu Hin) in Hs.
  unfold LibDb.owned_by, sql_eq in Hs. rewrite Ho, Z.eqb_refl in Hs.
  destruct Hs as (before & after & Ht & Hq & _ & Hc).
  rewrite Hc. cbn [Z.eqb fst snd status_of]. split; [reflexivity|].
  rewrite Hq. apply in_or_app. right. now left.
Qed.

(** C3, at its failing inputs. Let [url] be a text that the URL parser
    accepts with a protocol other than http/https, or one longer than 2048
    characters. The creation path of both back ends refuses it with a 400
    and stores nothing; the update path of both back ends, asked by the
    owner of a record, answers 200 and stores [url] as that record's
    destination. *)
Theorem update_accepts_any_url (u : auth_user) (a : authorization)
    (body : create_body) (h : Next.headers) (e : env)
    (db : Db.database) (ldb : LibDb.database)
    (r : Db.qr_code) (lr : LibDb.qr_code) (url protocol : string) :
  Db.unique_codes db ->
  In r (Db.qr_codes db) ->
  Db.user_id r = Some (auth_id u) ->
  LibDb.unique_codes ldb ->
  In lr (LibDb.qr_codes ldb) ->
  LibDb.user_id lr = Some (auth_id u) ->
  url <> "" ->
  URL url = Some protocol ->
  existsb (String.eqb protocol) ["http:"; "https:"] = false
  \/ 2048 < Z.of_nat (String.length url) ->
  body_url body = Some url ->
  (status_of (snd (Express.post_api_qr a body e db)) = 400
   /\ fst (Express.post_api_qr a body e db) = db
   /\ status_of (snd (Express.put_api_qr (Token u) (Db.short_code r) (Some url) db))
      = 200
   /\ In (Db.with_destination url r)
         (Db.qr_codes
            (fst (Express.put_api_qr (Token u) (Db.short_code r) (Some url) db))))
  /\ (status_of (snd (Next.POST_qr a body h e ldb)) = 400
      /\ fst (Next.POST_qr a body h e ldb) = ldb
      /\ status_of (snd (Next.PUT_qr (Token u) (LibDb.short_code lr) (Some url) ldb))
         = 200
      /\ In (LibDb.with_destination url lr)
            (LibDb.qr_codes
               (fst (Next.PUT_qr (Token u) (LibDb.short_code lr) (Some url) ldb)))).
Proof.
  intros Hu Hin Ho Hlu Hlin Hlo Hne Hurl Hbad Hb.
  destruct (express_create_validates a body e db url protocol Hb Hurl Hbad)
    as [Hc1 Hc2].
  destruct (next_create_validates a body h e ldb url protocol Hb Hurl Hbad)
    as [Hn1 Hn2].
  destruct (express_put_any_url u db r url protocol Hu Hin Ho Hne Hurl)
    as [Hp1 Hp2].
  destruct (next_put_any_url u ldb lr url protocol Hlu Hlin Hlo Hne Hurl)
    as [Hq1 Hq2].
  repeat split; assumption.
Qed.

End DestinationFacts.

Lemma update_accepts_any_url_witness :
  @URL Reference.platform "ftp://example.com/x" = Some "ftp:"
  /\ Db.getStats "vault001"
       (fst (@Express.put_api_qr Reference.platform (Token Sample.alice)
               "vault001" (Some "ftp://example.com/x") Sample.E.db))
     = Some (Db.with_destination "ftp://example.com/x" Sample.E.vault)
  /\ status_of
       (snd (@Express.put_api_qr Reference.platform (Token Sample.alice)
               "vault001" (Some "ftp://example.com/x") Sample.E.db)) = 200
  /\ status_of
       (snd (@Express.post_api_qr Reference.platform NoToken
               {| body_url := Some "ftp://example.com/x";
                  body_expiresAt := None; body_password := None |}
               Sample.at200 Sample.E.db)) = 400.
Proof.
  assert (Hu : Db.unique_codes Sample.E.db)
    by (unfold Db.unique_codes; simpl; nodup_codes).
  assert (Hl : LibDb.unique_codes Sample.N.db)
    by (unfold LibDb.unique_codes; simpl; nodup_codes).
  assert (Hin : In Sample.E.vault (Db.qr_codes Sample.E.db))
    by (simpl; auto).
  assert (Hlin : In Sample.N.vault (LibDb.qr_codes Sample.N.db))
    by (simpl; auto).
  assert (Hne : "ftp://example.com/x" <> "") by discriminate.
  pose proof (@update_accepts_any_url Reference.platform
                Sample.alice NoToken
                {| body_url := Some "ftp://example.com/x";
                   body_expiresAt := None; body_password := None |}
                Sample.no_headers Sample.at200 Sample.E.db Sample.N.db
                Sample.E.vault Sample.N.vault "ftp://example.com/x" "ftp:"
                Hu Hin eq_refl Hl Hlin eq_refl Hne eq_refl
                (or_introl eq_refl) eq_refl) as W.
  destruct W as [(W1 & _ & W3 & _) _].
  split; [reflexivity|]. split; [reflexivity|]. split; [exact W3 | exact W1].
Defined.

(** ** Collisions of the generated code *)

(** The first code of the random source is the code of a stored record and
    the next one would be free, yet the creation request fails with the
    500 of the [catch] block and stores nothing, on both back ends. *)
Lemma create_collision_counterexample :
  fst (nanoid 8 (rng Sample.at200)) = "AAECAwQF"
  /\ Db.getStats "AAECAwQF" Sample.E.db = Some Sample.E.menu
  /\ fst (nanoid 8 (snd (nanoid 8 (rng Sample.at200)))) = "CAkKCwwN"
  /\ Db.getStats "CAkKCwwN" Sample.E.db = None
  /\ @Express.post_api_qr Reference.platform NoToken Sample.menu_body
       Sample.at200 Sample.E.db
     = (Sample.E.db, error 500 "Failed to create QR code")
  /\ @Next.POST_qr Reference.platform NoToken Sample.menu_body
       Sample.no_headers Sample.at200 Sample.N.db
     = (Sample.N.db, error 500 "Failed to create QR code").
Proof. now vm_compute. Qed.

Section CreationFacts.
Context `{Platform}.

(** A creation request ends in a validation error, the quota refusal, the
    500 of a missing user row, or the insert. *)
Lemma express_post_cases (a : authorization) (body : create_body) (e : env)
    (db : Db.database) :
  (fst (Express.post_api_qr a body e db) = db
   /\ (status_of (snd (Express.post_api_qr a body e db)) = 400
       \/ status_of (snd (Express.post_api_qr a body e db)) = 403
       \/ snd (Express.post_api_qr a body e db)
          = error 500 "Failed to create QR code"))
  \/ exists url,
       body_url body = Some url
       /\ Express.post_api_qr a body e db
          = Express.insert_qr (option_map auth_id (Express.req_user a))
              url body e db.
Proof.
  unfold Express.post_api_qr.
  destruct (body_url body) as [url|]; [|left; split; auto].
  destruct (negb (truthy (Some url))); [left; split; auto|].
  destruct (URL url) as [protocol|]; [|left; split; auto].
  destruct (negb (existsb (String.eqb protocol) ["http:"; "https:"]));
    [left; split; auto|].
  destruct (Z.of_nat (String.length url) >? 2048); [left; split; auto|].
  destruct (option_map auth_id (Express.req_user a)) as [uid|] eqn:Hid;
    [|right; now exists url].
  destruct (truthy_num (Some uid)); [|right; now exists url].
  destruct (Db.findUserById uid db) as [user|]; [|left; split; auto].
  destruct (num_ge _ _); [left; split; auto|right; now exists url].
Qed.

Lemma next_post_cases (a : authorization) (body : create_body)
    (h : Next.headers) (e : env) (db : LibDb.database) :
  (fst (Next.POST_qr a body h e db) = db
   /\ (status_of (snd (Next.POST_qr a body h e db)) = 400
       \/ status_of (snd (Next.POST_qr a body h e db)) = 403
       \/ snd (Next.POST_qr a body h e db)
          = error 500 "Failed to create QR code"))
  \/ exists url,
       body_url body = Some url
       /\ Next.POST_qr a body h e db
          = Next.insert_qr (option_map auth_id (Next.getAuthUser a))
              url body h e db.
Proof.
  unfold Next.POST_qr.
  destruct (body_url body) as [url|]; [|left; split; auto].
  destruct (negb (truthy (Some url))); [left; split; auto|].
  destruct (URL url) as [protocol|]; [|left; split; auto].
  destruct (negb (existsb (String.eqb protocol) ["http:"; "https:"]));
    [left; split; auto|].
  destruct (Z.of_nat (String.length url) >? 2048); [left; split; auto|].
  destruct (option_map auth_id (Next.getAuthUser a)) as [uid|] eqn:Hid;
    [|right; now exists url].
  destruct (truthy_num (Some uid)); [|right; now exists url].
  destruct (LibDb.findUserById uid db) as [user|]; [|left; split; auto].
  destruct (num_ge _ _); [left; split; auto|right; now exists url].
Qed.

(** The insert with a code that a record has already: the UNIQUE
    violation is caught and answered with the 500, nothing is stored. *)
Lemma express_insert_collision (userId : option Z) (url : string)
    (body : create_body) (e : env) (db : Db.database) :
  existsb (Db.has_code (fst (nanoid 8 (rng e)))) (Db.qr_codes db) = true ->
  Express.insert_qr userId url body e db
  = (db, error 500 "Failed to create QR code").
Proof.
  intros Hc. unfold Express.insert_qr, Db.createQR. now rewrite Hc.
Qed.

Lemma next_insert_collision (userId : option Z) (url : string)
    (body : create_body) (h : Next.headers) (e : env) (db : LibDb.database) :
  existsb (LibDb.has_code (fst (nanoid 8 (rng e)))) (LibDb.qr_codes db) = true ->
  Next.insert_qr userId url body h e db
  = (db, error 500 "Failed to create QR code").
Proof.
  intros Hc. unfold Next.insert_qr, LibDb.createQR. now rewrite Hc.
Qed.

(** The request reads the random source through its first 8 bytes only. *)
Lemma express_post_one_draw (a : authorization) (body : create_body)
    (e e' : env) (db : Db.database) :
  now e' = now e -> salt e' = salt e ->
  firstn 8 (rng e') = firstn 8 (rng e) ->
  Express.post_api_qr a body e' db = Express.post_api_qr a body e db.
Proof.
  destruct e as [t g s], e' as [t' g' s']. cbn [now salt rng].
  intros -> -> Hg.
  unfold Express.post_api_qr, Express.insert_qr, nanoid.
  cbn [now salt rng fst]. now rewrite Hg.
Qed.

Lemma next_post_one_draw (a : authorization) (body : create_body)
    (h : Next.headers) (e e' : env) (db : LibDb.database) :
  now e' = now e -> salt e' = salt e ->
  firstn 8 (rng e') = firstn 8 (rng e) ->
  Next.POST_qr a body h e' db = Next.POST_qr a body h e db.
Proof.
  destruct e as [t g s], e' as [t' g' s']. cbn [now salt rng].
  intros -> -> Hg.
  unfold Next.POST_qr, Next.insert_qr, nanoid.
  cbn [now salt rng fst]. now rewrite Hg.
Qed.

(** C5, amended. On both back ends a creation request draws one code,
    from the first 8 bytes of the random source, and whatever the source
    holds after them has no influence on the outcome. If a record has that
    code already, the request stores nothing and does not answer 201: its
    answer is a validation 400, the quota 403 or the 500 "Failed to create
    QR code", and it is this 500 whenever the request gets as far as the
    insert. There is no second draw and no retry. *)
Theorem create_collision_is_fatal (a : authorization) (body : create_body)
    (h : Next.headers) (e : env) (db : Db.database) (ldb : LibDb.database) :
  existsb (Db.has_code (fst (nanoid 8 (rng e)))) (Db.qr_codes db) = true ->
  existsb (LibDb.has_code (fst (nanoid 8 (rng e)))) (LibDb.qr_codes ldb) = true ->
  (fst (Express.post_api_qr a body e db) = db
   /\ (status_of (snd (Express.post_api_qr a body e db)) = 400
       \/ status_of (snd (Express.post_api_qr a body e db)) = 403
       \/ snd (Express.post_api_qr a body e db)
          = error 500 "Failed to create QR code")
   /\ (forall userId url,
         Express.post_api_qr a body e db
         = Express.insert_qr userId url body e db ->
         snd (Express.post_api_qr a body e db)
         = error 500 "Failed to create QR code")
   /\ (forall e', now e' = now e -> salt e' = salt e ->
         firstn 8 (rng e') = firstn 8 (rng e) ->
         Express.post_api_qr a body e' db = Express.post_api_qr a body e db))
  /\ (fst (Next.POST_qr a body h e ldb) = ldb
      /\ (status_of (snd (Next.POST_qr a body h e ldb)) = 400
          \/ status_of (snd (Next.POST_qr a body h e ldb)) = 403
          \/ snd (Next.POST_qr a body h e ldb)
             = error 500 "Failed to create QR code")
      /\ (forall userId url,
            Next.POST_qr a body h e ldb
            = Next.insert_qr userId url body h e ldb ->
            snd (Next.POST_qr a body h e ldb)
            = error 500 "Failed to create QR code")
      /\ (forall e', now e' = now e -> salt e' = salt e ->
            firstn 8 (rng e') = firstn 8 (rng e) ->
            Next.POST_qr a body h e' ldb = Next.POST_qr a body h e ldb)).
Proof.
  intros Hc Hlc. split.
  - assert (Hins : forall userId url,
               Express.post_api_qr a body e db
               = Express.insert_qr userId url body e db ->
               Express.post_api_qr a body e db
               = (db, error 500 "Failed to create QR code")).
    { intros userId url ->. now apply express_insert_collision. }
    repeat split.
    + destruct (express_post_cases a body e db) as [[Hd _]|(url & _ & Hi)];
        [exact Hd|]. now rewrite (Hins _ _ Hi).
    + destruct (express_post_cases a body e db) as [[_ Hs]|(url & _ & Hi)];
        [exact Hs|]. right. right. now rewrite (Hins _ _ Hi).
    + intros userId url Hi. now rewrite (Hins _ _ Hi).
    + intros e'. apply express_post_one_draw.
  - assert (Hins : forall userId url,
               Next.POST_qr a body h e ldb
               = Next.insert_qr userId url body h e ldb ->
               Next.POST_qr a body h e ldb
               = (ldb, error 500 "Failed to create QR code")).
    { intros userId url ->. now apply next_insert_collision. }
    repeat split.
    + destruct (next_post_cases a body h e ldb) as [[Hd _]|(url & _ & Hi)];
        [exact Hd|]. now rewrite (Hins _ _ Hi).
    + destruct (next_post_cases a body h e ldb) as [[_ Hs]|(url & _ & Hi)];
        [exact Hs|]. right. right. now rewrite (Hins _ _ Hi).
    + intros userId url Hi. now rewrite (Hins _ _ Hi).
    + intros e'. apply next_post_one_draw.
Qed.

End CreationFacts.

Lemma create_collision_is_fatal_witness :
  existsb (Db.has_code (fst (nanoid 8 (rng Sample.at200))))
    (Db.qr_codes Sample.E.db) = true
  /\ existsb (LibDb.has_code (fst (nanoid 8 (rng Sample.at200))))
       (LibDb.qr_codes Sample.N.db) = true
  /\ fst (@Express.post_api_qr Reference.platform NoToken Sample.menu_body
            Sample.at200 Sample.E.db) = Sample.E.db
  /\ fst (@Next.POST_qr Reference.platform NoToken Sample.menu_body
            Sample.no_headers Sample.at200 Sample.N.db) = Sample.N.db.
Proof.
  pose proof (@create_collision_is_fatal Reference.platform NoToken
                Sample.menu_body Sample.no_headers Sample.at200
                Sample.E.db Sample.N.db eq_refl eq_refl) as W.
  split; [reflexivity|]. split; [reflexivity|].
  split; [exact (proj1 (proj1 W)) | exact (proj1 (proj2 W))].
Defined.

(** ** Passwords at creation *)

Lemma find_appended {row : Type} (f g : row -> bool) (t : list row) (x : row) :
  existsb g t = false ->
  (forall y, f y = true -> g y = true) ->
  f x = true ->
  find f (t ++ [x]) = Some x.
Proof.
  intros Hex Hfg Hx. induction t as [|a t IH]; cbn.
  - now rewrite Hx.
  - cbn in Hex. apply orb_false_elim in Hex. destruct Hex as [Ha Ht].
    destruct (f a) eqn:Hfa.
    + apply Hfg in Hfa. congruence.
    + now apply IH.
Qed.

Section PasswordFacts.
Context `{Platform}.

(** A 201 of the insert: the code was free and one row was appended. *)
Lemma express_insert_created (userId : option Z) (url : string)
    (body : create_body) (e : env) (db : Db.database) :
  status_of (snd (Express.insert_qr userId url body e db)) = 201 ->
  existsb (Db.has_code (fst (nanoid 8 (rng e)))) (Db.qr_codes db) = false
  /\ exists r,
       Db.qr_codes (fst (Express.insert_qr userId url body e db))
       = (Db.qr_codes db ++ [r])%list
       /\ Db.short_code r = fst (nanoid 8 (rng e))
       /\ Db.destination_url r = url
       /\ Db.user_id r = userId
       /\ Db.scan_count r = 0
       /\ Db.is_active r = 1
       /\ Db.password r = stored_password body e.
Proof.
  unfold Express.insert_qr, Db.createQR, stored_password.
  destruct (existsb _ (Db.qr_codes db)); cbn [fst snd status_of error];
    [discriminate|].
  intros _. split; [reflexivity|]. eexists. split; [reflexivity|].
  cbn. repeat split.
  destruct (body_password body) as [pw|]; [|reflexivity].
  now destruct (String.eqb pw "").
Qed.

Lemma next_insert_created (userId : option Z) (url : string)
    (body : create_body) (h : Next.headers) (e : env) (db : LibDb.database) :
  status_of (snd (Next.insert_qr userId url body h e db)) = 201 ->
  existsb (LibDb.has_code (fst (nanoid 8 (rng e)))) (LibDb.qr_codes db) = false
  /\ exists r,
       LibDb.qr_codes (fst (Next.insert_qr userId url body h e db))
       = (LibDb.qr_codes db ++ [r])%list
       /\ LibDb.short_code r = fst (nanoid 8 (rng e))
       /\ LibDb.destination_url r = url
       /\ LibDb.user_id r = userId
       /\ LibDb.scan_count r = 0
       /\ LibDb.is_active r = 1
       /\ LibDb.password r = stored_password body e.
Proof.
  unfold Next.insert_qr, LibDb.createQR, stored_password.
  destruct (existsb _ (LibDb.qr_codes db)); cbn [fst snd status_of error];
    [discriminate|].
  intros _. split; [reflexivity|]. eexists. split; [reflexivity|].
  cbn. repeat split.
  destruct (body_password body) as [pw|]; [|reflexivity].
  now destruct (String.eqb pw "").
Qed.

(** A record without a stored password, just appended under a free code,
    is redirected to without any credential unless it is expired. *)
Lemma express_unprotected_allowed (db db' : Db.database) (r : Db.qr_code)
    (e : env) :
  existsb (Db.has_code (Db.short_code r)) (Db.qr_codes db) = false ->
  Db.qr_codes db' = (Db.qr_codes db ++ [r])%list ->
  Db.is_active r = 1 ->
  Db.password r = None ->
  Express.expired r (now e) = false ->
  Express.get_r (Db.short_code r) QAbsent e db'
  = (fst (Db.incrementScan (now e) (Db.short_code r) db'),
     Redirect 302 (Db.destination_url r)).
Proof.
  intros Hfree Hrows Ha Hp He. unfold Express.get_r, Db.findByCode, sql_first.
  rewrite Hrows.
  rewrite (find_appended _ (Db.has_code (Db.short_code r)) _ r Hfree).
  - rewrite He. unfold Express.password_missing. now rewrite Hp.
  - intros y Hy. now apply andb_prop in Hy.
  - unfold Db.has_code. now rewrite String.eqb_refl, Ha.
Qed.

Lemma next_unprotected_allowed (db db' : LibDb.database) (r : LibDb.qr_code)
    (origin : string) (e : env) :
  existsb (LibDb.has_code (LibDb.short_code r)) (LibDb.qr_codes db) = false ->
  LibDb.qr_codes db' = (LibDb.qr_codes db ++ [r])%list ->
  LibDb.is_active r = 1 ->
  LibDb.password r = None ->
  Next.expired r (now e) = false ->
  Next.GET_r origin (LibDb.short_code r) None e db'
  = (LibDb.incrementScan (LibDb.short_code r) db',
     Redirect 302 (LibDb.destination_url r)).
Proof.
  intros Hfree Hrows Ha Hp He. unfold Next.GET_r, LibDb.findByCode, sql_first.
  rewrite Hrows.
  rewrite (find_appended _ (LibDb.has_code (LibDb.short_code r)) _ r Hfree).
  - rewrite He. unfold Next.password_missing. now rewrite Hp.
  - intros y Hy. now apply andb_prop in Hy.
  - unfold LibDb.has_code. now rewrite String.eqb_refl, Ha.
Qed.

Lemma express_created_row (a : authorization) (body : create_body) (e : env)
    (db : Db.database) :
  status_of (snd (Express.post_api_qr a body e db)) = 201 ->
  existsb (Db.has_code (fst (nanoid 8 (rng e)))) (Db.qr_codes db) = false
  /\ exists r,
       Db.qr_codes (fst (Express.post_api_qr a body e db))
       = (Db.qr_codes db ++ [r])%list
       /\ Db.short_code r = fst (nanoid 8 (rng e))
       /\ Db.is_active r = 1
       /\ Db.password r = stored_password body e.
Proof.
  intros Hs.
  destruct (express_post_cases a body e db) as [[_ Hbad]|(url & _ & Hi)].
  - rewrite Hs in Hbad. destruct Hbad as [Hb|[Hb|Hb]]; try discriminate.
    rewrite Hb in Hs. discriminate.
  - rewrite Hi in Hs |- *.
    destruct (express_insert_created _ url body e db Hs)
      as (Hfree & r & Hrows & Hcode & _ & _ & _ & Ha & Hp).
    split; [exact Hfree|]. now exists r.
Qed.

Lemma next_created_row (a : authorization) (body : create_body)
    (h : Next.headers) (e : env) (db : LibDb.database) :
  status_of (snd (Next.POST_qr a body h e db)) = 201 ->
  existsb (LibDb.has_code (fst (nanoid 8 (rng e)))) (LibDb.qr_codes db) = false
  /\ exists r,
       LibDb.qr_codes (fst (Next.POST_qr a body h e db))
       = (LibDb.qr_codes db ++ [r])%list
       /\ LibDb.short_code r = fst (nanoid 8 (rng e))
       /\ LibDb.is_active r = 1
       /\ LibDb.password r = stored_password body e.
Proof.
  intros Hs.
  destruct (next_post_cases a body h e db) as [[_ Hbad]|(url & _ & Hi)].
  - rewrite Hs in Hbad. destruct Hbad as [Hb|[Hb|Hb]]; try discriminate.
    rewrite Hb in Hs. discriminate.
  - rewrite Hi in Hs |- *.
    destruct (next_insert_created _ url body h e db Hs)
      as (Hfree & r & Hrows & Hcode & _ & _ & _ & Ha & Hp).
    split; [exact Hfree|]. now exists r.
Qed.

Lemma stored_password_set (body : create_body) (e : env) :
  stored_password body e <> None <->
  exists pw, body_password body = Some pw /\ pw <> "".
Proof.
  unfold stored_password. destruct (body_password body) as [pw|].
  - destruct (String.eqb_spec pw "") as [E|E].
    + split; [congruence|]. intros (pw' & [= <-] & Hne). contradiction.
    + split; [|discriminate]. intros _. now exists pw.
  - split; [congruence|]. intros (pw & Hpw & _). discriminate.
Qed.

(** C10. On both back ends, a creation request answered 201 has appended
    one record, and that record has a stored password hash exactly when
    the request carried a non-empty password. With the empty string as
    password the record has none, and a later redirect on its code with no
    credential is answered, unless the record is expired, by the 302 to
    its destination with the scan counted. *)
Theorem empty_password_unprotected (a : authorization) (body : create_body)
    (h : Next.headers) (origin : string) (e e' : env)
    (db : Db.database) (ldb : LibDb.database) :
  status_of (snd (Express.post_api_qr a body e db)) = 201 ->
  status_of (snd (Next.POST_qr a body h e ldb)) = 201 ->
  (exists r,
     Db.qr_codes (fst (Express.post_api_qr a body e db))
     = (Db.qr_codes db ++ [r])%list
     /\ (Db.password r <> None <->
         exists pw, body_password body = Some pw /\ pw <> "")
     /\ (body_password body = Some "" ->
         Db.password r = None
         /\ (Express.expired r (now e') = false ->
             Express.get_r (Db.short_code r) QAbsent e'
               (fst (Express.post_api_qr a body e db))
             = (fst (Db.incrementScan (now e') (Db.short_code r)
                       (fst (Express.post_api_qr a body e db))),
                Redirect 302 (Db.destination_url r)))))
  /\ (exists r,
        LibDb.qr_codes (fst (Next.POST_qr a body h e ldb))
        = (LibDb.qr_codes ldb ++ [r])%list
        /\ (LibDb.password r <> None <->
            exists pw, body_password body = Some pw /\ pw <> "")
        /\ (body_password body = Some "" ->
            LibDb.password r = None
            /\ (Next.expired r (now e') = false ->
                Next.GET_r origin (LibDb.short_code r) None e'
                  (fst (Next.POST_qr a body h e ldb))
                = (LibDb.incrementScan (LibDb.short_code r)
                     (fst (Next.POST_qr a body h e ldb)),
                   Redirect 302 (LibDb.destination_url r))))).
Proof.
  intros Hs Hls. split.
  - destruct (express_created_row a body e db Hs)
      as (Hfree & r & Hrows & Hcode & Ha & Hp).
    exists r. split; [exact Hrows|]. split.
    + rewrite Hp. apply stored_password_set.
    + intros Hempty.
      assert (Hnone : Db.password r = None).
      { rewrite Hp. unfold stored_password. now rewrite Hempty. }
      split; [exact Hnone|]. intros He.
      apply (express_unprotected_allowed db); auto. now rewrite Hcode.
  - destruct (next_created_row a body h e ldb Hls)
      as (Hfree & r & Hrows & Hcode & Ha & Hp).
    exists r. split; [exact Hrows|]. split.
    + rewrite Hp. apply stored_password_set.
    + intros Hempty.
      assert (Hnone : LibDb.password r = None).
      { rewrite Hp. unfold stored_password. now rewrite Hempty. }
      split; [exact Hnone|]. intros He.
      apply (next_unprotected_allowed ldb); auto. now rewrite Hcode.
Qed.

End PasswordFacts.

Lemma empty_password_unprotected_witness :
  status_of
    (snd (@Express.post_api_qr Reference.platform NoToken
            Sample.empty_password_body Sample.at200 Sample.E.db_retired)) = 201
  /\ status_of
       (snd (@Next.POST_qr Reference.platform NoToken
               Sample.empty_password_body Sample.no_headers Sample.at200
               Sample.N.db_retired)) = 201
  /\ exists r,
       Db.qr_codes
         (fst (@Express.post_api_qr Reference.platform NoToken
                 Sample.empty_password_body Sample.at200 Sample.E.db_retired))
       = (Db.qr_codes Sample.E.db_retired ++ [r])%list
       /\ Db.password r = None.
Proof.
  pose proof (@empty_password_unprotected Reference.platform NoToken
                Sample.empty_password_body Sample.no_headers
                "https://qr.example" Sample.at200 Sample.at200
                Sample.E.db_retired Sample.N.db_retired eq_refl eq_refl) as W.
  split; [reflexivity|]. split; [reflexivity|].
  destruct W as [(r & Hrows & _ & Hempty) _].
  exists r. split; [exact Hrows | exact (proj1 (Hempty eq_refl))].
Defined.

(** ** The UNIQUE constraint holds in every reachable database *)

Section UniqueInvariant.
Context `{Platform}.

Lemma express_calls_unique (c : owner_call) (db : Db.database) :
  Db.unique_codes db -> Db.unique_codes (express_call c db).
Proof.
  unfold Db.unique_codes. intros Hu.
  destruct c as [url code userId|code userId]; cbn;
    now rewrite (update_keys Db.short_code).
Qed.

Lemma next_calls_unique (c : owner_call) (db : LibDb.database) :
  LibDb.unique_codes db -> LibDb.unique_codes (next_call c db).
Proof.
  unfold LibDb.unique_codes. intros Hu.
  destruct c as [url code userId|code userId]; cbn;
    now rewrite (update_keys LibDb.short_code).
Qed.

Lemma express_scan_unique (t : Z) (code : string) (db : Db.database) :
  Db.unique_codes db -> Db.unique_codes (fst (Db.incrementScan t code db)).
Proof.
  unfold Db.unique_codes. intros Hu. cbn.
  now rewrite (update_keys Db.short_code).
Qed.

Lemma next_scan_unique (code : string) (db : LibDb.database) :
  LibDb.unique_codes db -> LibDb.unique_codes (LibDb.incrementScan code db).
Proof.
  unfold LibDb.unique_codes. intros Hu. cbn.
  now rewrite (update_keys LibDb.short_code).
Qed.

Lemma express_insert_unique (userId : option Z) (url : string)
    (body : create_body) (e : env) (db : Db.database) :
  Db.unique_codes db ->
  Db.unique_codes (fst (Express.insert_qr userId url body e db)).
Proof.
  intros Hu. unfold Express.insert_qr, Db.createQR.
  destruct (existsb _ (Db.qr_codes db)) eqn:Hex; [exact Hu|].
  cbn [fst]. unfold Db.unique_codes. cbn [Db.with_qr_codes Db.qr_codes].
  now apply (insert_unique Db.short_code (fst (nanoid 8 (rng e)))).
Qed.

Lemma next_insert_unique (userId : option Z) (url : string)
    (body : create_body) (h : Next.headers) (e : env) (db : LibDb.database) :
  LibDb.unique_codes db ->
  LibDb.unique_codes (fst (Next.insert_qr userId url body h e db)).
Proof.
  intros Hu. unfold Next.insert_qr, LibDb.createQR.
  destruct (existsb _ (LibDb.qr_codes db)) eqn:Hex; [exact Hu|].
  cbn [fst]. unfold LibDb.unique_codes.
  cbn [LibDb.with_qr_codes LibDb.qr_codes].
  now apply (insert_unique LibDb.short_code (fst (nanoid 8 (rng e)))).
Qed.

(** Every database that the handlers of server.js reach has unique short
    codes, as the theorems on the resolver and the registry assume. *)
Lemma express_reachable_unique (db : Db.database) :
  express_reachable db -> Db.unique_codes db.
Proof.
  induction 1 as [db Hempty|a body e db _ IH|code pw e db _ IH|q db _ IH].
  - unfold Db.unique_codes. rewrite Hempty. constructor.
  - destruct (express_post_cases a body e db) as [[-> _]|(url & _ & ->)];
      [exact IH | now apply express_insert_unique].
  - unfold Express.get_r. destruct (Db.findByCode code db) as [qr|]; [|exact IH].
    destruct (Express.expired qr (now e)); [exact IH|].
    destruct (Express.password_missing qr pw) as [[|]|];
      [exact IH| |exact IH].
    now apply express_scan_unique.
  - destruct (express_request_call q db) as [->|(c & _ & _ & ->)];
      [exact IH | now apply express_calls_unique].
Qed.

Lemma next_reachable_unique (db : LibDb.database) :
  next_reachable db -> LibDb.unique_codes db.
Proof.
  induction 1 as [db Hempty|a body h e db _ IH|origin code pw e db _ IH|q db _ IH].
  - unfold LibDb.unique_codes. rewrite Hempty. constructor.
  - destruct (next_post_cases a body h e db) as [[-> _]|(url & _ & ->)];
      [exact IH | now apply next_insert_unique].
  - unfold Next.GET_r. destruct (LibDb.findByCode code db) as [qr|]; [|exact IH].
    destruct (Next.expired qr (now e)); [exact IH|].
    destruct (Next.password_missing qr pw); [exact IH|].
    now apply next_scan_unique.
  - destruct (next_request_call q db) as [->|(c & _ & _ & ->)];
      [exact IH | now apply next_calls_unique].
Qed.

End UniqueInvariant.

(** ** What becomes of a stored record *)

Lemma express_evolves_refl (r : Db.qr_code) : express_evolves r r.
Proof. unfold express_evolves. repeat split; auto; lia. Qed.

Lemma express_evolves_trans (r1 r2 r3 : Db.qr_code) :
  express_evolves r1 r2 -> express_evolves r2 r3 -> express_evolves r1 r3.
Proof.
  unfold express_evolves.
  intros (A1 & A2 & A3 & A4 & A5 & A6 & A7 & A8)
         (B1 & B2 & B3 & B4 & B5 & B6 & B7 & B8).
  repeat split; try congruence; lia.
Qed.

Lemma next_evolves_refl (r : LibDb.qr_code) : next_evolves r r.
Proof. unfold next_evolves. repeat split; auto; lia. Qed.

Lemma next_evolves_trans (r1 r2 r3 : LibDb.qr_code) :
  next_evolves r1 r2 -> next_evolves r2 r3 -> next_evolves r1 r3.
Proof.
  unfold next_evolves.
  intros (A1 & A2 & A3 & A4 & A5 & A6 & A7 & A8)
         (B1 & B2 & B3 & B4 & B5 & B6 & B7 & B8).
  repeat split; try congruence; lia.
Qed.

Section EvolutionFacts.
Context `{Platform} `{TokenIssuer}.

(** The insert leaves the table as it is or appends one row. *)
Lemma express_insert_rows (userId : option Z) (url : string)
    (body : create_body) (e : env) (db : Db.database) :
  Db.users (fst (Express.insert_qr userId url body e db)) = Db.users db
  /\ (Db.qr_codes (fst (Express.insert_qr userId url body e db)) = Db.qr_codes db
      \/ exists x,
           Db.qr_codes (fst (Express.insert_qr userId url body e db))
           = (Db.qr_codes db ++ [x])%list).
Proof.
  unfold Express.insert_qr, Db.createQR.
  destruct (existsb _ (Db.qr_codes db)); cbn; [now split; [|left]|].
  split; [reflexivity|]. right. eexists. reflexivity.
Qed.

Lemma next_insert_rows (userId : option Z) (url : string)
    (body : create_body) (h : Next.headers) (e : env) (db : LibDb.database) :
  LibDb.users (fst (Next.insert_qr userId url body h e db)) = LibDb.users db
  /\ (LibDb.qr_codes (fst (Next.insert_qr userId url body h e db))
      = LibDb.qr_codes db
      \/ exists x,
           LibDb.qr_codes (fst (Next.insert_qr userId url body h e db))
           = (LibDb.qr_codes db ++ [x])%list).
Proof.
  unfold Next.insert_qr, LibDb.createQR.
  destruct (existsb _ (LibDb.qr_codes db)); cbn; [now split; [|left]|].
  split; [reflexivity|]. right. eexists. reflexivity.
Qed.

(** The signup does not touch the records. *)
Lemma express_signup_records (body : auth_body) (e : env) (db : Db.database) :
  Db.qr_codes (fst (Express.post_signup body e db)) = Db.qr_codes db.
Proof.
  unfold Express.post_signup, Db.createUser.
  destruct (body_email body) as [email|], (body_secret body) as [|password|tr sh];
    try reflexivity.
  2: { destruct (negb _ || negb tr), sh, (Db.findUserByEmail email db);
       reflexivity. }
  destruct (negb (truthy (Some email)) || negb (truthy (Some password)));
    [reflexivity|].
  destruct (Z.of_nat (String.length password) <? 6); [reflexivity|].
  destruct (Db.findUserByEmail email db); [reflexivity|].
  now destruct (existsb _ (Db.users db)).
Qed.

Lemma next_signup_records (body : auth_body) (e : env) (db : LibDb.database) :
  LibDb.qr_codes (fst (Next.POST_signup body e db)) = LibDb.qr_codes db.
Proof.
  unfold Next.POST_signup, LibDb.createUser.
  destruct (body_email body) as [email|], (body_secret body) as [|password|tr sh];
    try reflexivity.
  2: { destruct (negb _ || negb tr), sh, (LibDb.findUserByEmail email db);
       reflexivity. }
  destruct (negb (truthy (Some email)) || negb (truthy (Some password)));
    [reflexivity|].
  destruct (Z.of_nat (String.length password) <? 6); [reflexivity|].
  destruct (LibDb.findUserByEmail email db); [reflexivity|].
  now destruct (existsb _ (LibDb.users db)).
Qed.

Lemma express_handle_nth (q : request) (db : Db.database) (n : nat)
    (r : Db.qr_code) :
  nth_error (Db.qr_codes db) n = Some r ->
  exists r', nth_error (Db.qr_codes (express_handle q db)) n = Some r'
             /\ express_evolves r r'.
Proof.
  intros Hn. destruct q as [a body h e|origin code pw lpw e|q|body e]; cbn.
  - exists r. split; [|apply express_evolves_refl].
    destruct (express_post_cases a body e db) as [[-> _]|(url & _ & ->)];
      [exact Hn|].
    destruct (express_insert_rows (option_map auth_id (Express.req_user a))
                url body e db) as [_ [->|[x ->]]]; [exact Hn|].
    rewrite nth_error_app1; [exact Hn|]. apply nth_error_Some. congruence.
  - unfold Express.get_r.
    destruct (Db.findByCode code db) as [qr|];
      [|exists r; split; [exact Hn | apply express_evolves_refl]].
    destruct (Express.expired qr (now e));
      [exists r; split; [exact Hn | apply express_evolves_refl]|].
    destruct (Express.password_missing qr pw) as [[|]|];
      [exists r; split; [exact Hn | apply express_evolves_refl]| |exists r; split; [exact Hn | apply express_evolves_refl]].
    cbn. rewrite (update_nth _ (Db.scanned (now e)) _ n r Hn).
    destruct (Db.has_code code r); eexists; (split; [reflexivity|]);
      [|apply express_evolves_refl].
    unfold express_evolves. cbn. repeat split; auto; lia.
  - destruct (express_request_call q db) as [->|(c & _ & _ & ->)];
      [exists r; split; [exact Hn | apply express_evolves_refl]|].
    destruct (express_call_nth c db n r Hn) as [Hs|[_ Hs]];
      [exists r; split; [exact Hs | apply express_evolves_refl]|].
    eexists. split; [exact Hs|].
    destruct c; unfold express_evolves; cbn; repeat split; auto; lia.
  - rewrite express_signup_records. exists r.
    split; [exact Hn | apply express_evolves_refl].
Qed.

Lemma next_handle_nth (q : request) (db : LibDb.database) (n : nat)
    (r : LibDb.qr_code) :
  nth_error (LibDb.qr_codes db) n = Some r ->
  exists r', nth_error (LibDb.qr_codes (next_handle q db)) n = Some r'
             /\ next_evolves r r'.
Proof.
  intros Hn. destruct q as [a body h e|origin code qpw pw e|q|body e]; cbn.
  - exists r. split; [|apply next_evolves_refl].
    destruct (next_post_cases a body h e db) as [[-> _]|(url & _ & ->)];
      [exact Hn|].
    destruct (next_insert_rows (option_map auth_id (Next.getAuthUser a))
                url body h e db) as [_ [->|[x ->]]]; [exact Hn|].
    rewrite nth_error_app1; [exact Hn|]. apply nth_error_Some. congruence.
  - unfold Next.GET_r.
    destruct (LibDb.findByCode code db) as [qr|];
      [|exists r; split; [exact Hn | apply next_evolves_refl]].
    destruct (Next.expired qr (now e));
      [exists r; split; [exact Hn | apply next_evolves_refl]|].
    destruct (Next.password_missing qr pw);
      [exists r; split; [exact Hn | apply next_evolves_refl]|].
    cbn. rewrite (update_nth _ LibDb.scanned _ n r Hn).
    destruct (LibDb.has_code code r); eexists; (split; [reflexivity|]);
      [|apply next_evolves_refl].
    unfold next_evolves. cbn. repeat split; auto; lia.
  - destruct (next_request_call q db) as [->|(c & _ & _ & ->)];
      [exists r; split; [exact Hn | apply next_evolves_refl]|].
    destruct (next_call_nth c db n r Hn) as [Hs|[_ Hs]];
      [exists r; split; [exact Hs | apply next_evolves_refl]|].
    eexists. split; [exact Hs|].
    destruct c; unfold next_evolves; cbn; repeat split; auto; lia.
  - rewrite next_signup_records. exists r.
    split; [exact Hn | apply next_evolves_refl].
Qed.

Lemma express_run_nth (qs : list request) (db : Db.database) (n : nat)
    (r : Db.qr_code) :
  nth_error (Db.qr_codes db) n = Some r ->
  exists r', nth_error (Db.qr_codes (express_run qs db)) n = Some r'
             /\ express_evolves r r'.
Proof.
  revert db r. induction qs as [|q qs IH]; intros db r Hn.
  - exists r. split; [exact Hn | apply express_evolves_refl].
  - cbn. destruct (express_handle_nth q db n r Hn) as (r1 & Hn1 & He1).
    destruct (IH _ _ Hn1) as (r2 & Hn2 & He2).
    exists r2. split; [exact Hn2 | now apply (express_evolves_trans r r1 r2)].
Qed.

Lemma next_run_nth (qs : list request) (db : LibDb.database) (n : nat)
    (r : LibDb.qr_code) :
  nth_error (LibDb.qr_codes db) n = Some r ->
  exists r', nth_error (LibDb.qr_codes (next_run qs db)) n = Some r'
             /\ next_evolves r r'.
Proof.
  revert db r. induction qs as [|q qs IH]; intros db r Hn.
  - exists r. split; [exact Hn | apply next_evolves_refl].
  - cbn. destruct (next_handle_nth q db n r Hn) as (r1 & Hn1 & He1).
    destruct (IH _ _ Hn1) as (r2 & Hn2 & He2).
    exists r2. split; [exact Hn2 | now apply (next_evolves_trans r r1 r2)].
Qed.

(** X1. Whatever requests are served (creations, redirects, PUT and DELETE
    of owners, signups), on both back ends a stored record stays at its
    place in the table with the same id, short code, owner, creation time,
    expiry and password hash; its scan count never goes down and its
    [is_active] stays as it is or becomes 0. *)
Theorem stored_record_evolution (qs : list request) (db : Db.database)
    (ldb : LibDb.database) (n m : nat) (r : Db.qr_code) (lr : LibDb.qr_code) :
  nth_error (Db.qr_codes db) n = Some r ->
  nth_error (LibDb.qr_codes ldb) m = Some lr ->
  (exists r', nth_error (Db.qr_codes (express_run qs db)) n = Some r'
              /\ express_evolves r r')
  /\ (exists lr', nth_error (LibDb.qr_codes (next_run qs ldb)) m = Some lr'
                  /\ next_evolves lr lr').
Proof.
  intros Hn Hm. split.
  - now apply express_run_nth.
  - now apply next_run_nth.
Qed.

End EvolutionFacts.

Lemma stored_record_evolution_witness :
  nth_error (Db.qr_codes Sample.E.db) 1 = Some Sample.E.vault
  /\ nth_error (LibDb.qr_codes Sample.N.db) 1 = Some Sample.N.vault
  /\ exists r',
       nth_error
         (Db.qr_codes
            (@express_run Reference.platform Reference.tokens
               [Scan "https://qr.example" "vault001" (QText "secret123")
                  (Some "secret123")
                  Sample.at200;
                Owner (Delete (Token Sample.alice) "vault001")]
               Sample.E.db)) 1 = Some r'
       /\ express_evolves Sample.E.vault r'.
Proof.
  split; [reflexivity|]. split; [reflexivity|].
  exact (proj1 (@stored_record_evolution Reference.platform Reference.tokens
                  [Scan "https://qr.example" "vault001" (QText "secret123")
                  (Some "secret123")
                     Sample.at200;
                   Owner (Delete (Token Sample.alice) "vault001")]
                  Sample.E.db Sample.N.db 1%nat 1%nat
                  Sample.E.vault Sample.N.vault eq_refl eq_refl)).
Defined.

(** ** Deactivation *)

Section DeactivationFacts.
Context `{Platform} `{TokenIssuer}.

Lemma express_handle_unique (q : request) (db : Db.database) :
  Db.unique_codes db -> Db.unique_codes (express_handle q db).
Proof.
  intros Hu. destruct q as [a body h e|origin code pw lpw e|q|body e]; cbn.
  - destruct (express_post_cases a body e db) as [[-> _]|(url & _ & ->)];
      [exact Hu | now apply express_insert_unique].
  - unfold Express.get_r. destruct (Db.findByCode code db) as [qr|]; [|exact Hu].
    destruct (Express.expired qr (now e)); [exact Hu|].
    destruct (Express.password_missing qr pw) as [[|]|];
      [exact Hu| |exact Hu].
    now apply express_scan_unique.
  - destruct (express_request_call q db) as [->|(c & _ & _ & ->)];
      [exact Hu | now apply express_calls_unique].
  - unfold Db.unique_codes. now rewrite express_signup_records.
Qed.

Lemma next_handle_unique (q : request) (db : LibDb.database) :
  LibDb.unique_codes db -> LibDb.unique_codes (next_handle q db).
Proof.
  intros Hu. destruct q as [a body h e|origin code qpw pw e|q|body e]; cbn.
  - destruct (next_post_cases a body h e db) as [[-> _]|(url & _ & ->)];
      [exact Hu | now apply next_insert_unique].
  - unfold Next.GET_r. destruct (LibDb.findByCode code db) as [qr|]; [|exact Hu].
    destruct (Next.expired qr (now e)); [exact Hu|].
    destruct (Next.password_missing qr pw); [exact Hu|].
    now apply next_scan_unique.
  - destruct (next_request_call q db) as [->|(c & _ & _ & ->)];
      [exact Hu | now apply next_calls_unique].
  - unfold LibDb.unique_codes. now rewrite next_signup_records.
Qed.

Lemma express_run_unique (qs : list request) (db : Db.database) :
  Db.unique_codes db -> Db.unique_codes (express_run qs db).
Proof.
  revert db. induction qs as [|q qs IH]; intros db Hu; [exact Hu|].
  cbn. apply IH. now apply express_handle_unique.
Qed.

Lemma next_run_unique (qs : list request) (db : LibDb.database) :
  LibDb.unique_codes db -> LibDb.unique_codes (next_run qs db).
Proof.
  revert db. induction qs as [|q qs IH]; intros db Hu; [exact Hu|].
  cbn. apply IH. now apply next_handle_unique.
Qed.

(** A creation that draws the code of a stored record stores nothing and
    is not answered 201. *)
Lemma express_code_taken (a : authorization) (body : create_body) (e : env)
    (db : Db.database) (r : Db.qr_code) :
  In r (Db.qr_codes db) ->
  fst (nanoid 8 (rng e)) = Db.short_code r ->
  fst (Express.post_api_qr a body e db) = db
  /\ status_of (snd (Express.post_api_qr a body e db)) <> 201.
Proof.
  intros Hin Hcode.
  assert (Hex : existsb (Db.has_code (fst (nanoid 8 (rng e)))) (Db.qr_codes db)
                = true).
  { apply existsb_exists. exists r. split; [exact Hin|].
    unfold Db.has_code. rewrite Hcode. apply String.eqb_refl. }
  destruct (express_post_cases a body e db) as [[Hd Hs]|(url & _ & Hi)].
  - split; [exact Hd|]. destruct Hs as [Hs|[Hs|Hs]]; rewrite Hs; discriminate.
  - rewrite Hi, (express_insert_collision _ url body e db Hex).
    split; [reflexivity | discriminate].
Qed.

Lemma next_code_taken (a : authorization) (body : create_body)
    (h : Next.headers) (e : env) (db : LibDb.database) (r : LibDb.qr_code) :
  In r (LibDb.qr_codes db) ->
  fst (nanoid 8 (rng e)) = LibDb.short_code r ->
  fst (Next.POST_qr a body h e db) = db
  /\ status_of (snd (Next.POST_qr a body h e db)) <> 201.
Proof.
  intros Hin Hcode.
  assert (Hex : existsb (LibDb.has_code (fst (nanoid 8 (rng e))))
                  (LibDb.qr_codes db) = true).
  { apply existsb_exists. exists r. split; [exact Hin|].
    unfold LibDb.has_code. rewrite Hcode. apply String.eqb_refl. }
  destruct (next_post_cases a body h e db) as [[Hd Hs]|(url & _ & Hi)].
  - split; [exact Hd|]. destruct Hs as [Hs|[Hs|Hs]]; rewrite Hs; discriminate.
  - rewrite Hi, (next_insert_collision _ url body h e db Hex).
    split; [reflexivity | discriminate].
Qed.

(** X2. Deactivation is final. Take, on either back end, a database with
    unique codes and a record in it that is not active. After any further
    requests, every redirect on its code is answered as for a code that
    does not exist (and changes nothing), and a creation request that draws
    its code stores nothing and is not answered 201: the code is not
    handed out again. *)
Theorem deactivation_is_final (qs : list request) (db : Db.database)
    (ldb : LibDb.database) (n m : nat) (r : Db.qr_code) (lr : LibDb.qr_code) :
  Db.unique_codes db ->
  nth_error (Db.qr_codes db) n = Some r ->
  Db.is_active r <> 1 ->
  LibDb.unique_codes ldb ->
  nth_error (LibDb.qr_codes ldb) m = Some lr ->
  LibDb.is_active lr <> 1 ->
  (forall pw e,
     Express.get_r (Db.short_code r) pw e (express_run qs db)
     = (express_run qs db, SendFile 404 "index.html"))
  /\ (forall a body e,
        fst (nanoid 8 (rng e)) = Db.short_code r ->
        fst (Express.post_api_qr a body e (express_run qs db))
        = express_run qs db
        /\ status_of (snd (Express.post_api_qr a body e (express_run qs db)))
           <> 201)
  /\ (forall origin pw e,
        Next.GET_r origin (LibDb.short_code lr) pw e (next_run qs ldb)
        = (next_run qs ldb, Redirect 307 (origin ++ "/")))
  /\ (forall a body h e,
        fst (nanoid 8 (rng e)) = LibDb.short_code lr ->
        fst (Next.POST_qr a body h e (next_run qs ldb)) = next_run qs ldb
        /\ status_of (snd (Next.POST_qr a body h e (next_run qs ldb))) <> 201).
Proof.
  intros Hu Hn Hi Hlu Hm Hli.
  destruct (express_run_nth qs db n r Hn) as (r' & Hn' & He).
  destruct (next_run_nth qs ldb m lr Hm) as (lr' & Hm' & Hle).
  pose proof (express_run_unique qs db Hu) as Hu'.
  pose proof (next_run_unique qs ldb Hlu) as Hlu'.
  apply nth_error_In in Hn', Hm'.
  destruct He as (_ & Hc & _ & _ & _ & _ & _ & Ha).
  destruct Hle as (_ & Hlc & _ & _ & _ & _ & _ & Hla).
  assert (Hi' : Db.is_active r' <> 1) by (destruct Ha as [->| ->]; [exact Hi|lia]).
  assert (Hli' : LibDb.is_active lr' <> 1)
    by (destruct Hla as [->| ->]; [exact Hli|lia]).
  rewrite <- Hc, <- Hlc. repeat split.
  - intros pw e.
    apply (express_not_found_inactive _ _ pw e r' Hu'); [|exact Hi'].
    now apply DbFacts.getStats_in.
  - now apply (express_code_taken a body e _ r').
  - now apply (express_code_taken a body e _ r').
  - intros origin pw e.
    apply (next_not_found_inactive _ origin _ pw e lr' Hlu'); [|exact Hli'].
    now apply LibDbFacts.lib_getStats_in.
  - now apply (next_code_taken a body h e _ lr').
  - now apply (next_code_taken a body h e _ lr').
Qed.

End DeactivationFacts.

(** ** Repeated and refused owner requests *)

Section UpdateTwice.
Context {row : Type}.
Variables (where_ : row -> bool) (set : row -> row).
Hypothesis where_set : forall r, where_ (set r) = where_ r.

Lemma count_after_update (t : list row) :
  sql_count where_ (sql_update where_ set t) = sql_count where_ t.
Proof.
  induction t as [|a t IH]; [reflexivity|].
  rewrite sql_update_cons, !sql_count_cons, IH.
  destruct (where_ a) eqn:Ha; [now rewrite where_set, Ha | now rewrite Ha].
Qed.

Lemma update_twice (t : list row) :
  (forall r, set (set r) = set r) ->
  sql_update where_ set (sql_update where_ set t) = sql_update where_ set t.
Proof.
  intros Hs. induction t as [|a t IH]; [reflexivity|].
  rewrite !sql_update_cons, IH. f_equal.
  destruct (where_ a) eqn:Ha; [now rewrite where_set, Ha, Hs | now rewrite Ha].
Qed.
End UpdateTwice.

Section OwnerAnswers.
Context `{Platform}.

Lemma express_deleteQR_twice (code : string) (userId : option Z)
    (db : Db.database) :
  Db.deleteQR code userId (fst (Db.deleteQR code userId db))
  = Db.deleteQR code userId db.
Proof.
  unfold Db.deleteQR. cbn [fst Db.with_qr_codes Db.qr_codes Db.users].
  rewrite count_after_update by reflexivity.
  rewrite update_twice by reflexivity. reflexivity.
Qed.

Lemma next_deleteQR_twice (code : string) (userId : option Z)
    (db : LibDb.database) :
  LibDb.deleteQR code userId (fst (LibDb.deleteQR code userId db))
  = LibDb.deleteQR code userId db.
Proof.
  unfold LibDb.deleteQR.
  cbn [fst LibDb.with_qr_codes LibDb.qr_codes LibDb.users].
  rewrite count_after_update by reflexivity.
  rewrite update_twice by reflexivity. reflexivity.
Qed.

(** X3. The owner's DELETE on a record of theirs, active or already
    deactivated, is answered 200 "QR code deactivated" on both back ends.
    It leaves that one record with [is_active = 0] and its other columns
    as they were, and all other rows and the users alone; the same DELETE
    sent again gets the same answer and leaves the database as the first
    one made it. *)
Theorem owner_delete_repeats (u : auth_user) (db : Db.database)
    (ldb : LibDb.database) (r : Db.qr_code) (lr : LibDb.qr_code) :
  Db.unique_codes db ->
  In r (Db.qr_codes db) ->
  Db.user_id r = Some (auth_id u) ->
  LibDb.unique_codes ldb ->
  In lr (LibDb.qr_codes ldb) ->
  LibDb.user_id lr = Some (auth_id u) ->
  (snd (Express.delete_api_qr (Token u) (Db.short_code r) db)
   = Json 200 [("message", JStr "QR code deactivated")]
   /\ (exists r' before after,
         Db.qr_codes db = (before ++ r :: after)%list
         /\ Db.qr_codes (fst (Express.delete_api_qr (Token u) (Db.short_code r) db))
            = (before ++ r' :: after)%list
         /\ Db.users (fst (Express.delete_api_qr (Token u) (Db.short_code r) db))
            = Db.users db
         /\ Db.is_active r' = 0
         /\ Db.id r' = Db.id r
         /\ Db.short_code r' = Db.short_code r
         /\ Db.destination_url r' = Db.destination_url r
         /\ Db.user_id r' = Db.user_id r
         /\ Db.scan_count r' = Db.scan_count r
         /\ Db.created_at r' = Db.created_at r
         /\ Db.last_scanned_at r' = Db.last_scanned_at r
         /\ Db.expires_at r' = Db.expires_at r
         /\ Db.password r' = Db.password r)
   /\ Express.delete_api_qr (Token u) (Db.short_code r)
        (fst (Express.delete_api_qr (Token u) (Db.short_code r) db))
      = Express.delete_api_qr (Token u) (Db.short_code r) db)
  /\ (snd (Next.DELETE_qr (Token u) (LibDb.short_code lr) ldb)
      = Json 200 [("message", JStr "QR code deactivated")]
      /\ (exists lr' before after,
            LibDb.qr_codes ldb = (before ++ lr :: after)%list
            /\ LibDb.qr_codes
                 (fst (Next.DELETE_qr (Token u) (LibDb.short_code lr) ldb))
               = (before ++ lr' :: after)%list
            /\ LibDb.users
                 (fst (Next.DELETE_qr (Token u) (LibDb.short_code lr) ldb))
               = LibDb.users ldb
            /\ LibDb.is_active lr' = 0
            /\ LibDb.id lr' = LibDb.id lr
            /\ LibDb.short_code lr' = LibDb.short_code lr
            /\ LibDb.destination_url lr' = LibDb.destination_url lr
            /\ LibDb.user_id lr' = LibDb.user_id lr
            /\ LibDb.scan_count lr' = LibDb.scan_count lr
            /\ LibDb.created_at lr' = LibDb.created_at lr
            /\ LibDb.expires_at lr' = LibDb.expires_at lr
            /\ LibDb.password lr' = LibDb.password lr)
      /\ Next.DELETE_qr (Token u) (LibDb.short_code lr)
           (fst (Next.DELETE_qr (Token u) (LibDb.short_code lr) ldb))
         = Next.DELETE_qr (Token u) (LibDb.short_code lr) ldb).
Proof.
  intros Hu Hin Ho Hlu Hlin Hlo. split.
  - pose proof (DbFacts.deleteQR_spec (Db.short_code r) (Some (auth_id u)) db Hu)
      as Hs.
    rewrite (DbFacts.getStats_in db r Hu Hin) in Hs.
    unfold Db.owned_by, sql_eq in Hs. rewrite Ho, Z.eqb_refl in Hs.
    destruct Hs as (before & after & Ht & Hq & Husers & Hc).
    assert (Hfst : fst (Express.delete_api_qr (Token u) (Db.short_code r) db)
                   = fst (Db.deleteQR (Db.short_code r) (Some (auth_id u)) db)).
    { unfold Express.delete_api_qr. cbn [Express.authRequired].
      now destruct (snd _ =? 0). }
    rewrite Hfst. unfold Express.delete_api_qr. cbn [Express.authRequired].
    rewrite express_deleteQR_twice, Hc. cbn [Z.eqb fst snd].
    split; [reflexivity|]. split; [|reflexivity].
    exists (Db.deactivated r), before, after. now repeat split.
  - pose proof (LibDbFacts.lib_deleteQR_spec (LibDb.short_code lr)
                  (Some (auth_id u)) ldb Hlu) as Hs.
    rewrite (LibDbFacts.lib_getStats_in ldb lr Hlu Hlin) in Hs.
    unfold LibDb.owned_by, sql_eq in Hs. rewrite Hlo, Z.eqb_refl in Hs.
    destruct Hs as (before & after & Ht & Hq & Husers & Hc).
    assert (Hfst : fst (Next.DELETE_qr (Token u) (LibDb.short_code lr) ldb)
                   = fst (LibDb.deleteQR (LibDb.short_code lr)
                            (Some (auth_id u)) ldb)).
    { unfold Next.DELETE_qr. cbn [Next.getAuthUser].
      now destruct (snd _ =? 0). }
    rewrite Hfst. unfold Next.DELETE_qr. cbn [Next.getAuthUser].
    rewrite next_deleteQR_twice, Hc. cbn [Z.eqb fst snd].
    split; [reflexivity|]. split; [|reflexivity].
    exists (LibDb.deactivated lr), before, after. now repeat split.
Qed.

(** X4. No ownership oracle. On both back ends, when no record has the
    code, or the record with the code has another owner or none, a PUT
    with a URL that parses and a DELETE by an authenticated caller get
    the one answer 404 "QR code not found or not owned by you" and change
    nothing. *)
Theorem owner_requests_refused_alike (u : auth_user) (code url protocol : string)
    (db : Db.database) (ldb : LibDb.database) :
  Db.unique_codes db ->
  LibDb.unique_codes ldb ->
  (forall r, Db.getStats code db = Some r -> Db.user_id r <> Some (auth_id u)) ->
  (forall r, LibDb.getStats code ldb = Some r ->
             LibDb.user_id r <> Some (auth_id u)) ->
  url <> "" ->
  URL url = Some protocol ->
  (Express.put_api_qr (Token u) code (Some url) db
   = (db, error 404 "QR code not found or not owned by you")
   /\ Express.delete_api_qr (Token u) code db
      = (db, error 404 "QR code not found or not owned by you"))
  /\ (Next.PUT_qr (Token u) code (Some url) ldb
      = (ldb, error 404 "QR code not found or not owned by you")
      /\ Next.DELETE_qr (Token u) code ldb
         = (ldb, error 404 "QR code not found or not owned by you")).
Proof.
  intros Hu Hlu Hno Hlno Hne Hurl. apply String.eqb_neq in Hne.
  assert (Hown : forall o, o <> Some (auth_id u) ->
                           sql_eq o (Some (auth_id u)) = false).
  { intros [x|] Hx; [|reflexivity]. cbn. apply Z.eqb_neq. congruence. }
  split.
  - pose proof (DbFacts.updateDestination_spec url code (Some (auth_id u)) db Hu)
      as Hupd.
    pose proof (DbFacts.deleteQR_spec code (Some (auth_id u)) db Hu) as Hdel.
    assert (Hboth : Db.updateDestination url code (Some (auth_id u)) db = (db, 0)
                    /\ Db.deleteQR code (Some (auth_id u)) db = (db, 0)).
    { destruct (Db.getStats code db) as [r|]; [|now split].
      unfold Db.owned_by in Hupd, Hdel.
      rewrite (Hown _ (Hno r eq_refl)) in Hupd, Hdel. now split. }
    destruct Hboth as [Hp Hd].
    unfold Express.put_api_qr, Express.delete_api_qr.
    cbn [Express.authRequired truthy]. rewrite Hne, Hurl, Hp, Hd. now split.
  - pose proof (LibDbFacts.lib_updateDestination_spec url code
                  (Some (auth_id u)) ldb Hlu) as Hupd.
    pose proof (LibDbFacts.lib_deleteQR_spec code (Some (auth_id u)) ldb Hlu)
      as Hdel.
    assert (Hboth : LibDb.updateDestination url code (Some (auth_id u)) ldb
                    = (ldb, 0)
                    /\ LibDb.deleteQR code (Some (auth_id u)) ldb = (ldb, 0)).
    { destruct (LibDb.getStats code ldb) as [r|]; [|now split].
      unfold LibDb.owned_by in Hupd, Hdel.
      rewrite (Hown _ (Hlno r eq_refl)) in Hupd, Hdel. now split. }
    destruct Hboth as [Hp Hd].
    unfold Next.PUT_qr, Next.DELETE_qr.
    cbn [Next.getAuthUser truthy]. rewrite Hne, Hurl, Hp, Hd. now split.
Qed.

End OwnerAnswers.

Lemma deactivation_is_final_witness :
  Db.unique_codes Sample.E.db
  /\ LibDb.unique_codes Sample.N.db
  /\ Db.is_active Sample.E.retired1 <> 1
  /\ @Express.get_r Reference.platform "retired1" QAbsent Sample.at200
       (@express_run Reference.platform Reference.tokens
          [Owner (Put (Token Sample.alice) "retired1"
                    (Some "https://example.com/again"));
           Create NoToken Sample.menu_body Sample.no_headers Sample.at200]
          Sample.E.db)
     = (@express_run Reference.platform Reference.tokens
          [Owner (Put (Token Sample.alice) "retired1"
                    (Some "https://example.com/again"));
           Create NoToken Sample.menu_body Sample.no_headers Sample.at200]
          Sample.E.db,
        SendFile 404 "index.html").
Proof.
  assert (Hu : Db.unique_codes Sample.E.db)
    by (unfold Db.unique_codes; simpl; nodup_codes).
  assert (Hl : LibDb.unique_codes Sample.N.db)
    by (unfold LibDb.unique_codes; simpl; nodup_codes).
  assert (Hi : Db.is_active Sample.E.retired1 <> 1) by (simpl; lia).
  assert (Hli : LibDb.is_active Sample.N.retired1 <> 1) by (simpl; lia).
  split; [exact Hu|]. split; [exact Hl|]. split; [exact Hi|].
  exact (proj1 (@deactivation_is_final Reference.platform Reference.tokens
                  [Owner (Put (Token Sample.alice) "retired1"
                            (Some "https://example.com/again"));
                   Create NoToken Sample.menu_body Sample.no_headers Sample.at200]
                  Sample.E.db Sample.N.db 2%nat 2%nat
                  Sample.E.retired1 Sample.N.retired1
                  Hu eq_refl Hi Hl eq_refl Hli) QAbsent Sample.at200).
Defined.

Lemma owner_delete_repeats_witness :
  Db.unique_codes Sample.E.db
  /\ LibDb.unique_codes Sample.N.db
  /\ snd (Express.delete_api_qr (Token Sample.alice)
            "retired1" Sample.E.db)
     = Json 200 [("message", JStr "QR code deactivated")]
  /\ (exists r' before after,
        Db.qr_codes
          (fst (Express.delete_api_qr (Token Sample.alice) "vault001"
                  Sample.E.db))
        = (before ++ r' :: after)%list
        /\ Db.short_code r' = "vault001"
        /\ Db.is_active r' = 0)
  /\ snd (Next.DELETE_qr (Token Sample.alice)
            "vault001" Sample.N.db)
     = Json 200 [("message", JStr "QR code deactivated")].
Proof.
  assert (Hu : Db.unique_codes Sample.E.db)
    by (unfold Db.unique_codes; simpl; nodup_codes).
  assert (Hl : LibDb.unique_codes Sample.N.db)
    by (unfold LibDb.unique_codes; simpl; nodup_codes).
  assert (Hin : In Sample.E.retired1 (Db.qr_codes Sample.E.db))
    by (simpl; auto).
  assert (Hvin : In Sample.E.vault (Db.qr_codes Sample.E.db))
    by (simpl; auto).
  assert (Hlin : In Sample.N.vault (LibDb.qr_codes Sample.N.db))
    by (simpl; auto).
  pose proof (owner_delete_repeats Sample.alice
                Sample.E.db Sample.N.db Sample.E.retired1 Sample.N.vault
                Hu Hin eq_refl Hl Hlin eq_refl) as W.
  split; [exact Hu|]. split; [exact Hl|].
  split; [exact (proj1 (proj1 W))|]. split; [|exact (proj1 (proj2 W))].
  destruct (proj1 (proj2 (proj1 (owner_delete_repeats Sample.alice
                Sample.E.db Sample.N.db Sample.E.vault Sample.N.vault
                Hu Hvin eq_refl Hl Hlin eq_refl))))
    as (r' & before & after & _ & Hq & _ & Ha & _ & Hk & _).
  exists r', before, after. now repeat split.
Defined.

Lemma owner_requests_refused_alike_witness :
  @URL Reference.platform "https://example.com/x" = Some "https:"
  /\ @Express.put_api_qr Reference.platform (Token Sample.bob) "vault001"
       (Some "https://example.com/x") Sample.E.db
     = (Sample.E.db, error 404 "QR code not found or not owned by you")
  /\ Next.DELETE_qr (Token Sample.bob) "vault001"
       Sample.N.db
     = (Sample.N.db, error 404 "QR code not found or not owned by you").
Proof.
  assert (Hu : Db.unique_codes Sample.E.db)
    by (unfold Db.unique_codes; simpl; nodup_codes).
  assert (Hl : LibDb.unique_codes Sample.N.db)
    by (unfold LibDb.unique_codes; simpl; nodup_codes).
  assert (Hno : forall r, Db.getStats "vault001" Sample.E.db = Some r ->
                          Db.user_id r <> Some (auth_id Sample.bob)).
  { intros r Hg. vm_compute in Hg. injection Hg as <-. simpl. discriminate. }
  assert (Hlno : forall r, LibDb.getStats "vault001" Sample.N.db = Some r ->
                           LibDb.user_id r <> Some (auth_id Sample.bob)).
  { intros r Hg. vm_compute in Hg. injection Hg as <-. simpl. discriminate. }
  assert (Hne : "https://example.com/x" <> "") by discriminate.
  pose proof (@owner_requests_refused_alike Reference.platform Sample.bob
                "vault001" "https://example.com/x" "https:"
                Sample.E.db Sample.N.db Hu Hl Hno Hlno Hne eq_refl) as W.
  split; [reflexivity|].
  split; [exact (proj1 (proj1 W)) | exact (proj2 (proj2 W))].
Defined.

(** ** Update, then redirect *)

Section UpdateRedirect.
Context `{Platform}.

(** X5. The owner's PUT with a URL that parses changes the destination of
    their record and nothing else of it; if the record is active, not
    expired and needs no (further) password, the next redirect on its code
    goes to the new URL. On both back ends. *)
Theorem owner_update_redirects (u : auth_user) (url protocol : string)
    (q : query_value) (pw : option string) (e : env) (origin : string)
    (db : Db.database) (ldb : LibDb.database)
    (r : Db.qr_code) (lr : LibDb.qr_code) :
  Db.unique_codes db ->
  In r (Db.qr_codes db) ->
  Db.user_id r = Some (auth_id u) ->
  LibDb.unique_codes ldb ->
  In lr (LibDb.qr_codes ldb) ->
  LibDb.user_id lr = Some (auth_id u) ->
  url <> "" ->
  URL url = Some protocol ->
  (Db.getStats (Db.short_code r)
     (fst (Express.put_api_qr (Token u) (Db.short_code r) (Some url) db))
   = Some (Db.with_destination url r)
   /\ (Db.is_active r = 1 ->
       Express.expired r (now e) = false ->
       Express.password_missing r q = Some false ->
       snd (Express.get_r (Db.short_code r) q e
              (fst (Express.put_api_qr (Token u) (Db.short_code r) (Some url) db)))
       = Redirect 302 url))
  /\ (LibDb.getStats (LibDb.short_code lr)
        (fst (Next.PUT_qr (Token u) (LibDb.short_code lr) (Some url) ldb))
      = Some (LibDb.with_destination url lr)
      /\ (LibDb.is_active lr = 1 ->
          Next.expired lr (now e) = false ->
          Next.password_missing lr pw = false ->
          snd (Next.GET_r origin (LibDb.short_code lr) pw e
                 (fst (Next.PUT_qr (Token u) (LibDb.short_code lr) (Some url) ldb)))
          = Redirect 302 url)).
Proof.
  intros Hu Hin Ho Hlu Hlin Hlo Hne Hurl. split.
  - destruct (express_put_any_url u db r url protocol Hu Hin Ho Hne Hurl)
      as [_ Hin'].
    set (db' := fst (Express.put_api_qr (Token u) (Db.short_code r) (Some url) db))
      in *.
    assert (Hu' : Db.unique_codes db').
    { pose proof (express_request_call
                    (Put (Token u) (Db.short_code r) (Some url)) db) as Hcase.
      change (express_request (Put (Token u) (Db.short_code r) (Some url)) db)
        with db' in Hcase.
      destruct Hcase as [->|(c & _ & _ & ->)];
        [exact Hu | now apply express_calls_unique]. }
    pose proof (DbFacts.getStats_in db' _ Hu' Hin') as Hg. cbn in Hg.
    split; [exact Hg|]. intros Ha He Hp. unfold Express.get_r.
    rewrite (DbFacts.findByCode_getStats _ db' Hu'), Hg.
    cbn [Db.with_destination Db.is_active]. rewrite Ha. cbn [Z.eqb Pos.eqb].
    change (Express.expired (Db.with_destination url r) (now e))
      with (Express.expired r (now e)).
    change (Express.password_missing (Db.with_destination url r) q)
      with (Express.password_missing r q).
    now rewrite He, Hp.
  - destruct (next_put_any_url u ldb lr url protocol Hlu Hlin Hlo Hne Hurl)
      as [_ Hin'].
    set (db' := fst (Next.PUT_qr (Token u) (LibDb.short_code lr) (Some url) ldb))
      in *.
    assert (Hu' : LibDb.unique_codes db').
    { pose proof (next_request_call
                    (Put (Token u) (LibDb.short_code lr) (Some url)) ldb) as Hcase.
      change (next_request (Put (Token u) (LibDb.short_code lr) (Some url)) ldb)
        with db' in Hcase.
      destruct Hcase as [->|(c & _ & _ & ->)];
        [exact Hlu | now apply next_calls_unique]. }
    pose proof (LibDbFacts.lib_getStats_in db' _ Hu' Hin') as Hg. cbn in Hg.
    split; [exact Hg|]. intros Ha He Hp. unfold Next.GET_r.
    rewrite (LibDbFacts.lib_findByCode_getStats _ db' Hu'), Hg.
    cbn [LibDb.with_destination LibDb.is_active]. rewrite Ha.
    cbn [Z.eqb Pos.eqb].
    change (Next.expired (LibDb.with_destination url lr) (now e))
      with (Next.expired lr (now e)).
    change (Next.password_missing (LibDb.with_destination url lr) pw)
      with (Next.password_missing lr pw).
    now rewrite He, Hp.
Qed.

End UpdateRedirect.

Lemma owner_update_redirects_witness :
  @URL Reference.platform "https://example.com/new" = Some "https:"
  /\ snd (@Express.get_r Reference.platform "vault001" (QText "secret123")
            Sample.at200
            (fst (@Express.put_api_qr Reference.platform (Token Sample.alice)
                    "vault001" (Some "https://example.com/new") Sample.E.db)))
     = Redirect 302 "https://example.com/new".
Proof.
  assert (Hu : Db.unique_codes Sample.E.db)
    by (unfold Db.unique_codes; simpl; nodup_codes).
  assert (Hl : LibDb.unique_codes Sample.N.db)
    by (unfold LibDb.unique_codes; simpl; nodup_codes).
  assert (Hin : In Sample.E.vault (Db.qr_codes Sample.E.db))
    by (simpl; auto).
  assert (Hlin : In Sample.N.vault (LibDb.qr_codes Sample.N.db))
    by (simpl; auto).
  assert (Hne : "https://example.com/new" <> "") by discriminate.
  pose proof (@owner_update_redirects Reference.platform Sample.alice
                "https://example.com/new" "https:" (QText "secret123")
                (Some "secret123")
                Sample.at200 "https://qr.example" Sample.E.db Sample.N.db
                Sample.E.vault Sample.N.vault
                Hu Hin eq_refl Hl Hlin eq_refl Hne eq_refl) as W.
  split; [reflexivity|].
  exact (proj2 (proj1 W) eq_refl eq_refl eq_refl).
Defined.

(** ** Creation, then lookup *)

Section CreationLookup.
Context `{Platform}.

Lemma express_insert_answer (userId : option Z) (url : string)
    (body : create_body) (e : env) (db : Db.database) :
  status_of (snd (Express.insert_qr userId url body e db)) = 201 ->
  snd (Express.insert_qr userId url body e db)
  = Json 201 [("shortCode", JStr (fst (nanoid 8 (rng e))));
              ("shortUrl", JStr (BASE_URL ++ "/r/" ++ fst (nanoid 8 (rng e))));
              ("destinationUrl", JStr url);
              ("createdAt", JStr (toISOString (now e)))]
  /\ exists r,
       Db.qr_codes (fst (Express.insert_qr userId url body e db))
       = (Db.qr_codes db ++ [r])%list
       /\ Db.expires_at r = or_null (body_expiresAt body)
       /\ Db.created_at r = now e
       /\ Db.last_scanned_at r = None.
Proof.
  unfold Express.insert_qr, Db.createQR.
  destruct (existsb _ (Db.qr_codes db)); cbn [fst snd status_of error];
    [discriminate|].
  intros _. split; [reflexivity|]. eexists. split; [reflexivity|].
  cbn. now repeat split.
Qed.

Lemma next_insert_answer (userId : option Z) (url : string)
    (body : create_body) (h : Next.headers) (e : env) (db : LibDb.database) :
  status_of (snd (Next.insert_qr userId url body h e db)) = 201 ->
  snd (Next.insert_qr userId url body h e db)
  = Json 201 [("shortCode", JStr (fst (nanoid 8 (rng e))));
              ("shortUrl",
               JStr (Next.baseUrl h ++ "/r/" ++ fst (nanoid 8 (rng e))));
              ("destinationUrl", JStr url);
              ("createdAt", JStr (toISOString (now e)))]
  /\ exists r,
       LibDb.qr_codes (fst (Next.insert_qr userId url body h e db))
       = (LibDb.qr_codes db ++ [r])%list
       /\ LibDb.expires_at r = or_null (body_expiresAt body)
       /\ LibDb.created_at r = now e.
Proof.
  unfold Next.insert_qr, LibDb.createQR.
  destruct (existsb _ (LibDb.qr_codes db)); cbn [fst snd status_of error];
    [discriminate|].
  intros _. split; [reflexivity|]. eexists. split; [reflexivity|].
  cbn. now repeat split.
Qed.

Lemma last_unique {A : Type} (t : list A) (x y : A) :
  (t ++ [x])%list = (t ++ [y])%list -> x = y.
Proof. intros E. apply app_inv_head in E. now injection E. Qed.

(** The record of a creation answered 201, on server.js. *)
Lemma express_created_full (a : authorization) (body : create_body)
    (e : env) (db : Db.database) :
  status_of (snd (Express.post_api_qr a body e db)) = 201 ->
  exists r,
    Db.qr_codes (fst (Express.post_api_qr a body e db))
    = (Db.qr_codes db ++ [r])%list
    /\ Db.users (fst (Express.post_api_qr a body e db)) = Db.users db
    /\ snd (Express.post_api_qr a body e db)
       = Json 201 [("shortCode", JStr (Db.short_code r));
                   ("shortUrl", JStr (BASE_URL ++ "/r/" ++ Db.short_code r));
                   ("destinationUrl", JStr (Db.destination_url r));
                   ("createdAt", JStr (toISOString (now e)))]
    /\ body_url body = Some (Db.destination_url r)
    /\ Db.user_id r = option_map auth_id (Express.req_user a)
    /\ Db.scan_count r = 0
    /\ Db.is_active r = 1
    /\ Db.expires_at r = or_null (body_expiresAt body)
    /\ Db.findByCode (Db.short_code r) (fst (Express.post_api_qr a body e db))
       = Some r
    /\ Db.getStats (Db.short_code r) (fst (Express.post_api_qr a body e db))
       = Some r
    /\ Db.password r = stored_password body e.
Proof.
  intros Hs.
  destruct (express_post_cases a body e db) as [[_ Hbad]|(url & Hb & Hi)].
  { rewrite Hs in Hbad. destruct Hbad as [Hx|[Hx|Hx]]; try discriminate.
    rewrite Hx in Hs. discriminate. }
  rewrite Hi in Hs |- *.
  destruct (express_insert_created _ url body e db Hs)
    as (Hfree & r & Hrows & Hcode & Hdest & Howner & Hscan & Hact & Hpw).
  destruct (express_insert_answer _ url body e db Hs)
    as (Hans & r2 & Hrows2 & Hexp & _).
  assert (r2 = r) by (rewrite Hrows in Hrows2; now apply last_unique in Hrows2).
  subst r2.
  destruct (express_insert_rows (option_map auth_id (Express.req_user a))
              url body e db) as [Husers _].
  exists r. rewrite Hcode, Hdest. repeat split; auto.
  - unfold Db.findByCode, sql_first. rewrite Hrows.
    apply (find_appended _ (Db.has_code (fst (nanoid 8 (rng e)))));
      [exact Hfree | |].
    + intros y Hy. now apply andb_prop in Hy.
    + unfold Db.has_code. now rewrite Hcode, String.eqb_refl, Hact.
  - unfold Db.getStats, sql_first. rewrite Hrows.
    apply (find_appended _ (Db.has_code (fst (nanoid 8 (rng e)))));
      [exact Hfree | auto |].
    unfold Db.has_code. now rewrite Hcode, String.eqb_refl.
Qed.

(** The record of a creation answered 201, on the Next.js route. *)
Lemma next_created_full (a : authorization) (body : create_body)
    (h : Next.headers) (e : env) (ldb : LibDb.database) :
  status_of (snd (Next.POST_qr a body h e ldb)) = 201 ->
  exists r,
    LibDb.qr_codes (fst (Next.POST_qr a body h e ldb))
    = (LibDb.qr_codes ldb ++ [r])%list
    /\ LibDb.users (fst (Next.POST_qr a body h e ldb)) = LibDb.users ldb
    /\ snd (Next.POST_qr a body h e ldb)
       = Json 201 [("shortCode", JStr (LibDb.short_code r));
                   ("shortUrl",
                    JStr (Next.baseUrl h ++ "/r/" ++ LibDb.short_code r));
                   ("destinationUrl", JStr (LibDb.destination_url r));
                   ("createdAt", JStr (toISOString (now e)))]
    /\ body_url body = Some (LibDb.destination_url r)
    /\ LibDb.user_id r = option_map auth_id (Next.getAuthUser a)
    /\ LibDb.scan_count r = 0
    /\ LibDb.is_active r = 1
    /\ LibDb.expires_at r = or_null (body_expiresAt body)
    /\ LibDb.findByCode (LibDb.short_code r)
         (fst (Next.POST_qr a body h e ldb))
       = Some r
    /\ LibDb.getStats (LibDb.short_code r)
         (fst (Next.POST_qr a body h e ldb))
       = Some r
    /\ LibDb.password r = stored_password body e.
Proof.
  intros Hls.
  destruct (next_post_cases a body h e ldb) as [[_ Hbad]|(url & Hb & Hi)].
  { rewrite Hls in Hbad. destruct Hbad as [Hx|[Hx|Hx]]; try discriminate.
    rewrite Hx in Hls. discriminate. }
  rewrite Hi in Hls |- *.
  destruct (next_insert_created _ url body h e ldb Hls)
    as (Hfree & r & Hrows & Hcode & Hdest & Howner & Hscan & Hact & Hpw).
  destruct (next_insert_answer _ url body h e ldb Hls)
    as (Hans & r2 & Hrows2 & Hexp & _).
  assert (r2 = r) by (rewrite Hrows in Hrows2; now apply last_unique in Hrows2).
  subst r2.
  destruct (next_insert_rows (option_map auth_id (Next.getAuthUser a))
              url body h e ldb) as [Husers _].
  exists r. rewrite Hcode, Hdest. repeat split; auto.
  - unfold LibDb.findByCode, sql_first. rewrite Hrows.
    apply (find_appended _ (LibDb.has_code (fst (nanoid 8 (rng e)))));
      [exact Hfree | |].
    + intros y Hy. now apply andb_prop in Hy.
    + unfold LibDb.has_code. now rewrite Hcode, String.eqb_refl, Hact.
  - unfold LibDb.getStats, sql_first. rewrite Hrows.
    apply (find_appended _ (LibDb.has_code (fst (nanoid 8 (rng e)))));
      [exact Hfree | auto |].
    unfold LibDb.has_code. now rewrite Hcode, String.eqb_refl.
Qed.


(** X7. The password of a creation request opens the record it made. Let
    the request carry a non-empty password and be answered 201, and let
    bcrypt verify that password against the hash it made of it. Then a
    redirect on the new code with that password is answered, unless the
    record is expired, by the 302 to the destination; and if the hash is
    not the empty string, a redirect without credential gets the password
    prompt and changes nothing. On both back ends. *)
Theorem creation_password_round_trip (a : authorization) (body : create_body)
    (h : Next.headers) (origin pw : string) (e e' : env)
    (db : Db.database) (ldb : LibDb.database) :
  status_of (snd (Express.post_api_qr a body e db)) = 201 ->
  status_of (snd (Next.POST_qr a body h e ldb)) = 201 ->
  body_password body = Some pw ->
  pw <> "" ->
  compareSync pw (hashSync pw (salt e)) = true ->
  (exists r,
     Db.qr_codes (fst (Express.post_api_qr a body e db))
     = (Db.qr_codes db ++ [r])%list
     /\ Db.password r = Some (hashSync pw (salt e))
     /\ (Express.expired r (now e') = false ->
         snd (Express.get_r (Db.short_code r) (QText pw) e'
                (fst (Express.post_api_qr a body e db)))
         = Redirect 302 (Db.destination_url r))
     /\ (Express.expired r (now e') = false ->
         hashSync pw (salt e) <> "" ->
         Express.get_r (Db.short_code r) QAbsent e'
           (fst (Express.post_api_qr a body e db))
         = (fst (Express.post_api_qr a body e db),
            SendFile 200 "password.html")))
  /\ (exists r,
        LibDb.qr_codes (fst (Next.POST_qr a body h e ldb))
        = (LibDb.qr_codes ldb ++ [r])%list
        /\ LibDb.password r = Some (hashSync pw (salt e))
        /\ (Next.expired r (now e') = false ->
            snd (Next.GET_r origin (LibDb.short_code r) (Some pw) e'
                   (fst (Next.POST_qr a body h e ldb)))
            = Redirect 302 (LibDb.destination_url r))
        /\ (Next.expired r (now e') = false ->
            hashSync pw (salt e) <> "" ->
            Next.GET_r origin (LibDb.short_code r) None e'
              (fst (Next.POST_qr a body h e ldb))
            = (fst (Next.POST_qr a body h e ldb),
               Redirect 307 (origin ++ "/password/" ++ LibDb.short_code r)))).
Proof.
  intros Hs Hls Hpw Hne Hcmp.
  assert (Hstored : stored_password body e = Some (hashSync pw (salt e))).
  { unfold stored_password. rewrite Hpw.
    apply String.eqb_neq in Hne. now rewrite Hne. }
  apply String.eqb_neq in Hne. split.
  - destruct (express_created_full a body e db Hs)
      as (r & Hrows & _ & _ & _ & _ & _ & _ & _ & Hfind & _ & Hp).
    rewrite Hstored in Hp. exists r. split; [exact Hrows|].
    split; [exact Hp|]. split.
    + intros He. unfold Express.get_r. rewrite Hfind, He.
      unfold Express.password_missing. rewrite Hp.
      cbn [truthy query_truthy]. rewrite Hne, Hcmp. cbn [negb].
      now destruct (negb (String.eqb (hashSync pw (salt e)) "")).
    + intros He Hh. apply String.eqb_neq in Hh.
      unfold Express.get_r. rewrite Hfind, He.
      unfold Express.password_missing. rewrite Hp.
      cbn [truthy query_truthy]. now rewrite Hh.
  - destruct (next_created_full a body h e ldb Hls)
      as (r & Hrows & _ & _ & _ & _ & _ & _ & _ & Hfind & _ & Hp).
    rewrite Hstored in Hp. exists r. split; [exact Hrows|].
    split; [exact Hp|]. split.
    + intros He. unfold Next.GET_r. rewrite Hfind, He.
      unfold Next.password_missing. rewrite Hp. cbn [truthy].
      rewrite Hne, Hcmp. cbn [negb orb]. now rewrite andb_false_r.
    + intros He Hh. apply String.eqb_neq in Hh.
      unfold Next.GET_r. rewrite Hfind, He.
      unfold Next.password_missing. rewrite Hp. cbn [truthy].
      now rewrite Hh.
Qed.

End CreationLookup.


Lemma creation_password_round_trip_witness :
  status_of
    (snd (@Express.post_api_qr Reference.platform NoToken
            {| body_url := Some "https://example.com/menu";
               body_expiresAt := None;
               body_password := Some "secret123" |}
            Sample.at200 Sample.E.db_retired)) = 201
  /\ @compareSync Reference.platform "secret123"
       (@hashSync Reference.platform "secret123" (salt Sample.at200)) = true
  /\ exists r,
       Db.password r
       = Some (@hashSync Reference.platform "secret123" (salt Sample.at200))
       /\ snd (@Express.get_r Reference.platform (Db.short_code r) (QText "secret123") Sample.at200
                 (fst (@Express.post_api_qr Reference.platform NoToken
                         {| body_url := Some "https://example.com/menu";
                            body_expiresAt := None;
                            body_password := Some "secret123" |}
                         Sample.at200 Sample.E.db_retired)))
          = Redirect 302 (Db.destination_url r).
Proof.
  split; [reflexivity|]. split; [reflexivity|].
  assert (Hne : "secret123" <> "") by discriminate.
  destruct (@creation_password_round_trip Reference.platform NoToken
              {| body_url := Some "https://example.com/menu";
                 body_expiresAt := None;
                 body_password := Some "secret123" |}
              Sample.no_headers "https://qr.example" "secret123"
              Sample.at200 Sample.at200
              Sample.E.db_retired Sample.N.db_retired
              eq_refl eq_refl eq_refl Hne eq_refl)
    as [(r & Hrows & Hp & Hok & _) _].
  exists r. split; [exact Hp|]. apply Hok.
  assert (Hr : r = {| Db.id := 5; Db.short_code := "AAECAwQF";
                      Db.destination_url := "https://example.com/menu";
                      Db.user_id := None; Db.scan_count := 0;
                      Db.created_at := 200; Db.last_scanned_at := None;
                      Db.expires_at := None;
                      Db.password := Some (Reference.hash "secret123"
                                             (salt Sample.at200));
                      Db.is_active := 1 |}).
  { vm_compute in Hrows. injection Hrows as <-. reflexivity. }
  rewrite Hr. reflexivity.
Defined.

(** ** Who is counted against the quota *)

Section CountFacts.
Context {row : Type}.

Lemma sql_count_app (p : row -> bool) (t1 t2 : list row) :
  sql_count p (t1 ++ t2) = sql_count p t1 + sql_count p t2.
Proof.
  induction t1 as [|a t1 IH]; [reflexivity|].
  cbn [app]. rewrite !sql_count_cons, IH. lia.
Qed.

Lemma sql_count_nonneg (p : row -> bool) (t : list row) : 0 <= sql_count p t.
Proof. unfold sql_count. lia. Qed.

(** An UPDATE that does not assign what [p] reads keeps the count of [p]. *)
Lemma count_update_same (p where_ : row -> bool) (set : row -> row)
    (t : list row) :
  (forall r, p (set r) = p r) ->
  sql_count p (sql_update where_ set t) = sql_count p t.
Proof.
  intros Hp. induction t as [|a t IH]; [reflexivity|].
  rewrite sql_update_cons, !sql_count_cons, IH.
  destruct (where_ a); [now rewrite Hp | reflexivity].
Qed.

Lemma find_app_first (p : row -> bool) (t1 t2 : list row) (x : row) :
  find p t1 = Some x -> find p (t1 ++ t2) = Some x.
Proof.
  induction t1 as [|a t1 IH]; cbn; [discriminate|].
  destruct (p a); [auto | exact IH].
Qed.
End CountFacts.

Section QuotaAndOwners.
Context `{Platform} `{TokenIssuer}.

(** X8. A creation request without a token, or with a token that does not
    verify, is served as an anonymous one: with a valid URL it goes
    straight to the insert, whatever anybody's count of records is. Its
    answer is 201 or the 500 of a code collision, never the 403 of the
    quota or a 401, and the record it stores has no owner. On both back
    ends. *)
Theorem anonymous_creation_skips_quota (a : authorization)
    (body : create_body) (h : Next.headers) (e : env)
    (db : Db.database) (ldb : LibDb.database) (url protocol : string) :
  (forall u, a <> Token u) ->
  body_url body = Some url ->
  url <> "" ->
  URL url = Some protocol ->
  existsb (String.eqb protocol) ["http:"; "https:"] = true ->
  Z.of_nat (String.length url) <= 2048 ->
  (Express.post_api_qr a body e db = Express.insert_qr None url body e db
   /\ (snd (Express.post_api_qr a body e db)
       = error 500 "Failed to create QR code"
       \/ status_of (snd (Express.post_api_qr a body e db)) = 201
          /\ exists r,
               Db.qr_codes (fst (Express.post_api_qr a body e db))
               = (Db.qr_codes db ++ [r])%list
               /\ Db.user_id r = None))
  /\ (Next.POST_qr a body h e ldb = Next.insert_qr None url body h e ldb
      /\ (snd (Next.POST_qr a body h e ldb)
          = error 500 "Failed to create QR code"
          \/ status_of (snd (Next.POST_qr a body h e ldb)) = 201
             /\ exists r,
                  LibDb.qr_codes (fst (Next.POST_qr a body h e ldb))
                  = (LibDb.qr_codes ldb ++ [r])%list
                  /\ LibDb.user_id r = None)).
Proof.
  intros Ha Hb Hne Hurl Hp Hlen. apply String.eqb_neq in Hne.
  assert (Hl : (Z.of_nat (String.length url) >? 2048) = false) by lia.
  assert (He : Express.post_api_qr a body e db
               = Express.insert_qr None url body e db).
  { unfold Express.post_api_qr. rewrite Hb. cbn [truthy].
    rewrite Hne, Hurl, Hp, Hl. cbn [negb].
    destruct a as [| |u]; try reflexivity. now destruct (Ha u). }
  assert (Hn : Next.POST_qr a body h e ldb
               = Next.insert_qr None url body h e ldb).
  { unfold Next.POST_qr. rewrite Hb. cbn [truthy].
    rewrite Hne, Hurl, Hp, Hl. cbn [negb].
    destruct a as [| |u]; try reflexivity. now destruct (Ha u). }
  rewrite He, Hn. split; (split; [reflexivity|]).
  - destruct (existsb (Db.has_code (fst (nanoid 8 (rng e)))) (Db.qr_codes db))
      eqn:Hex.
    + left. now rewrite (express_insert_collision None url body e db Hex).
    + right. assert (Hs : status_of (snd (Express.insert_qr None url body e db))
                          = 201).
      { unfold Express.insert_qr, Db.createQR. now rewrite Hex. }
      split; [exact Hs|].
      destruct (express_insert_created None url body e db Hs)
        as (_ & r & Hrows & _ & _ & Ho & _).
      now exists r.
  - destruct (existsb (LibDb.has_code (fst (nanoid 8 (rng e))))
                (LibDb.qr_codes ldb)) eqn:Hex.
    + left. now rewrite (next_insert_collision None url body h e ldb Hex).
    + right. assert (Hs : status_of (snd (Next.insert_qr None url body h e ldb))
                          = 201).
      { unfold Next.insert_qr, LibDb.createQR. now rewrite Hex. }
      split; [exact Hs|].
      destruct (next_insert_created None url body h e ldb Hs)
        as (_ & r & Hrows & _ & _ & Ho & _).
      now exists r.
Qed.

(** On db.js no request lowers an owner's [countUserQRs]. *)
Lemma express_count_grows (q : request) (userId : option Z) (db : Db.database) :
  Db.countUserQRs userId db <= Db.countUserQRs userId (express_handle q db).
Proof.
  unfold Db.countUserQRs.
  destruct q as [a body h e|origin code pw lpw e|q|body e]; cbn [express_handle].
  - destruct (express_post_cases a body e db) as [[-> _]|(url & _ & ->)];
      [lia|].
    destruct (express_insert_rows (option_map auth_id (Express.req_user a))
                url body e db) as [_ [->|[x ->]]]; [lia|].
    rewrite sql_count_app.
    pose proof (sql_count_nonneg (Db.owned_by userId) [x]). lia.
  - unfold Express.get_r. destruct (Db.findByCode code db) as [qr|]; [|cbn; lia].
    destruct (Express.expired qr (now e)); [cbn; lia|].
    destruct (Express.password_missing qr pw) as [[|]|];
      [cbn; lia| |cbn; lia].
    cbn [fst Db.incrementScan Db.with_qr_codes Db.qr_codes].
    rewrite count_update_same by reflexivity. lia.
  - destruct (express_request_call q db) as [->|(c & _ & _ & ->)]; [lia|].
    destruct c; cbn; rewrite count_update_same by reflexivity; lia.
  - rewrite express_signup_records. lia.
Qed.

(** A request keeps the user rows that are there: it finds the same row
    under an id that had one. *)
Lemma express_user_stays (q : request) (uid : Z) (user : Db.user)
    (db : Db.database) :
  Db.findUserById uid db = Some user ->
  Db.findUserById uid (express_handle q db) = Some user.
Proof.
  intros Hf. unfold Db.findUserById, sql_first in *.
  destruct q as [a body h e|origin code pw lpw e|q|body e]; cbn [express_handle].
  - destruct (express_post_cases a body e db) as [[-> _]|(url & _ & ->)];
      [exact Hf|].
    destruct (express_insert_rows (option_map auth_id (Express.req_user a))
                url body e db) as [-> _]. exact Hf.
  - unfold Express.get_r. destruct (Db.findByCode code db) as [qr|]; [|exact Hf].
    destruct (Express.expired qr (now e)); [exact Hf|].
    destruct (Express.password_missing qr pw) as [[|]|]; exact Hf.
  - destruct (express_request_call q db) as [->|(c & _ & _ & ->)]; [exact Hf|].
    destruct c; exact Hf.
  - unfold Express.post_signup, Db.createUser.
    destruct (body_email body) as [email|], (body_secret body) as [|password|tr sh];
      try exact Hf.
    2: { destruct (negb _ || negb tr), sh, (Db.findUserByEmail email db);
         exact Hf. }
    destruct (negb (truthy (Some email)) || negb (truthy (Some password)));
      [exact Hf|].
    destruct (Z.of_nat (String.length password) <? 6); [exact Hf|].
    destruct (Db.findUserByEmail email db); [exact Hf|].
    destruct (existsb _ (Db.users db)); [exact Hf|].
    cbn [fst Db.users]. now apply find_app_first.
Qed.

Lemma express_run_count (qs : list request) (userId : option Z)
    (uid : Z) (user : Db.user) (db : Db.database) :
  Db.findUserById uid db = Some user ->
  Db.countUserQRs userId db <= Db.countUserQRs userId (express_run qs db)
  /\ Db.findUserById uid (express_run qs db) = Some user.
Proof.
  revert db. induction qs as [|q qs IH]; intros db Hf;
    [split; [apply Z.le_refl | exact Hf]|].
  change (express_run (q :: qs) db) with (express_run qs (express_handle q db)).
  destruct (IH (express_handle q db) (express_user_stays q uid user db Hf))
    as [Hc Hu].
  split; [|exact Hu]. pose proof (express_count_grows q userId db). lia.
Qed.

(** X9. On server.js a quota refusal is for good. Once an owner's creation
    request with a valid URL is refused with the 403 of the quota, the same
    request is refused with that 403, and stores nothing, after any
    further requests: neither deactivating records nor anything else
    brings the count of db.js down. *)
Theorem express_quota_refusal_is_final (qs : list request) (u : auth_user)
    (body : create_body) (e e' : env) (db : Db.database)
    (url protocol : string) (user : Db.user) :
  body_url body = Some url ->
  url <> "" ->
  URL url = Some protocol ->
  existsb (String.eqb protocol) ["http:"; "https:"] = true ->
  Z.of_nat (String.length url) <= 2048 ->
  auth_id u <> 0 ->
  Db.findUserById (auth_id u) db = Some user ->
  status_of (snd (Express.post_api_qr (Token u) body e db)) = 403 ->
  Express.post_api_qr (Token u) body e' (express_run qs db)
  = (express_run qs db,
     Json 403
       [("error", JStr ("Free plan limit reached ("
                        ++ (number_to_string (Express.limit_of (Db.u_plan user))
                            ++ " QR codes). Upgrade to Pro for more.")));
        ("upgrade", JBool true)]).
Proof.
  intros Hb Hne Hurl Hp Hlen Hid Hf Hs.
  rewrite (express_quota_decision u body e db url protocol user
             Hb Hne Hurl Hp Hlen Hid Hf) in Hs.
  destruct (express_run_count qs (Some (auth_id u)) (auth_id u) user db Hf)
    as [Hc Hf'].
  rewrite (express_quota_decision u body e' (express_run qs db) url protocol user
             Hb Hne Hurl Hp Hlen Hid Hf').
  destruct (num_ge (Db.countUserQRs (Some (auth_id u)) db)
                   (Express.limit_of (Db.u_plan user))) eqn:Hge.
  - assert (Hge' : num_ge (Db.countUserQRs (Some (auth_id u)) (express_run qs db))
                          (Express.limit_of (Db.u_plan user)) = true).
    { unfold num_ge in *. destruct (Express.limit_of (Db.u_plan user));
        [lia | discriminate]. }
    now rewrite Hge'.
  - exfalso. unfold Express.insert_qr in Hs.
    destruct (Db.createQR _ _ _ _ _ _ db); cbn in Hs; discriminate.
Qed.

End QuotaAndOwners.

(** X10. Deactivation and the quota. On db.js, [deleteQR] never changes
    anybody's [countUserQRs]: a deactivated record keeps counting. On
    lib/db.js, the owner's [deleteQR] of an active record of theirs lowers
    their [countUserQRs] by exactly one, and that of an already deactivated
    one leaves it as it is. *)
Theorem deactivation_and_quota (uid : Z) (db : Db.database)
    (ldb : LibDb.database) (lr : LibDb.qr_code) :
  LibDb.unique_codes ldb ->
  In lr (LibDb.qr_codes ldb) ->
  LibDb.user_id lr = Some uid ->
  (forall code caller owner,
     Db.countUserQRs owner (fst (Db.deleteQR code caller db))
     = Db.countUserQRs owner db)
  /\ LibDb.countUserQRs (Some uid)
       (fst (LibDb.deleteQR (LibDb.short_code lr) (Some uid) ldb))
     = LibDb.countUserQRs (Some uid) ldb
       - (if LibDb.is_active lr =? 1 then 1 else 0).
Proof.
  intros Hu Hin Ho. split.
  - intros code caller owner. unfold Db.countUserQRs, Db.deleteQR.
    cbn [fst Db.with_qr_codes Db.qr_codes].
    now rewrite count_update_same by reflexivity.
  - pose proof (LibDbFacts.lib_deleteQR_spec (LibDb.short_code lr) (Some uid)
                  ldb Hu) as Hs.
    rewrite (LibDbFacts.lib_getStats_in ldb lr Hu Hin) in Hs.
    assert (Hown : LibDb.owned_by (Some uid) lr = true).
    { unfold LibDb.owned_by, sql_eq. rewrite Ho. apply Z.eqb_refl. }
    rewrite Hown in Hs. destruct Hs as (before & after & Ht & Hq & _ & _).
    unfold LibDb.countUserQRs. rewrite Hq, Ht.
    rewrite !sql_count_app, !sql_count_cons.
    change (LibDb.owned_by (Some uid) (LibDb.deactivated lr))
      with (LibDb.owned_by (Some uid) lr).
    rewrite Hown. cbn [LibDb.deactivated LibDb.is_active andb Z.eqb].
    destruct (LibDb.is_active lr =? 1); lia.
Qed.

Lemma deactivation_and_quota_witness :
  LibDb.unique_codes Sample.N.db
  /\ LibDb.countUserQRs (Some 7) Sample.N.db = 1
  /\ LibDb.countUserQRs (Some 7)
       (fst (LibDb.deleteQR "vault001" (Some 7) Sample.N.db)) = 0
  /\ Db.countUserQRs (Some 7)
       (fst (Db.deleteQR "vault001" (Some 7) Sample.E.db))
     = Db.countUserQRs (Some 7) Sample.E.db.
Proof.
  assert (Hl : LibDb.unique_codes Sample.N.db)
    by (unfold LibDb.unique_codes; simpl; nodup_codes).
  assert (Hlin : In Sample.N.vault (LibDb.qr_codes Sample.N.db))
    by (simpl; auto).
  pose proof (deactivation_and_quota 7 Sample.E.db Sample.N.db Sample.N.vault
                Hl Hlin eq_refl) as W.
  split; [exact Hl|]. split; [reflexivity|]. split.
  - exact (proj2 W).
  - exact (proj1 W "vault001" (Some 7) (Some 7)).
Defined.

Lemma anonymous_creation_skips_quota_witness :
  @URL Reference.platform "https://example.com/menu" = Some "https:"
  /\ status_of
       (snd (@Express.post_api_qr Reference.platform BadToken Sample.menu_body
               Sample.at200 Sample.E.db_retired)) = 201
  /\ @Next.POST_qr Reference.platform NoToken Sample.menu_body
       Sample.no_headers Sample.at200 Sample.N.db
     = (Sample.N.db, error 500 "Failed to create QR code").
Proof.
  assert (Ha : forall a, a = BadToken \/ a = NoToken -> forall u, a <> Token u).
  { intros a [-> | ->] u; discriminate. }
  assert (Hne : "https://example.com/menu" <> "") by discriminate.
  assert (Hlen : Z.of_nat (String.length "https://example.com/menu") <= 2048)
    by (simpl; lia).
  split; [reflexivity|]. split.
  - exact (f_equal (fun o => status_of (snd o))
             (proj1 (proj1 (@anonymous_creation_skips_quota Reference.platform
                BadToken Sample.menu_body Sample.no_headers Sample.at200
                Sample.E.db_retired Sample.N.db "https://example.com/menu"
                "https:" (Ha BadToken (or_introl eq_refl)) eq_refl Hne eq_refl
                eq_refl Hlen)))).
  - exact (proj1 (proj2 (@anonymous_creation_skips_quota Reference.platform
                NoToken Sample.menu_body Sample.no_headers Sample.at200
                Sample.E.db_retired Sample.N.db "https://example.com/menu"
                "https:" (Ha NoToken (or_intror eq_refl)) eq_refl Hne eq_refl
                eq_refl Hlen))).
Defined.

Lemma express_quota_refusal_is_final_witness :
  @URL Reference.platform "https://example.com/menu" = Some "https:"
  /\ Db.findUserById (auth_id Sample.alice) Sample.E.db = Some Sample.E.alice_row
  /\ status_of
       (snd (@Express.post_api_qr Reference.platform (Token Sample.alice)
               Sample.menu_body Sample.at200 Sample.E.db)) = 403
  /\ status_of
       (snd (@Express.post_api_qr Reference.platform (Token Sample.alice)
               Sample.menu_body Sample.at200
               (@express_run Reference.platform Reference.tokens
                  [Owner (Delete (Token Sample.alice) "vault001");
                   Owner (Delete (Token Sample.alice) "retired1")]
                  Sample.E.db))) = 403.
Proof.
  assert (Hne : "https://example.com/menu" <> "") by discriminate.
  assert (Hlen : Z.of_nat (String.length "https://example.com/menu") <= 2048)
    by (simpl; lia).
  assert (Hid : auth_id Sample.alice <> 0) by (simpl; lia).
  split; [reflexivity|]. split; [reflexivity|]. split; [reflexivity|].
  exact (f_equal (fun o => status_of (snd o))
           (@express_quota_refusal_is_final Reference.platform Reference.tokens
              [Owner (Delete (Token Sample.alice) "vault001");
               Owner (Delete (Token Sample.alice) "retired1")]
              Sample.alice Sample.menu_body Sample.at200 Sample.at200
              Sample.E.db "https://example.com/menu" "https:"
              Sample.E.alice_row eq_refl Hne eq_refl eq_refl Hlen Hid
              eq_refl eq_refl)).
Defined.

(** ** Accounts *)

Lemma next_id_fresh (ids : list Z) (x : Z) : In x ids -> x < next_id ids.
Proof.
  unfold next_id. induction ids as [|a ids IH]; cbn; [tauto|].
  intros [->|Hin]; [lia|]. specialize (IH Hin). lia.
Qed.

Lemma find_none_existsb {A : Type} (p : A -> bool) (t : list A) :
  find p t = None -> existsb p t = false.
Proof.
  induction t as [|a t IH]; cbn; [reflexivity|].
  destruct (p a); [discriminate | exact IH].
Qed.

Section AccountFacts.
Context `{Platform} `{TokenIssuer}.

Lemma express_signup_created (body : auth_body) (e : env) (db : Db.database)
    (email password : string) :
  body_email body = Some email ->
  body_secret body = Secret password ->
  email <> "" ->
  6 <= Z.of_nat (String.length password) ->
  Db.findUserByEmail email db = None ->
  Express.post_signup body e db
  = ({| Db.users :=
          Db.users db ++
          [{| Db.u_id := next_id (map Db.u_id (Db.users db));
              Db.u_email := email;
              Db.u_password := hashSync password (salt e);
              Db.u_plan := "free";
              Db.u_created_at := now e |}];
        Db.qr_codes := Db.qr_codes db |},
     Nested 201
       (VObj [("message", VStr "Account created");
              ("token",
               VStr (jwt_sign {| auth_id := next_id (map Db.u_id (Db.users db));
                                 auth_email := email |} (now e)));
              ("user",
               VObj [("id", VNum (next_id (map Db.u_id (Db.users db))));
                     ("email", VStr email);
                     ("plan", VStr "free")])])).
Proof.
  intros He Hs Hne Hlen Hf. unfold Express.post_signup. rewrite He, Hs.
  apply String.eqb_neq in Hne. cbn [truthy]. rewrite Hne.
  assert (Hp : String.eqb password "" = false).
  { destruct password; [cbn in Hlen; lia | reflexivity]. }
  rewrite Hp. cbn [negb orb].
  assert (Hl : (Z.of_nat (String.length password) <? 6) = false) by lia.
  rewrite Hl, Hf. unfold Db.createUser.
  unfold Db.findUserByEmail, sql_first in Hf.
  now rewrite (find_none_existsb _ _ Hf).
Qed.

(** The signup answers 201 only in the case of [express_signup_created]. *)
Lemma express_signup_cases (body : auth_body) (e : env) (db : Db.database) :
  (fst (Express.post_signup body e db) = db
   /\ reply_status (snd (Express.post_signup body e db)) <> 201)
  \/ exists email password,
       body_email body = Some email
       /\ body_secret body = Secret password
       /\ email <> ""
       /\ 6 <= Z.of_nat (String.length password)
       /\ Db.findUserByEmail email db = None.
Proof.
  unfold Express.post_signup.
  destruct (body_email body) as [email|], (body_secret body) as [|password|tr sh];
    try (left; split; [reflexivity | discriminate]).
  2: { left. destruct (negb _ || negb tr), sh, (Db.findUserByEmail email db);
       (split; [reflexivity | discriminate]). }
  destruct (String.eqb_spec email "") as [E|E].
  { subst email. left. split; [reflexivity | discriminate]. }
  cbn [truthy]. apply String.eqb_neq in E. rewrite E. cbn [negb orb].
  destruct (negb (String.eqb password ""));
    [|left; split; [reflexivity | discriminate]].
  cbn [negb]. destruct (Z.of_nat (String.length password) <? 6) eqn:Hl;
    [left; split; [reflexivity | discriminate]|].
  destruct (Db.findUserByEmail email db) eqn:Hf;
    [left; split; [reflexivity | discriminate]|].
  right. exists email, password. apply String.eqb_neq in E.
  repeat split; auto. lia.
Qed.

Lemma express_signup_emails (body : auth_body) (e : env) (db : Db.database) :
  Db.unique_emails db -> Db.unique_emails (fst (Express.post_signup body e db)).
Proof.
  intros Hu.
  destruct (express_signup_cases body e db)
    as [[-> _]|(email & password & He & Hs & Hne & Hlen & Hf)]; [exact Hu|].
  rewrite (express_signup_created body e db email password He Hs Hne Hlen Hf).
  unfold Db.unique_emails. cbn [fst Db.users].
  apply (insert_unique Db.u_email email); [exact Hu | | reflexivity].
  unfold Db.findUserByEmail, sql_first in Hf.
  exact (find_none_existsb _ _ Hf).
Qed.

Lemma express_signup_outcome (body : auth_body) (e : env) (db : Db.database) :
  (reply_status (snd (Express.post_signup body e db)) = 201 ->
   exists email password new,
     body_email body = Some email
     /\ body_secret body = Secret password
     /\ email <> ""
     /\ 6 <= Z.of_nat (String.length password)
     /\ Db.findUserByEmail email db = None
     /\ Db.users (fst (Express.post_signup body e db))
        = (Db.users db ++ [new])%list
     /\ Db.qr_codes (fst (Express.post_signup body e db)) = Db.qr_codes db
     /\ Db.u_email new = email
     /\ Db.u_password new = hashSync password (salt e)
     /\ Db.u_plan new = "free"
     /\ (forall old, In old (Db.users db) ->
           Db.u_id old < Db.u_id new /\ Db.u_email old <> email))
  /\ (reply_status (snd (Express.post_signup body e db)) <> 201 ->
      fst (Express.post_signup body e db) = db)
  /\ (Db.unique_emails db ->
      Db.unique_emails (fst (Express.post_signup body e db))).
Proof.
  split; [|split].
  - intros Hs.
    destruct (express_signup_cases body e db)
      as [[_ Hbad]|(email & password & He & Hsec & Hne & Hlen & Hf)];
      [contradiction|].
    rewrite (express_signup_created body e db email password He Hsec Hne Hlen Hf).
    exists email, password. eexists. cbn [fst Db.users Db.qr_codes].
    repeat match goal with |- _ /\ _ => split end; try reflexivity; auto.
    intros old Hin. split.
    + cbn. apply next_id_fresh. now apply in_map.
    + intros Heq. unfold Db.findUserByEmail, sql_first in Hf.
      apply (find_none _ _ Hf) in Hin. cbn in Hin.
      apply String.eqb_neq in Hin. contradiction.
  - intros Hs.
    destruct (express_signup_cases body e db)
      as [[Hd _]|(email & password & He & Hsec & Hne & Hlen & Hf)];
      [exact Hd|].
    rewrite (express_signup_created body e db email password He Hsec Hne Hlen Hf)
      in Hs.
    now cbn in Hs.
  - apply express_signup_emails.
Qed.


Lemma express_signup_then_login (body : auth_body) (e e' : env)
    (db : Db.database) :
  reply_status (snd (Express.post_signup body e db)) = 201 ->
  (forall password, body_secret body = Secret password ->
     compareSync password (hashSync password (salt e)) = true) ->
  exists uid email,
    body_email body = Some email
    /\ snd (Express.post_signup body e db)
       = Nested 201
           (VObj [("message", VStr "Account created");
                  ("token",
                   VStr (jwt_sign {| auth_id := uid; auth_email := email |}
                           (now e)));
                  ("user", VObj [("id", VNum uid);
                                 ("email", VStr email);
                                 ("plan", VStr "free")])])
    /\ Express.post_login body e' (fst (Express.post_signup body e db))
       = Nested 200
           (VObj [("token",
                   VStr (jwt_sign {| auth_id := uid; auth_email := email |}
                           (now e')));
                  ("user", VObj [("id", VNum uid);
                                 ("email", VStr email);
                                 ("plan", VStr "free")])]).
Proof.
  intros Hs Hcmp.
  destruct (express_signup_cases body e db)
    as [[_ Hbad]|(email & password & He & Hsec & Hne & Hlen & Hf)];
    [contradiction|].
  rewrite (express_signup_created body e db email password He Hsec Hne Hlen Hf).
  exists (next_id (map Db.u_id (Db.users db))), email.
  split; [exact He|]. split; [reflexivity|].
  cbn [fst]. unfold Express.post_login. rewrite He, Hsec.
  apply String.eqb_neq in Hne. cbn [truthy]. rewrite Hne.
  assert (Hp : String.eqb password "" = false).
  { destruct password; [cbn in Hlen; lia | reflexivity]. }
  rewrite Hp. cbn [negb orb].
  unfold Db.findUserByEmail, sql_first in *. cbn [Db.users].
  erewrite (find_appended _ (fun u => String.eqb (Db.u_email u) email));
    [ | exact (find_none_existsb _ _ Hf) | intros y Hy; exact Hy
      | apply String.eqb_refl ].
  cbn [Db.u_password Db.u_id Db.u_email Db.u_plan].
  now rewrite (Hcmp password Hsec).
Qed.

Lemma next_signup_created (body : auth_body) (e : env) (db : LibDb.database)
    (email password : string) :
  body_email body = Some email ->
  body_secret body = Secret password ->
  email <> "" ->
  6 <= Z.of_nat (String.length password) ->
  LibDb.findUserByEmail email db = None ->
  Next.POST_signup body e db
  = ({| LibDb.users :=
          LibDb.users db ++
          [{| LibDb.u_id := next_id (map LibDb.u_id (LibDb.users db));
              LibDb.u_email := email;
              LibDb.u_password := hashSync password (salt e);
              LibDb.u_plan := "free";
              LibDb.u_created_at := now e |}];
        LibDb.qr_codes := LibDb.qr_codes db |},
     Nested 201
       (VObj [("message", VStr "Account created");
              ("token",
               VStr (jwt_sign {| auth_id := next_id (map LibDb.u_id (LibDb.users db));
                                 auth_email := email |} (now e)));
              ("user",
               VObj [("id", VNum (next_id (map LibDb.u_id (LibDb.users db))));
                     ("email", VStr email);
                     ("plan", VStr "free")])])).
Proof.
  intros He Hs Hne Hlen Hf. unfold Next.POST_signup, Next.createToken. rewrite He, Hs.
  apply String.eqb_neq in Hne. cbn [truthy]. rewrite Hne.
  assert (Hp : String.eqb password "" = false).
  { destruct password; [cbn in Hlen; lia | reflexivity]. }
  rewrite Hp. cbn [negb orb].
  assert (Hl : (Z.of_nat (String.length password) <? 6) = false) by lia.
  rewrite Hl, Hf. unfold LibDb.createUser.
  unfold LibDb.findUserByEmail, sql_first in Hf.
  now rewrite (find_none_existsb _ _ Hf).
Qed.

(** The signup answers 201 only in the case of [next_signup_created]. *)
Lemma next_signup_cases (body : auth_body) (e : env) (db : LibDb.database) :
  (fst (Next.POST_signup body e db) = db
   /\ reply_status (snd (Next.POST_signup body e db)) <> 201)
  \/ exists email password,
       body_email body = Some email
       /\ body_secret body = Secret password
       /\ email <> ""
       /\ 6 <= Z.of_nat (String.length password)
       /\ LibDb.findUserByEmail email db = None.
Proof.
  unfold Next.POST_signup, Next.createToken.
  destruct (body_email body) as [email|], (body_secret body) as [|password|tr sh];
    try (left; split; [reflexivity | discriminate]).
  2: { left. destruct (negb _ || negb tr), sh, (LibDb.findUserByEmail email db);
       (split; [reflexivity | discriminate]). }
  destruct (String.eqb_spec email "") as [E|E].
  { subst email. left. split; [reflexivity | discriminate]. }
  cbn [truthy]. apply String.eqb_neq in E. rewrite E. cbn [negb orb].
  destruct (negb (String.eqb password ""));
    [|left; split; [reflexivity | discriminate]].
  cbn [negb]. destruct (Z.of_nat (String.length password) <? 6) eqn:Hl;
    [left; split; [reflexivity | discriminate]|].
  destruct (LibDb.findUserByEmail email db) eqn:Hf;
    [left; split; [reflexivity | discriminate]|].
  right. exists email, password. apply String.eqb_neq in E.
  repeat split; auto. lia.
Qed.

Lemma next_signup_emails (body : auth_body) (e : env) (db : LibDb.database) :
  LibDb.unique_emails db -> LibDb.unique_emails (fst (Next.POST_signup body e db)).
Proof.
  intros Hu.
  destruct (next_signup_cases body e db)
    as [[-> _]|(email & password & He & Hs & Hne & Hlen & Hf)]; [exact Hu|].
  rewrite (next_signup_created body e db email password He Hs Hne Hlen Hf).
  unfold LibDb.unique_emails. cbn [fst LibDb.users].
  apply (insert_unique LibDb.u_email email); [exact Hu | | reflexivity].
  unfold LibDb.findUserByEmail, sql_first in Hf.
  exact (find_none_existsb _ _ Hf).
Qed.

Lemma next_signup_outcome (body : auth_body) (e : env) (db : LibDb.database) :
  (reply_status (snd (Next.POST_signup body e db)) = 201 ->
   exists email password new,
     body_email body = Some email
     /\ body_secret body = Secret password
     /\ email <> ""
     /\ 6 <= Z.of_nat (String.length password)
     /\ LibDb.findUserByEmail email db = None
     /\ LibDb.users (fst (Next.POST_signup body e db))
        = (LibDb.users db ++ [new])%list
     /\ LibDb.qr_codes (fst (Next.POST_signup body e db)) = LibDb.qr_codes db
     /\ LibDb.u_email new = email
     /\ LibDb.u_password new = hashSync password (salt e)
     /\ LibDb.u_plan new = "free"
     /\ (forall old, In old (LibDb.users db) ->
           LibDb.u_id old < LibDb.u_id new /\ LibDb.u_email old <> email))
  /\ (reply_status (snd (Next.POST_signup body e db)) <> 201 ->
      fst (Next.POST_signup body e db) = db)
  /\ (LibDb.unique_emails db ->
      LibDb.unique_emails (fst (Next.POST_signup body e db))).
Proof.
  split; [|split].
  - intros Hs.
    destruct (next_signup_cases body e db)
      as [[_ Hbad]|(email & password & He & Hsec & Hne & Hlen & Hf)];
      [contradiction|].
    rewrite (next_signup_created body e db email password He Hsec Hne Hlen Hf).
    exists email, password. eexists. cbn [fst LibDb.users LibDb.qr_codes].
    repeat match goal with |- _ /\ _ => split end; try reflexivity; auto.
    intros old Hin. split.
    + cbn. apply next_id_fresh. now apply in_map.
    + intros Heq. unfold LibDb.findUserByEmail, sql_first in Hf.
      apply (find_none _ _ Hf) in Hin. cbn in Hin.
      apply String.eqb_neq in Hin. contradiction.
  - intros Hs.
    destruct (next_signup_cases body e db)
      as [[Hd _]|(email & password & He & Hsec & Hne & Hlen & Hf)];
      [exact Hd|].
    rewrite (next_signup_created body e db email password He Hsec Hne Hlen Hf)
      in Hs.
    now cbn in Hs.
  - apply next_signup_emails.
Qed.


Lemma next_signup_then_login (body : auth_body) (e e' : env)
    (db : LibDb.database) :
  reply_status (snd (Next.POST_signup body e db)) = 201 ->
  (forall password, body_secret body = Secret password ->
     compareSync password (hashSync password (salt e)) = true) ->
  exists uid email,
    body_email body = Some email
    /\ snd (Next.POST_signup body e db)
       = Nested 201
           (VObj [("message", VStr "Account created");
                  ("token",
                   VStr (jwt_sign {| auth_id := uid; auth_email := email |}
                           (now e)));
                  ("user", VObj [("id", VNum uid);
                                 ("email", VStr email);
                                 ("plan", VStr "free")])])
    /\ Next.POST_login body e' (fst (Next.POST_signup body e db))
       = Nested 200
           (VObj [("token",
                   VStr (jwt_sign {| auth_id := uid; auth_email := email |}
                           (now e')));
                  ("user", VObj [("id", VNum uid);
                                 ("email", VStr email);
                                 ("plan", VStr "free")])]).
Proof.
  intros Hs Hcmp.
  destruct (next_signup_cases body e db)
    as [[_ Hbad]|(email & password & He & Hsec & Hne & Hlen & Hf)];
    [contradiction|].
  rewrite (next_signup_created body e db email password He Hsec Hne Hlen Hf).
  exists (next_id (map LibDb.u_id (LibDb.users db))), email.
  split; [exact He|]. split; [reflexivity|].
  cbn [fst]. unfold Next.POST_login, Next.createToken. rewrite He, Hsec.
  apply String.eqb_neq in Hne. cbn [truthy]. rewrite Hne.
  assert (Hp : String.eqb password "" = false).
  { destruct password; [cbn in Hlen; lia | reflexivity]. }
  rewrite Hp. cbn [negb orb].
  unfold LibDb.findUserByEmail, sql_first in *. cbn [LibDb.users].
  erewrite (find_appended _ (fun u => String.eqb (LibDb.u_email u) email));
    [ | exact (find_none_existsb _ _ Hf) | intros y Hy; exact Hy
      | apply String.eqb_refl ].
  cbn [LibDb.u_password LibDb.u_id LibDb.u_email LibDb.u_plan].
  now rewrite (Hcmp password Hsec).
Qed.

(** X11. The signup, on both back ends. It is answered 201 only for a
    non-empty email that no user has and a password of at least 6
    characters; it then appends one user with that email, the bcrypt hash
    of the password (not the password), the plan "free" and an id above
    every id in use, and leaves the records alone. Any other answer leaves
    the database as it was. Emails stay unique. *)
Theorem signup_outcome (body : auth_body) (e : env) (db : Db.database)
    (ldb : LibDb.database) :
  ((reply_status (snd (Express.post_signup body e db)) = 201 ->
    exists email password new,
      body_email body = Some email
      /\ body_secret body = Secret password
      /\ email <> ""
      /\ 6 <= Z.of_nat (String.length password)
      /\ Db.findUserByEmail email db = None
      /\ Db.users (fst (Express.post_signup body e db))
         = (Db.users db ++ [new])%list
      /\ Db.qr_codes (fst (Express.post_signup body e db)) = Db.qr_codes db
      /\ Db.u_email new = email
      /\ Db.u_password new = hashSync password (salt e)
      /\ Db.u_plan new = "free"
      /\ (forall old, In old (Db.users db) ->
            Db.u_id old < Db.u_id new /\ Db.u_email old <> email))
   /\ (reply_status (snd (Express.post_signup body e db)) <> 201 ->
       fst (Express.post_signup body e db) = db)
   /\ (Db.unique_emails db ->
       Db.unique_emails (fst (Express.post_signup body e db))))
  /\ ((reply_status (snd (Next.POST_signup body e ldb)) = 201 ->
       exists email password new,
         body_email body = Some email
         /\ body_secret body = Secret password
         /\ email <> ""
         /\ 6 <= Z.of_nat (String.length password)
         /\ LibDb.findUserByEmail email ldb = None
         /\ LibDb.users (fst (Next.POST_signup body e ldb))
            = (LibDb.users ldb ++ [new])%list
         /\ LibDb.qr_codes (fst (Next.POST_signup body e ldb))
            = LibDb.qr_codes ldb
         /\ LibDb.u_email new = email
         /\ LibDb.u_password new = hashSync password (salt e)
         /\ LibDb.u_plan new = "free"
         /\ (forall old, In old (LibDb.users ldb) ->
               LibDb.u_id old < LibDb.u_id new /\ LibDb.u_email old <> email))
      /\ (reply_status (snd (Next.POST_signup body e ldb)) <> 201 ->
          fst (Next.POST_signup body e ldb) = ldb)
      /\ (LibDb.unique_emails ldb ->
          LibDb.unique_emails (fst (Next.POST_signup body e ldb)))).
Proof.
  split; [apply express_signup_outcome | apply next_signup_outcome].
Qed.


(** X13. Signup, then login. If the signup is answered 201 and bcrypt
    verifies the password against the hash it made of it, a login with the
    same body on the resulting database is answered 200 with the same user
    (the id and email of the signup's answer, plan "free") and a token
    signed for that id and email. On both back ends. *)
Theorem signup_then_login (body : auth_body) (e e' : env)
    (db : Db.database) (ldb : LibDb.database) :
  reply_status (snd (Express.post_signup body e db)) = 201 ->
  reply_status (snd (Next.POST_signup body e ldb)) = 201 ->
  (forall password, body_secret body = Secret password ->
     compareSync password (hashSync password (salt e)) = true) ->
  (exists uid email,
     body_email body = Some email
     /\ snd (Express.post_signup body e db)
        = Nested 201
            (VObj [("message", VStr "Account created");
                   ("token",
                    VStr (jwt_sign {| auth_id := uid; auth_email := email |}
                            (now e)));
                   ("user", VObj [("id", VNum uid);
                                  ("email", VStr email);
                                  ("plan", VStr "free")])])
     /\ Express.post_login body e' (fst (Express.post_signup body e db))
        = Nested 200
            (VObj [("token",
                    VStr (jwt_sign {| auth_id := uid; auth_email := email |}
                            (now e')));
                   ("user", VObj [("id", VNum uid);
                                  ("email", VStr email);
                                  ("plan", VStr "free")])]))
  /\ (exists uid email,
        body_email body = Some email
        /\ snd (Next.POST_signup body e ldb)
           = Nested 201
               (VObj [("message", VStr "Account created");
                      ("token",
                       VStr (jwt_sign {| auth_id := uid; auth_email := email |}
                               (now e)));
                      ("user", VObj [("id", VNum uid);
                                     ("email", VStr email);
                                     ("plan", VStr "free")])])
        /\ Next.POST_login body e' (fst (Next.POST_signup body e ldb))
           = Nested 200
               (VObj [("token",
                       VStr (jwt_sign {| auth_id := uid; auth_email := email |}
                               (now e')));
                      ("user", VObj [("id", VNum uid);
                                     ("email", VStr email);
                                     ("plan", VStr "free")])])).
Proof.
  intros Hs Hls Hcmp. split.
  - now apply express_signup_then_login.
  - now apply next_signup_then_login.
Qed.

End AccountFacts.

Lemma signup_outcome_witness :
  Db.unique_emails Sample.E.db
  /\ Db.unique_emails
       (fst (@Express.post_signup Reference.platform Reference.tokens
               Sample.carol_body Sample.at200 Sample.E.db))
  /\ fst (@Next.POST_signup Reference.platform Reference.tokens
            {| body_email := Some "alice@example.com";
               body_secret := Secret "hunter22" |}
            Sample.at200 Sample.N.db)
     = Sample.N.db.
Proof.
  assert (Hu : Db.unique_emails Sample.E.db)
    by (unfold Db.unique_emails; simpl; nodup_codes).
  split; [exact Hu|]. split.
  - exact (proj2 (proj2 (proj1 (@signup_outcome Reference.platform
             Reference.tokens Sample.carol_body Sample.at200
             Sample.E.db Sample.N.db))) Hu).
  - apply (proj1 (proj2 (proj2 (@signup_outcome Reference.platform
             Reference.tokens
             {| body_email := Some "alice@example.com";
                body_secret := Secret "hunter22" |}
             Sample.at200 Sample.E.db Sample.N.db)))).
    vm_compute. discriminate.
Defined.


Lemma signup_then_login_witness :
  reply_status
    (snd (@Express.post_signup Reference.platform Reference.tokens
            Sample.carol_body Sample.at200 Sample.E.db)) = 201
  /\ reply_status
       (@Express.post_login Reference.platform Reference.tokens
          Sample.carol_body Sample.at200
          (fst (@Express.post_signup Reference.platform Reference.tokens
                  Sample.carol_body Sample.at200 Sample.E.db))) = 200.
Proof.
  assert (Hcmp : forall password,
             body_secret Sample.carol_body = Secret password ->
             @compareSync Reference.platform password
               (@hashSync Reference.platform password (salt Sample.at200))
             = true).
  { intros password Hp. simpl in Hp. injection Hp as <-. reflexivity. }
  split; [reflexivity|].
  destruct (@signup_then_login Reference.platform Reference.tokens
              Sample.carol_body Sample.at200 Sample.at200
              Sample.E.db Sample.N.db eq_refl eq_refl Hcmp)
    as [(uid & email & _ & _ & Hlogin) _].
  exact (f_equal reply_status Hlogin).
Defined.

(** ** Statistics *)

Lemma find_key_absent {row : Type} (key : row -> string) (k : string)
    (t : list row) :
  ~ In k (map key t) -> find (key_is key k) t = None.
Proof.
  induction t as [|a t IH]; cbn; intros Hk; [reflexivity|].
  unfold key_is at 1. destruct (String.eqb_spec (key a) k) as [E|E].
  - exfalso. apply Hk. now left.
  - apply IH. intros Hin. apply Hk. now right.
Qed.

Section StatsFacts.
Context `{Platform}.

(** X14. The statistics are not the redirect. For a deactivated record, on
    both back ends, the redirect on its code answers as for a code that
    does not exist, while the statistics route, which asks for no token,
    answers 200 with the record's code, destination, scan count and dates
    (and, on server.js, its [is_active]); it answers 404 "QR code not
    found" when no record has the code. *)
Theorem stats_show_deactivated (db : Db.database) (ldb : LibDb.database)
    (r : Db.qr_code) (lr : LibDb.qr_code) (origin : string)
    (q : query_value) (pw : option string) (e : env) :
  Db.unique_codes db ->
  In r (Db.qr_codes db) ->
  Db.is_active r <> 1 ->
  LibDb.unique_codes ldb ->
  In lr (LibDb.qr_codes ldb) ->
  LibDb.is_active lr <> 1 ->
  (snd (Express.get_r (Db.short_code r) q e db) = SendFile 404 "index.html"
   /\ Express.get_stats (Db.short_code r) db
      = Json 200 [("short_code", JStr (Db.short_code r));
                  ("destination_url", JStr (Db.destination_url r));
                  ("scan_count", JNum (Num (Db.scan_count r)));
                  ("created_at", JNum (Num (Db.created_at r)));
                  ("last_scanned_at", json_of_time (Db.last_scanned_at r));
                  ("expires_at", json_of_text (Db.expires_at r));
                  ("is_active", JNum (Num (Db.is_active r)))]
   /\ (forall code, ~ In code (map Db.short_code (Db.qr_codes db)) ->
         Express.get_stats code db = error 404 "QR code not found"))
  /\ (snd (Next.GET_r origin (LibDb.short_code lr) pw e ldb)
      = Redirect 307 (origin ++ "/")
      /\ Next.GET_stats (LibDb.short_code lr) ldb
         = Json 200 [("short_code", JStr (LibDb.short_code lr));
                     ("destination_url", JStr (LibDb.destination_url lr));
                     ("scan_count", JNum (Num (LibDb.scan_count lr)));
                     ("created_at", JNum (Num (LibDb.created_at lr)));
                     ("expires_at", json_of_text (LibDb.expires_at lr))]
      /\ (forall code, ~ In code (map LibDb.short_code (LibDb.qr_codes ldb)) ->
            Next.GET_stats code ldb = error 404 "QR code not found")).
Proof.
  intros Hu Hin Hi Hlu Hlin Hli. split; (split; [|split]).
  - now rewrite (express_not_found_inactive db _ q e r Hu
                   (DbFacts.getStats_in db r Hu Hin) Hi).
  - unfold Express.get_stats. now rewrite (DbFacts.getStats_in db r Hu Hin).
  - intros code Hc. unfold Express.get_stats, Db.getStats, sql_first.
    pose proof (find_key_absent Db.short_code code _ Hc) as Hf.
    unfold key_is in Hf. unfold Db.has_code. now rewrite Hf.
  - now rewrite (next_not_found_inactive ldb origin _ pw e lr Hlu
                   (LibDbFacts.lib_getStats_in ldb lr Hlu Hlin) Hli).
  - unfold Next.GET_stats.
    now rewrite (LibDbFacts.lib_getStats_in ldb lr Hlu Hlin).
  - intros code Hc. unfold Next.GET_stats, LibDb.getStats, sql_first.
    pose proof (find_key_absent LibDb.short_code code _ Hc) as Hf.
    unfold key_is in Hf. unfold LibDb.has_code. now rewrite Hf.
Qed.

(** The record under the code after [incrementScan]. *)
Lemma express_getStats_scanned (db : Db.database) (code : string) (t : Z)
    (r : Db.qr_code) :
  Db.unique_codes db ->
  Db.getStats code db = Some r ->
  Db.getStats code (fst (Db.incrementScan t code db)) = Some (Db.scanned t r).
Proof.
  intros Hu Hg.
  destruct (DbFacts.getStats_code code db r Hg) as [Hcode Hin].
  pose proof (DbFacts.incrementScan_spec t code db Hu) as Hs.
  rewrite Hg in Hs. destruct Hs as (before & after & Ht & Hq & _).
  assert (Hu' : Db.unique_codes (fst (Db.incrementScan t code db))).
  { unfold Db.unique_codes. rewrite Hq.
    unfold Db.unique_codes in Hu. rewrite Ht in Hu.
    rewrite map_app in *. exact Hu. }
  assert (Hin' : In (Db.scanned t r)
                    (Db.qr_codes (fst (Db.incrementScan t code db)))).
  { rewrite Hq. apply in_or_app. right. now left. }
  pose proof (DbFacts.getStats_in _ _ Hu' Hin') as Hfin.
  change (Db.short_code (Db.scanned t r)) with (Db.short_code r) in Hfin.
  now rewrite Hcode in Hfin.
Qed.

Lemma next_getStats_scanned (db : LibDb.database) (code : string)
    (r : LibDb.qr_code) :
  LibDb.unique_codes db ->
  LibDb.getStats code db = Some r ->
  LibDb.getStats code (LibDb.incrementScan code db) = Some (LibDb.scanned r).
Proof.
  intros Hu Hg.
  destruct (LibDbFacts.lib_getStats_code code db r Hg) as [Hcode Hin].
  pose proof (LibDbFacts.lib_incrementScan_spec code db Hu) as Hs.
  rewrite Hg in Hs. destruct Hs as (before & after & Ht & Hq & _).
  assert (Hu' : LibDb.unique_codes (LibDb.incrementScan code db)).
  { unfold LibDb.unique_codes. rewrite Hq.
    unfold LibDb.unique_codes in Hu. rewrite Ht in Hu.
    rewrite map_app in *. exact Hu. }
  assert (Hin' : In (LibDb.scanned r)
                    (LibDb.qr_codes (LibDb.incrementScan code db))).
  { rewrite Hq. apply in_or_app. right. now left. }
  pose proof (LibDbFacts.lib_getStats_in _ _ Hu' Hin') as Hfin.
  change (LibDb.short_code (LibDb.scanned r)) with (LibDb.short_code r) in Hfin.
  now rewrite Hcode in Hfin.
Qed.

(** The record under the code after a redirect. *)
Lemma express_stats_after (db : Db.database) (code : string)
    (q : query_value) (e : env) (r : Db.qr_code) :
  Db.unique_codes db ->
  Db.getStats code db = Some r ->
  Db.getStats code (fst (Express.get_r code q e db))
  = Some (if Z.eqb (status_of (snd (Express.get_r code q e db))) 302
          then Db.scanned (now e) r else r).
Proof.
  intros Hu Hg. rewrite (express_get_r_found db code q e r Hu Hg).
  destruct (negb (Db.is_active r =? 1)); [exact Hg|].
  destruct (Express.expired r (now e)); [exact Hg|].
  destruct (Express.password_missing r q) as [[|]|]; try exact Hg.
  cbn [fst snd status_of Z.eqb Pos.eqb].
  now apply express_getStats_scanned.
Qed.

Lemma next_stats_after (db : LibDb.database) (origin code : string)
    (pw : option string) (e : env) (r : LibDb.qr_code) :
  LibDb.unique_codes db ->
  LibDb.getStats code db = Some r ->
  LibDb.getStats code (fst (Next.GET_r origin code pw e db))
  = Some (if Z.eqb (status_of (snd (Next.GET_r origin code pw e db))) 302
          then LibDb.scanned r else r).
Proof.
  intros Hu Hg. rewrite (next_GET_r_found db origin code pw e r Hu Hg).
  destruct (negb (LibDb.is_active r =? 1)); [exact Hg|].
  destruct (Next.expired r (now e)); [exact Hg|].
  destruct (Next.password_missing r pw); [exact Hg|].
  cbn [fst snd status_of Z.eqb Pos.eqb].
  now apply next_getStats_scanned.
Qed.

(** X15. The statistics count the redirects that went through. On both
    back ends, for a stored record: after a redirect request on its code,
    the statistics show the scan count it had plus one if the request was
    answered with the 302 to the destination, and the scan count it had
    if it was answered anything else; on server.js [last_scanned_at] is
    then the time of that redirect, or what it was. *)
Theorem stats_count_redirects (db : Db.database) (ldb : LibDb.database)
    (origin code : string) (q : query_value) (pw : option string) (e : env)
    (r : Db.qr_code) (lr : LibDb.qr_code) :
  Db.unique_codes db ->
  Db.getStats code db = Some r ->
  LibDb.unique_codes ldb ->
  LibDb.getStats code ldb = Some lr ->
  Express.get_stats code (fst (Express.get_r code q e db))
  = Json 200
      [("short_code", JStr (Db.short_code r));
       ("destination_url", JStr (Db.destination_url r));
       ("scan_count",
        JNum (Num (Db.scan_count r
                   + if Z.eqb (status_of (snd (Express.get_r code q e db))) 302
                     then 1 else 0)));
       ("created_at", JNum (Num (Db.created_at r)));
       ("last_scanned_at",
        if Z.eqb (status_of (snd (Express.get_r code q e db))) 302
        then JNum (Num (now e)) else json_of_time (Db.last_scanned_at r));
       ("expires_at", json_of_text (Db.expires_at r));
       ("is_active", JNum (Num (Db.is_active r)))]
  /\ Next.GET_stats code (fst (Next.GET_r origin code pw e ldb))
     = Json 200
         [("short_code", JStr (LibDb.short_code lr));
          ("destination_url", JStr (LibDb.destination_url lr));
          ("scan_count",
           JNum (Num (LibDb.scan_count lr
                      + if Z.eqb (status_of
                                    (snd (Next.GET_r origin code pw e ldb))) 302
                        then 1 else 0)));
          ("created_at", JNum (Num (LibDb.created_at lr)));
          ("expires_at", json_of_text (LibDb.expires_at lr))].
Proof.
  intros Hu Hg Hlu Hlg. split.
  - unfold Express.get_stats.
    rewrite (express_stats_after db code q e r Hu Hg).
    destruct (Z.eqb (status_of (snd (Express.get_r code q e db))) 302); cbn;
      now rewrite ?Z.add_0_r.
  - unfold Next.GET_stats.
    rewrite (next_stats_after ldb origin code pw e lr Hlu Hlg).
    destruct (Z.eqb (status_of (snd (Next.GET_r origin code pw e ldb))) 302);
      cbn; now rewrite ?Z.add_0_r.
Qed.

End StatsFacts.

Lemma stats_show_deactivated_witness :
  Db.unique_codes Sample.E.db
  /\ LibDb.unique_codes Sample.N.db
  /\ Db.is_active Sample.E.retired1 <> 1
  /\ status_of (Express.get_stats "retired1" Sample.E.db) = 200
  /\ status_of
       (snd (@Express.get_r Reference.platform "retired1" QAbsent Sample.at200
               Sample.E.db)) = 404.
Proof.
  assert (Hu : Db.unique_codes Sample.E.db)
    by (unfold Db.unique_codes; simpl; nodup_codes).
  assert (Hl : LibDb.unique_codes Sample.N.db)
    by (unfold LibDb.unique_codes; simpl; nodup_codes).
  assert (Hin : In Sample.E.retired1 (Db.qr_codes Sample.E.db))
    by (simpl; auto).
  assert (Hlin : In Sample.N.retired1 (LibDb.qr_codes Sample.N.db))
    by (simpl; auto).
  assert (Hi : Db.is_active Sample.E.retired1 <> 1) by (simpl; lia).
  assert (Hli : LibDb.is_active Sample.N.retired1 <> 1) by (simpl; lia).
  pose proof (@stats_show_deactivated Reference.platform
                Sample.E.db Sample.N.db Sample.E.retired1 Sample.N.retired1
                "https://qr.example" QAbsent None Sample.at200
                Hu Hin Hi Hl Hlin Hli) as W.
  destruct W as [(W1 & W2 & _) _].
  split; [exact Hu|]. split; [exact Hl|]. split; [exact Hi|]. split.
  - exact (f_equal status_of W2).
  - exact (f_equal status_of W1).
Defined.

Lemma stats_count_redirects_witness :
  Db.unique_codes Sample.E.db
  /\ LibDb.unique_codes Sample.N.db
  /\ Db.getStats "AAECAwQF" Sample.E.db = Some Sample.E.menu
  /\ Express.get_stats "AAECAwQF"
       (fst (@Express.get_r Reference.platform "AAECAwQF" QAbsent Sample.at200
               Sample.E.db))
     = Json 200
         [("short_code", JStr "AAECAwQF");
          ("destination_url", JStr "https://example.com/menu");
          ("scan_count", JNum (Num 1));
          ("created_at", JNum (Num 100));
          ("last_scanned_at", JNum (Num 200));
          ("expires_at", JNull);
          ("is_active", JNum (Num 1))].
Proof.
  assert (Hu : Db.unique_codes Sample.E.db)
    by (unfold Db.unique_codes; simpl; nodup_codes).
  assert (Hl : LibDb.unique_codes Sample.N.db)
    by (unfold LibDb.unique_codes; simpl; nodup_codes).
  split; [exact Hu|]. split; [exact Hl|]. split; [reflexivity|].
  exact (proj1 (@stats_count_redirects Reference.platform
                  Sample.E.db Sample.N.db "https://qr.example" "AAECAwQF"
                  QAbsent None Sample.at200 Sample.E.menu Sample.N.menu
                  Hu eq_refl Hl eq_refl)).
Defined.

(** ** The owner's listing *)

Section OrderByFacts.
Context {row : Type}.
Variable column : row -> Z.

Local Abbreviation newer_first := (fun a b : row => column b <= column a).

Lemma insert_desc_perm (x : row) (t : list row) :
  Permutation (insert_desc column x t) (x :: t).
Proof.
  induction t as [|y t IH]; cbn; [apply Permutation_refl|].
  destruct (column y <=? column x); [apply Permutation_refl|].
  apply perm_trans with (y :: x :: t); [now apply perm_skip | apply perm_swap].
Qed.

Lemma order_by_desc_perm (t : list row) :
  Permutation (order_by_desc column t) t.
Proof.
  induction t as [|x t IH]; cbn; [apply perm_nil|].
  apply perm_trans with (x :: order_by_desc column t);
    [apply insert_desc_perm | now apply perm_skip].
Qed.

Lemma insert_desc_sorted (x : row) (t : list row) :
  StronglySorted newer_first t ->
  StronglySorted newer_first (insert_desc column x t).
Proof.
  induction t as [|y t IH]; cbn; intros Hs.
  - constructor; constructor.
  - inversion Hs as [|y' t' Hst Hall]; subst.
    destruct (column y <=? column x) eqn:Hc.
    + constructor; [exact Hs|]. constructor; [lia|].
      eapply Forall_impl; [|exact Hall]. cbn. intros z Hz. lia.
    + constructor; [now apply IH|].
      apply (Permutation_Forall (Permutation_sym (insert_desc_perm x t))).
      constructor; [lia | exact Hall].
Qed.

Lemma order_by_desc_sorted (t : list row) :
  StronglySorted newer_first (order_by_desc column t).
Proof.
  induction t as [|x t IH]; cbn; [constructor|].
  now apply insert_desc_sorted.
Qed.

Lemma order_by_desc_length (p : row -> bool) (t : list row) :
  Z.of_nat (List.length (order_by_desc column (filter p t))) = sql_count p t.
Proof.
  unfold sql_count. f_equal. apply Permutation_length, order_by_desc_perm.
Qed.

Lemma order_by_desc_in (p : row -> bool) (t : list row) (r : row) :
  In r (order_by_desc column (filter p t)) <-> In r t /\ p r = true.
Proof.
  rewrite <- filter_In. split; apply Permutation_in;
    [|apply Permutation_sym]; apply order_by_desc_perm.
Qed.
End OrderByFacts.

(** X16. The owner's listing, with the user row of the token in place. On
    server.js [GET /api/qr/my] lists exactly the records whose owner is the
    caller, deactivated ones included; on the Next.js route [GET /api/qr]
    lists exactly the caller's active records. On both, no record is
    listed twice or left out, the newest comes first, and [usage.count] is
    the number of records listed. *)
Theorem owner_listing (u : auth_user) (db : Db.database) (ldb : LibDb.database)
    (user : Db.user) (luser : LibDb.user) :
  Db.findUserById (auth_id u) db = Some user ->
  LibDb.findUserById (auth_id u) ldb = Some luser ->
  (exists qrs,
     Express.get_my (Token u) db
     = Some (Nested 200
               (VObj [("qrCodes", VArr (map Express.listed qrs));
                      ("usage",
                       VObj [("count", VNum (Z.of_nat (List.length qrs)));
                             ("limit",
                              Express.shown_limit
                                (Express.limit_of (Db.u_plan user)))]);
                      ("plan", VStr (Db.u_plan user))]))
     /\ Permutation qrs (filter (Db.owned_by (Some (auth_id u))) (Db.qr_codes db))
     /\ (forall r, In r qrs <->
                   In r (Db.qr_codes db) /\ Db.user_id r = Some (auth_id u))
     /\ StronglySorted (fun a b => Db.created_at b <= Db.created_at a) qrs)
  /\ (exists qrs,
        Next.GET_qr (Token u) ldb
        = Some (Nested 200
                  (VObj [("qrCodes", VArr (map Next.listed qrs));
                         ("usage",
                          VObj [("count", VNum (Z.of_nat (List.length qrs)));
                                ("limit",
                                 Next.shown_limit
                                   (Next.limit_of (LibDb.u_plan luser)))]);
                         ("plan", VStr (LibDb.u_plan luser))]))
        /\ Permutation qrs
             (filter (fun r => LibDb.owned_by (Some (auth_id u)) r
                               && (LibDb.is_active r =? 1))
                (LibDb.qr_codes ldb))
        /\ (forall r, In r qrs <->
                      In r (LibDb.qr_codes ldb)
                      /\ LibDb.user_id r = Some (auth_id u)
                      /\ LibDb.is_active r = 1)
        /\ StronglySorted
             (fun a b => LibDb.created_at b <= LibDb.created_at a) qrs).
Proof.
  intros Hf Hlf. split.
  - exists (Db.getUserQRs (Some (auth_id u)) db). split; [|split; [|split]].
    + unfold Express.get_my. cbn [Express.authRequired]. rewrite Hf.
      unfold Db.getUserQRs, Db.countUserQRs.
      now rewrite order_by_desc_length.
    + apply order_by_desc_perm.
    + intros r. unfold Db.getUserQRs. rewrite order_by_desc_in.
      unfold Db.owned_by, sql_eq. destruct (Db.user_id r) as [o|].
      * rewrite Z.eqb_eq. split; intros [Hin Ho]; (split; [exact Hin|]);
          congruence.
      * split; intros [_ Ho]; discriminate.
    + apply order_by_desc_sorted.
  - exists (LibDb.getUserQRs (Some (auth_id u)) ldb). split; [|split; [|split]].
    + unfold Next.GET_qr. cbn [Next.getAuthUser]. rewrite Hlf.
      unfold LibDb.getUserQRs, LibDb.countUserQRs.
      now rewrite order_by_desc_length.
    + apply order_by_desc_perm.
    + intros r. unfold LibDb.getUserQRs. rewrite order_by_desc_in.
      rewrite andb_true_iff, Z.eqb_eq.
      unfold LibDb.owned_by, sql_eq. destruct (LibDb.user_id r) as [o|].
      * rewrite Z.eqb_eq. split; intros (Hin & Ho & Ha);
          (split; [exact Hin|]); (split; [congruence | exact Ha]).
      * split; [intros (_ & Ho & _) | intros (_ & Ho & _)]; discriminate.
    + apply order_by_desc_sorted.
Qed.

Lemma owner_listing_witness :
  Db.findUserById (auth_id Sample.alice) Sample.E.db = Some Sample.E.alice_row
  /\ LibDb.findUserById (auth_id Sample.alice) Sample.N.db
     = Some Sample.N.alice_row
  /\ (exists qrs,
        Express.get_my (Token Sample.alice) Sample.E.db
        = Some (Nested 200
                  (VObj [("qrCodes", VArr (map Express.listed qrs));
                         ("usage", VObj [("count", VNum (Z.of_nat (List.length qrs)));
                                         ("limit", VNum 2)]);
                         ("plan", VStr "free")]))
        /\ In Sample.E.retired1 qrs)
  /\ Next.GET_qr (Token Sample.alice) Sample.N.db
     = Some (Nested 200
               (VObj [("qrCodes", VArr [Next.listed Sample.N.vault]);
                      ("usage", VObj [("count", VNum 1); ("limit", VNum 2)]);
                      ("plan", VStr "free")])).
Proof.
  pose proof (owner_listing Sample.alice Sample.E.db Sample.N.db
                Sample.E.alice_row Sample.N.alice_row eq_refl eq_refl) as W.
  split; [reflexivity|]. split; [reflexivity|]. split.
  - destruct W as [(qrs & Hq & _ & Hin & _) _].
    exists qrs. split; [exact Hq|]. apply Hin. split; [simpl; auto|reflexivity].
  - reflexivity.
Defined.

(** ** The short-code generator *)

Lemma digits_checked :
  forallb (fun a => forallb (digits_ok a) byte_values) byte_values = true.
Proof. vm_compute. reflexivity. Qed.

Lemma digit_distinct_checked :
  forallb (fun n => forallb (fun m => implb (String.eqb (b64 n) (b64 m)) (n =? m))
                      digit_values) digit_values = true.
Proof. vm_compute. reflexivity. Qed.

Lemma in_byte_values (a : Z) : is_byte a -> In a byte_values.
Proof.
  intros [H0 H1]. unfold byte_values. rewrite <- (Z2Nat.id a) by exact H0.
  apply in_map, in_seq. lia.
Qed.

Lemma in_digit_values (n : Z) : 0 <= n < 64 -> In n digit_values.
Proof.
  intros [H0 H1]. unfold digit_values. rewrite <- (Z2Nat.id n) by exact H0.
  apply in_map, in_seq. lia.
Qed.

Lemma digits_of_bytes (a b : Z) : is_byte a -> is_byte b -> digits_ok a b = true.
Proof.
  intros Ha Hb. pose proof digits_checked as Hall.
  rewrite forallb_forall in Hall.
  specialize (Hall a (in_byte_values a Ha)).
  rewrite forallb_forall in Hall. exact (Hall b (in_byte_values b Hb)).
Qed.

Lemma digit_ok_char (n : Z) : digit_ok n = true -> safe_digit n.
Proof.
  unfold digit_ok, safe_digit. intros Hd.
  apply andb_prop in Hd. destruct Hd as [Hr Hc].
  apply andb_prop in Hr. destruct Hr as [H0 H1]. split; [lia|].
  destruct (b64 n) as [|c [|c' s]]; try discriminate. now exists c.
Qed.

(** What [digits_checked] says of two bytes. *)
Lemma digits_facts (a b : Z) :
  is_byte a -> is_byte b ->
  (safe_digit (Z.shiftr a 2)
   /\ safe_digit (Z.lor (Z.shiftl (Z.land a 3) 4) (Z.shiftr b 4))
   /\ safe_digit (Z.lor (Z.shiftl (Z.land a 15) 2) (Z.shiftr b 6))
   /\ safe_digit (Z.land a 63)
   /\ safe_digit (Z.shiftl (Z.land a 3) 4)
   /\ safe_digit (Z.shiftl (Z.land a 15) 2))
  /\ (a = 4 * Z.shiftr a 2
          + Z.lor (Z.shiftl (Z.land a 3) 4) (Z.shiftr b 4) / 16
      /\ b / 16 = Z.lor (Z.shiftl (Z.land a 3) 4) (Z.shiftr b 4) mod 16
      /\ a mod 16 = Z.lor (Z.shiftl (Z.land a 15) 2) (Z.shiftr b 6) / 4
      /\ b = 64 * (Z.lor (Z.shiftl (Z.land a 15) 2) (Z.shiftr b 6) mod 4)
             + Z.land b 63
      /\ a = 16 * (a / 16) + a mod 16).
Proof.
  intros Ha Hb. pose proof (digits_of_bytes a b Ha Hb) as Hd.
  unfold digits_ok in Hd. rewrite !andb_true_iff, !Z.eqb_eq in Hd.
  destruct Hd as [[[[[[[[[[D1 D2] D3] D4] D5] D6] E1] E2] E3] E4] E5].
  split; [|now repeat split].
  repeat split; now apply digit_ok_char.
Qed.

Lemma b64_injective (n m : Z) :
  0 <= n < 64 -> 0 <= m < 64 -> b64 n = b64 m -> n = m.
Proof.
  intros Hn Hm E. pose proof digit_distinct_checked as Hall.
  rewrite forallb_forall in Hall.
  specialize (Hall n (in_digit_values n Hn)).
  rewrite forallb_forall in Hall. specialize (Hall m (in_digit_values m Hm)).
  rewrite E, String.eqb_refl in Hall. cbn in Hall. now apply Z.eqb_eq.
Qed.

(** The characters of a string, to count and to test them. *)
Lemma chars_append (s1 s2 : string) :
  list_ascii_of_string (s1 ++ s2)
  = (list_ascii_of_string s1 ++ list_ascii_of_string s2)%list.
Proof. induction s1 as [|c s1 IH]; cbn; [reflexivity | now rewrite IH]. Qed.

Lemma chars_prefix (n : nat) (s : string) :
  list_ascii_of_string (substring 0 n s) = firstn n (list_ascii_of_string s).
Proof.
  revert s. induction n as [|n IH]; intros [|c s]; cbn; try reflexivity.
  now rewrite IH.
Qed.

Lemma chars_length (s : string) :
  String.length s = List.length (list_ascii_of_string s).
Proof. induction s as [|c s IH]; cbn; [reflexivity | now rewrite IH]. Qed.

Lemma by_three (P : list Z -> Prop) :
  P [] ->
  (forall a, P [a]) ->
  (forall a b, P [a; b]) ->
  (forall a b c rest, P rest -> P (a :: b :: c :: rest)) ->
  forall bs, P bs.
Proof.
  intros H0 H1 H2 H3. fix IH 1. intros [|a [|b [|c rest]]].
  - exact H0.
  - apply H1.
  - apply H2.
  - apply H3, IH.
Qed.

(** [base64url] of [n] bytes has [(4n + 2) / 3] characters (there is no
    padding), all of them in the alphabet. *)
Lemma base64url_chars (bs : list Z) :
  Forall is_byte bs ->
  Z.of_nat (List.length (list_ascii_of_string (base64url bs)))
  = (4 * Z.of_nat (List.length bs) + 2) / 3
  /\ Forall (fun c => url_safe c = true) (list_ascii_of_string (base64url bs)).
Proof.
  induction bs as [|a|a b|a b c rest IH] using by_three; intros Hb.
  - now split.
  - inversion Hb as [|? ? Ha _]; subst.
    destruct (digits_facts a a Ha Ha)
      as [((_ & c1 & E1 & S1) & _ & _ & _ & (_ & c2 & E2 & S2) & _) _].
    cbn [base64url]. rewrite E1, E2. cbn.
    split; [reflexivity | repeat constructor; assumption].
  - inversion Hb as [|? ? Ha Hb']; subst.
    inversion Hb' as [|? ? Hbb _]; subst.
    destruct (digits_facts a b Ha Hbb)
      as [((_ & c1 & E1 & S1) & (_ & c2 & E2 & S2) & _) _].
    destruct (digits_facts b b Hbb Hbb)
      as [(_ & _ & _ & _ & _ & (_ & c3 & E3 & S3)) _].
    cbn [base64url]. rewrite E1, E2, E3. cbn.
    split; [reflexivity | repeat constructor; assumption].
  - inversion Hb as [|? ? Ha Hb1]; subst.
    inversion Hb1 as [|? ? Hbb Hb2]; subst.
    inversion Hb2 as [|? ? Hc Hrest]; subst.
    destruct (IH Hrest) as [IHlen IHsafe].
    destruct (digits_facts a b Ha Hbb)
      as [((_ & c1 & E1 & S1) & (_ & c2 & E2 & S2) & _) _].
    destruct (digits_facts b c Hbb Hc)
      as [(_ & _ & (_ & c3 & E3 & S3) & _) _].
    destruct (digits_facts c c Hc Hc)
      as [(_ & _ & _ & (_ & c4 & E4 & S4) & _) _].
    cbn [base64url]. rewrite E1, E2, E3, E4.
    cbn [append list_ascii_of_string List.length]. split.
    + rewrite !Nat2Z.inj_succ, IHlen.
      replace (4 * Z.succ (Z.succ (Z.succ (Z.of_nat (List.length rest)))) + 2)
        with ((4 * Z.of_nat (List.length rest) + 2) + 4 * 3) by lia.
      rewrite Z.div_add by lia. lia.
    + repeat (constructor; [assumption|]). exact IHsafe.
Qed.

Lemma triple_digits_safe (a b c : Z) :
  is_byte a -> is_byte b -> is_byte c -> Forall safe_digit (triple_digits a b c).
Proof.
  intros Ha Hb Hc.
  destruct (digits_facts a b Ha Hb) as [(D1 & D2 & _) _].
  destruct (digits_facts b c Hb Hc) as [(_ & _ & D3 & _) _].
  destruct (digits_facts c c Hc Hc) as [(_ & _ & _ & D4 & _) _].
  unfold triple_digits.
  repeat (apply Forall_cons; [assumption|]). apply Forall_nil.
Qed.

(** The three bytes can be read back from their four digits. *)
Lemma triple_digits_inj (a b c a' b' c' : Z) :
  is_byte a -> is_byte b -> is_byte c ->
  is_byte a' -> is_byte b' -> is_byte c' ->
  triple_digits a b c = triple_digits a' b' c' ->
  a = a' /\ b = b' /\ c = c'.
Proof.
  intros Ha Hb Hc Ha' Hb' Hc' E.
  pose proof (f_equal (fun l => nth 0 l 0) E) as E1.
  pose proof (f_equal (fun l => nth 1 l 0) E) as E2.
  pose proof (f_equal (fun l => nth 2 l 0) E) as E3.
  pose proof (f_equal (fun l => nth 3 l 0) E) as E4.
  cbn [nth triple_digits] in E1, E2, E3, E4.
  destruct (digits_facts a b Ha Hb) as [_ (A1 & A2 & _)].
  destruct (digits_facts a' b' Ha' Hb') as [_ (A1' & A2' & _)].
  destruct (digits_facts b c Hb Hc) as [_ (_ & _ & B3 & B4 & B5)].
  destruct (digits_facts b' c' Hb' Hc') as [_ (_ & _ & B3' & B4' & B5')].
  split; [|split].
  - rewrite A1, A1', E1, E2. reflexivity.
  - rewrite B5, B5', A2, A2', B3, B3', E2, E3. reflexivity.
  - rewrite B4, B4', E3, E4. reflexivity.
Qed.

Lemma digits_text_inj (ds ds' : list Z) :
  Forall safe_digit ds -> Forall safe_digit ds' ->
  List.length ds = List.length ds' ->
  digits_text ds = digits_text ds' -> ds = ds'.
Proof.
  intros Hs. revert ds'. induction Hs as [|d ds Hd Hs IH];
    intros [|d' ds'] Hs' Hl E; try discriminate; [reflexivity|].
  inversion Hs' as [|? ? Hd' Hs'']; subst.
  destruct Hd as (Hr & c & Ec & _), Hd' as (Hr' & c' & Ec' & _).
  cbn in E. rewrite Ec, Ec' in E. cbn in E. injection E as Ecc Et.
  f_equal.
  - apply b64_injective; [exact Hr | exact Hr' | congruence].
  - apply IH; [exact Hs'' | now injection Hl | exact Et].
Qed.

(** The code of [nanoid(8)] is the text of the base64 digits of the first
    six bytes. *)
Lemma nanoid8_digits (a b c d e f : Z) (rest : list Z) :
  is_byte a -> is_byte b -> is_byte c -> is_byte d -> is_byte e -> is_byte f ->
  fst (nanoid 8 (a :: b :: c :: d :: e :: f :: rest))
  = digits_text (triple_digits a b c ++ triple_digits d e f).
Proof.
  intros Ha Hb Hc Hd He Hf.
  destruct (digits_facts a b Ha Hb)
    as [((_ & c1 & E1 & _) & (_ & c2 & E2 & _) & _) _].
  destruct (digits_facts b c Hb Hc) as [(_ & _ & (_ & c3 & E3 & _) & _) _].
  destruct (digits_facts c c Hc Hc) as [(_ & _ & _ & (_ & c4 & E4 & _) & _) _].
  destruct (digits_facts d e Hd He)
    as [((_ & c5 & E5 & _) & (_ & c6 & E6 & _) & _) _].
  destruct (digits_facts e f He Hf) as [(_ & _ & (_ & c7 & E7 & _) & _) _].
  destruct (digits_facts f f Hf Hf) as [(_ & _ & _ & (_ & c8 & E8 & _) & _) _].
  unfold nanoid, digits_text, triple_digits.
  cbn [fst firstn base64url app fold_right].
  rewrite E1, E2, E3, E4, E5, E6, E7, E8.
  cbn [append substring].
  match goal with |- context [substring 0 0 ?t] => now destruct t end.
Qed.

Lemma six_bytes (rng : list Z) :
  (6 <= List.length rng)%nat ->
  exists a b c d e f rest, rng = a :: b :: c :: d :: e :: f :: rest.
Proof.
  destruct rng as [|a [|b [|c [|d [|e [|f rest]]]]]]; cbn; try lia.
  intros _. now exists a, b, c, d, e, f, rest.
Qed.

Lemma firstn_all_in {A : Type} (P : A -> Prop) (n : nat) (t : list A) :
  Forall P t -> Forall P (firstn n t).
Proof.
  intros Hall. revert n. induction Hall as [|x t Hx Hall IH]; intros [|n]; cbn;
    constructor; auto.
Qed.

(** X17. [nanoid(size)] returns exactly [size] characters, all of them
    letters, digits, [-] or [_], whenever the random source holds [size]
    bytes, and takes exactly [size] bytes from the source. *)
Theorem nanoid_shape (size : nat) (rng : list Z) :
  (size <= List.length rng)%nat ->
  Forall is_byte rng ->
  String.length (fst (nanoid size rng)) = size
  /\ Forall (fun c => url_safe c = true)
       (list_ascii_of_string (fst (nanoid size rng)))
  /\ (List.length (snd (nanoid size rng)) = List.length rng - size)%nat.
Proof.
  intros Hlen Hb. unfold nanoid. cbn [fst snd].
  destruct (base64url_chars (firstn size rng) (firstn_all_in _ size rng Hb))
    as [Hl Hs].
  rewrite length_firstn, Nat.min_l in Hl by exact Hlen.
  split; [|split].
  - rewrite chars_length, chars_prefix, length_firstn. apply Nat.min_l.
    assert (Z.of_nat size <= (4 * Z.of_nat size + 2) / 3).
    { apply Z.div_le_lower_bound; lia. }
    lia.
  - rewrite chars_prefix. now apply firstn_all_in.
  - apply length_skipn.
Qed.

(** X18. The code of [nanoid(8)] is the first six of its eight random
    bytes, digit for digit: two sources that hold six bytes or more give
    the same code exactly when their first six bytes are the same. The
    seventh and eighth byte have no part in the code, and no two different
    six-byte prefixes share a code. *)
Theorem nanoid_code_is_six_bytes (rng rng' : list Z) :
  (6 <= List.length rng)%nat ->
  (6 <= List.length rng')%nat ->
  Forall is_byte (firstn 6 rng) ->
  Forall is_byte (firstn 6 rng') ->
  fst (nanoid 8 rng) = fst (nanoid 8 rng') <-> firstn 6 rng = firstn 6 rng'.
Proof.
  intros Hl Hl' Hb Hb'.
  destruct (six_bytes rng Hl) as (a & b & c & d & e & f & rest & ->).
  destruct (six_bytes rng' Hl') as (a' & b' & c' & d' & e' & f' & rest' & ->).
  cbn [firstn] in *.
  repeat match goal with
         | Hx : Forall is_byte (_ :: _) |- _ =>
             let B := fresh "B" in
             inversion Hx as [|? ? B ?]; subst; clear Hx
         end.
  rewrite !nanoid8_digits by assumption. split.
  - intros E. apply digits_text_inj in E.
    + assert (E1 : triple_digits a b c = triple_digits a' b' c')
        by exact (f_equal (firstn 4) E).
      assert (E2 : triple_digits d e f = triple_digits d' e' f')
        by exact (f_equal (skipn 4) E).
      apply triple_digits_inj in E1; try assumption.
      apply triple_digits_inj in E2; try assumption.
      destruct E1 as (-> & -> & ->), E2 as (-> & -> & ->). reflexivity.
    + apply Forall_app. split; now apply triple_digits_safe.
    + apply Forall_app. split; now apply triple_digits_safe.
    + reflexivity.
  - intros E. injection E as -> -> -> -> -> ->. reflexivity.
Qed.

Lemma nanoid_shape_witness :
  (8 <= List.length (rng Sample.at200))%nat
  /\ Forall is_byte (rng Sample.at200)
  /\ String.length (fst (nanoid 8 (rng Sample.at200))) = 8%nat.
Proof.
  assert (Hl : (8 <= List.length (rng Sample.at200))%nat) by (simpl; lia).
  assert (Hb : Forall is_byte (rng Sample.at200))
    by (simpl; repeat (apply Forall_cons; [unfold is_byte; lia|]);
        apply Forall_nil).
  split; [exact Hl|]. split; [exact Hb|].
  exact (proj1 (nanoid_shape 8 (rng Sample.at200) Hl Hb)).
Defined.

Lemma nanoid_code_is_six_bytes_witness :
  Forall is_byte (firstn 6 [0; 1; 2; 3; 4; 5; 6; 7])
  /\ Forall is_byte (firstn 6 [0; 1; 2; 3; 4; 5; 200; 100])
  /\ fst (nanoid 8 [0; 1; 2; 3; 4; 5; 6; 7])
     = fst (nanoid 8 [0; 1; 2; 3; 4; 5; 200; 100]).
Proof.
  assert (Hb : Forall is_byte (firstn 6 [0; 1; 2; 3; 4; 5; 6; 7]))
    by (simpl; repeat (apply Forall_cons; [unfold is_byte; lia|]);
        apply Forall_nil).
  assert (Hb' : Forall is_byte (firstn 6 [0; 1; 2; 3; 4; 5; 200; 100]))
    by (simpl; repeat (apply Forall_cons; [unfold is_byte; lia|]);
        apply Forall_nil).
  assert (Hl : (6 <= List.length [0; 1; 2; 3; 4; 5; 6; 7])%nat) by (simpl; lia).
  assert (Hl' : (6 <= List.length [0; 1; 2; 3; 4; 5; 200; 100])%nat)
    by (simpl; lia).
  split; [exact Hb|]. split; [exact Hb'|].
  exact (proj2 (nanoid_code_is_six_bytes [0; 1; 2; 3; 4; 5; 6; 7]
                  [0; 1; 2; 3; 4; 5; 200; 100] Hl Hl' Hb Hb') eq_refl).
Defined.

(** ** Uniqueness over all requests *)

Section UniquenessKept.
Context `{Platform} `{TokenIssuer}.

Lemma express_handle_emails (q : request) (db : Db.database) :
  Db.unique_emails db -> Db.unique_emails (express_handle q db).
Proof.
  intros Hu. unfold Db.unique_emails in *.
  destruct q as [a body h e|origin code pw lpw e|q|body e]; cbn [express_handle].
  - destruct (express_post_cases a body e db) as [[-> _]|(url & _ & ->)];
      [exact Hu|].
    destruct (express_insert_rows (option_map auth_id (Express.req_user a))
                url body e db) as [-> _]. exact Hu.
  - unfold Express.get_r. destruct (Db.findByCode code db) as [qr|]; [|exact Hu].
    destruct (Express.expired qr (now e)); [exact Hu|].
    destruct (Express.password_missing qr pw) as [[|]|]; exact Hu.
  - destruct (express_request_call q db) as [->|(c & _ & _ & ->)]; [exact Hu|].
    destruct c; exact Hu.
  - now apply express_signup_emails.
Qed.

Lemma next_handle_emails (q : request) (db : LibDb.database) :
  LibDb.unique_emails db -> LibDb.unique_emails (next_handle q db).
Proof.
  intros Hu. unfold LibDb.unique_emails in *.
  destruct q as [a body h e|origin code qpw pw e|q|body e]; cbn [next_handle].
  - destruct (next_post_cases a body h e db) as [[-> _]|(url & _ & ->)];
      [exact Hu|].
    destruct (next_insert_rows (option_map auth_id (Next.getAuthUser a))
                url body h e db) as [-> _]. exact Hu.
  - unfold Next.GET_r. destruct (LibDb.findByCode code db) as [qr|]; [|exact Hu].
    destruct (Next.expired qr (now e)); [exact Hu|].
    destruct (Next.password_missing qr pw); exact Hu.
  - destruct (next_request_call q db) as [->|(c & _ & _ & ->)]; [exact Hu|].
    destruct c; exact Hu.
  - now apply next_signup_emails.
Qed.

(** X19. Short codes and emails stay unique. On both back ends, a database
    in which no two records share a short code and no two users share an
    email is still such a database after any requests; so is, in
    particular, every database that grew from an empty one. *)
Theorem uniqueness_is_kept (qs : list request) (db : Db.database)
    (ldb : LibDb.database) :
  Db.unique_codes db ->
  Db.unique_emails db ->
  LibDb.unique_codes ldb ->
  LibDb.unique_emails ldb ->
  (Db.unique_codes (express_run qs db) /\ Db.unique_emails (express_run qs db))
  /\ (LibDb.unique_codes (next_run qs ldb)
      /\ LibDb.unique_emails (next_run qs ldb)).
Proof.
  intros Hc He Hlc Hle. split.
  - split; [now apply express_run_unique|].
    revert db Hc He. induction qs as [|q qs IH]; intros db Hc He; [exact He|].
    apply IH; [now apply express_handle_unique | now apply express_handle_emails].
  - split; [now apply next_run_unique|].
    revert ldb Hlc Hle. induction qs as [|q qs IH]; intros ldb Hlc Hle;
      [exact Hle|].
    apply IH; [now apply next_handle_unique | now apply next_handle_emails].
Qed.

End UniquenessKept.

Lemma uniqueness_is_kept_witness :
  Db.unique_codes Db.empty
  /\ Db.unique_emails Db.empty
  /\ Db.unique_codes
       (@express_run Reference.platform Reference.tokens
          [Signup Sample.carol_body Sample.at200;
           Create NoToken Sample.menu_body Sample.no_headers Sample.at200;
           Create NoToken Sample.menu_body Sample.no_headers Sample.at200]
          Db.empty).
Proof.
  assert (Hc : Db.unique_codes Db.empty) by (unfold Db.unique_codes; simpl; constructor).
  assert (He : Db.unique_emails Db.empty) by (unfold Db.unique_emails; simpl; constructor).
  assert (Hlc : LibDb.unique_codes LibDb.empty)
    by (unfold LibDb.unique_codes; simpl; constructor).
  assert (Hle : LibDb.unique_emails LibDb.empty)
    by (unfold LibDb.unique_emails; simpl; constructor).
  split; [exact Hc|]. split; [exact He|].
  exact (proj1 (proj1 (@uniqueness_is_kept Reference.platform Reference.tokens
           [Signup Sample.carol_body Sample.at200;
            Create NoToken Sample.menu_body Sample.no_headers Sample.at200;
            Create NoToken Sample.menu_body Sample.no_headers Sample.at200]
           Db.empty LibDb.empty Hc He Hlc Hle))).
Defined.

(** ** The forms and the creation routes *)

Lemma express_insert_status `{Platform} (userId : option Z) (url : string)
    (body : create_body) (e : env) (db : Db.database) :
  In (status_of (snd (Express.insert_qr userId url body e db))) [201; 403; 500].
Proof.
  unfold Express.insert_qr.
  destruct (Db.createQR _ _ _ _ _ _ _); cbn; auto.
Qed.

Lemma next_insert_status `{Platform} (userId : option Z) (url : string)
    (body : create_body) (h : Next.headers) (e : env) (db : LibDb.database) :
  In (status_of (snd (Next.insert_qr userId url body h e db))) [201; 403; 500].
Proof.
  unfold Next.insert_qr.
  destruct (LibDb.createQR _ _ _ _ _ _ _); cbn; auto.
Qed.

Lemma express_post_checked `{Platform} (a : authorization) (url protocol : string)
    (e : env) (db : Db.database) :
  url <> "" -> URL url = Some protocol ->
  existsb (String.eqb protocol) ["http:"; "https:"] = true ->
  (Z.of_nat (String.length url) >? 2048) = false ->
  In (status_of (snd (Express.post_api_qr a (posted_body url) e db)))
     [201; 403; 500].
Proof.
  intros Hne Hu Hp Hl. unfold Express.post_api_qr, posted_body.
  cbn [body_url truthy]. apply String.eqb_neq in Hne. rewrite Hne.
  cbn [negb]. rewrite Hu, Hp. cbn [negb]. rewrite Hl.
  destruct (option_map auth_id (Express.req_user a)) as [uid|];
    [|apply express_insert_status].
  destruct (truthy_num (Some uid)); [|apply express_insert_status].
  destruct (Db.findUserById uid db); [|cbn; auto].
  destruct (num_ge _ _); [cbn; auto|apply express_insert_status].
Qed.

Lemma next_post_checked `{Platform} (a : authorization) (url protocol : string)
    (h : Next.headers) (e : env) (db : LibDb.database) :
  url <> "" -> URL url = Some protocol ->
  existsb (String.eqb protocol) ["http:"; "https:"] = true ->
  (Z.of_nat (String.length url) >? 2048) = false ->
  In (status_of (snd (Next.POST_qr a (posted_body url) h e db)))
     [201; 403; 500].
Proof.
  intros Hne Hu Hp Hl. unfold Next.POST_qr, posted_body.
  cbn [body_url truthy]. apply String.eqb_neq in Hne. rewrite Hne.
  cbn [negb]. rewrite Hu, Hp. cbn [negb]. rewrite Hl.
  destruct (option_map auth_id (Next.getAuthUser a)) as [uid|];
    [|apply next_insert_status].
  destruct (truthy_num (Some uid)); [|apply next_insert_status].
  destruct (LibDb.findUserById uid db); [|cbn; auto].
  destruct (num_ge _ _); [cbn; auto|apply next_insert_status].
Qed.

Lemma express_post_refused `{Platform} (a : authorization) (url : string)
    (e : env) (db : Db.database) :
  match URL url with
  | Some protocol =>
      existsb (String.eqb protocol) ["http:"; "https:"] = true ->
      (Z.of_nat (String.length url) >? 2048) = true
  | None => True
  end ->
  fst (Express.post_api_qr a (posted_body url) e db) = db
  /\ status_of (snd (Express.post_api_qr a (posted_body url) e db)) = 400.
Proof.
  intros Hu. unfold Express.post_api_qr, posted_body. cbn [body_url].
  destruct (negb (truthy (Some url))); [now split|].
  destruct (URL url) as [protocol|]; [|now split].
  destruct (existsb _ _); [|now split].
  rewrite (Hu eq_refl). now split.
Qed.

Lemma next_post_refused `{Platform} (a : authorization) (url : string)
    (h : Next.headers) (e : env) (db : LibDb.database) :
  match URL url with
  | Some protocol =>
      existsb (String.eqb protocol) ["http:"; "https:"] = true ->
      (Z.of_nat (String.length url) >? 2048) = true
  | None => True
  end ->
  fst (Next.POST_qr a (posted_body url) h e db) = db
  /\ status_of (snd (Next.POST_qr a (posted_body url) h e db)) = 400.
Proof.
  intros Hu. unfold Next.POST_qr, posted_body. cbn [body_url].
  destruct (negb (truthy (Some url))); [now split|].
  destruct (URL url) as [protocol|]; [|now split].
  destruct (existsb _ _); [|now split].
  rewrite (Hu eq_refl). now split.
Qed.

(** X20. The form of the Next.js application and its creation route. When
    [generate] sends a request, the text parses as a URL; with the protocol
    http: or https: the route never answers 400 (it answers 201, 403 or
    500), and with any other protocol the form has shown "Valid link" and
    the route refuses with 400 "Only HTTP/HTTPS URLs allowed", storing
    nothing. When [generate] sends nothing for a text that is not blank,
    the route would have refused that text with 400 too. *)
Theorem form_and_creation_route `{Platform} (trim : string -> string)
    (a : authorization) (url : string) (h : Next.headers) (e : env)
    (db : LibDb.database) :
  trim "" = "" ->
  match QRGenerator.generate trim url with
  | Some body =>
      body = posted_body url
      /\ exists protocol,
           URL url = Some protocol
           /\ if existsb (String.eqb protocol) ["http:"; "https:"]
              then In (status_of (snd (Next.POST_qr a body h e db)))
                      [201; 403; 500]
              else message (QRGenerator.validateUrl trim url) = "✓ Valid link"
                   /\ Next.POST_qr a body h e db
                      = (db, error 400 "Only HTTP/HTTPS URLs allowed")
  | None =>
      trim url <> "" ->
      fst (Next.POST_qr a (posted_body url) h e db) = db
      /\ status_of (snd (Next.POST_qr a (posted_body url) h e db)) = 400
  end.
Proof.
  intros Htrim. unfold QRGenerator.generate, QRGenerator.validateUrl.
  cbn [truthy].
  destruct (String.eqb (trim url) "") eqn:Hblank; cbn [negb valid].
  - intros Hne. apply String.eqb_eq in Hblank. contradiction.
  - assert (Hurl : url <> "").
    { intros ->. rewrite Htrim in Hblank. discriminate. }
    destruct (Z.of_nat (String.length url) >? 2048) eqn:Hlen; cbn [negb valid].
    { intros _. apply next_post_refused. now destruct (URL url). }
    destruct (URL url) as [protocol|] eqn:Hu.
    + cbn [existsb].
      destruct (String.eqb protocol "http:") eqn:Hhttp; cbn [negb valid orb].
      { split; [reflexivity|]. exists protocol. split; [reflexivity|].
        cbn [existsb]. rewrite Hhttp. cbn [orb].
        apply (next_post_checked a url protocol h e db Hurl Hu); [|exact Hlen].
        cbn [existsb]. now rewrite Hhttp. }
      destruct (String.eqb protocol "https:") eqn:Hhttps; cbn [negb valid orb].
      { split; [reflexivity|]. exists protocol. split; [reflexivity|].
        cbn [existsb]. rewrite Hhttp, Hhttps. cbn [orb].
        apply (next_post_checked a url protocol h e db Hurl Hu); [|exact Hlen].
        cbn [existsb]. now rewrite Hhttp, Hhttps. }
      split; [reflexivity|]. exists protocol. split; [reflexivity|].
      cbn [existsb]. rewrite Hhttp, Hhttps. cbn [orb].
      split; [reflexivity|].
      unfold Next.POST_qr, posted_body. cbn [body_url truthy].
      apply String.eqb_neq in Hurl. rewrite Hurl. cbn [negb].
      rewrite Hu. cbn [existsb]. now rewrite Hhttp, Hhttps.
    + destruct (URL ("https://" ++ url)); cbn [negb valid];
        intros _; apply next_post_refused; now rewrite Hu.
Qed.

Lemma form_and_creation_route_witness :
  ascii_trim "" = ""
  /\ Next.POST_qr (H := Reference.platform) NoToken
       (posted_body "mailto:team@example.com") Sample.no_headers Sample.at200
       Sample.N.db
     = (Sample.N.db, error 400 "Only HTTP/HTTPS URLs allowed").
Proof.
  split; [reflexivity|].
  pose proof (@form_and_creation_route Reference.platform ascii_trim NoToken
                "mailto:team@example.com" Sample.no_headers Sample.at200
                Sample.N.db eq_refl) as W.
  destruct W as [_ [protocol [Hu W]]].
  vm_compute in Hu. injection Hu as <-. exact (proj2 W).
Defined.

(** X21. The form that the Express server serves and its creation route.
    [generateQR] posts the trimmed value of the field, and where trimming
    that value again changes nothing the same holds as for the other form:
    the posted text parses as a URL; with the protocol http: or https: the
    route answers 201, 403 or 500, and with any other protocol the form has
    shown "Valid link" and the route refuses with 400 "Only HTTP/HTTPS URLs
    are allowed", storing nothing. When [generateQR] sends nothing for a
    value that is not blank, the route would have refused the trimmed value
    with 400 too. *)
Theorem app_form_and_creation_route `{Platform} (trim : string -> string)
    (a : authorization) (value : string) (e : env) (db : Db.database) :
  trim (trim value) = trim value ->
  match App.generateQR trim value with
  | Some body =>
      body = posted_body (trim value)
      /\ exists protocol,
           URL (trim value) = Some protocol
           /\ if existsb (String.eqb protocol) ["http:"; "https:"]
              then In (status_of (snd (Express.post_api_qr a body e db)))
                      [201; 403; 500]
              else message (App.validateUrl trim (trim value)) = "✓ Valid link"
                   /\ Express.post_api_qr a body e db
                      = (db, error 400 "Only HTTP/HTTPS URLs are allowed")
  | None =>
      trim value <> "" ->
      fst (Express.post_api_qr a (posted_body (trim value)) e db) = db
      /\ status_of (snd (Express.post_api_qr a (posted_body (trim value)) e db))
         = 400
  end.
Proof.
  intros Hidem. unfold App.generateQR, App.validateUrl. rewrite Hidem.
  cbn [truthy].
  destruct (String.eqb (trim value) "") eqn:Hblank; cbn [negb valid orb].
  - intros Hne. apply String.eqb_eq in Hblank. contradiction.
  - assert (Hurl : trim value <> "") by now apply String.eqb_neq.
    destruct (Z.of_nat (String.length (trim value)) >? 2048) eqn:Hlen;
      cbn [negb valid].
    { intros _. apply express_post_refused. now destruct (URL (trim value)). }
    destruct (URL (trim value)) as [protocol|] eqn:Hu.
    + cbn [existsb].
      destruct (String.eqb protocol "http:") eqn:Hhttp; cbn [negb valid orb].
      { split; [reflexivity|]. exists protocol. split; [reflexivity|].
        cbn [existsb]. rewrite Hhttp. cbn [orb].
        apply (express_post_checked a (trim value) protocol e db Hurl Hu);
          [|exact Hlen].
        cbn [existsb]. now rewrite Hhttp. }
      destruct (String.eqb protocol "https:") eqn:Hhttps; cbn [negb valid orb].
      { split; [reflexivity|]. exists protocol. split; [reflexivity|].
        cbn [existsb]. rewrite Hhttp, Hhttps. cbn [orb].
        apply (express_post_checked a (trim value) protocol e db Hurl Hu);
          [|exact Hlen].
        cbn [existsb]. now rewrite Hhttp, Hhttps. }
      split; [reflexivity|]. exists protocol. split; [reflexivity|].
      cbn [existsb]. rewrite Hhttp, Hhttps. cbn [orb].
      split; [reflexivity|].
      unfold Express.post_api_qr, posted_body. cbn [body_url truthy].
      rewrite Hblank. cbn [negb].
      rewrite Hu. cbn [existsb]. now rewrite Hhttp, Hhttps.
    + destruct (URL ("https://" ++ trim value)); cbn [negb valid];
        intros _; apply express_post_refused; now rewrite Hu.
Qed.

Lemma app_form_and_creation_route_witness :
  ascii_trim (ascii_trim "  mailto:team@example.com ")
  = ascii_trim "  mailto:team@example.com "
  /\ Express.post_api_qr (H := Reference.platform) NoToken
       (posted_body "mailto:team@example.com") Sample.at200 Sample.E.db
     = (Sample.E.db, error 400 "Only HTTP/HTTPS URLs are allowed").
Proof.
  split; [reflexivity|].
  pose proof (@app_form_and_creation_route Reference.platform ascii_trim NoToken
                "  mailto:team@example.com " Sample.at200 Sample.E.db eq_refl)
    as W.
  destruct W as [_ [protocol [Hu W]]].
  vm_compute in Hu. injection Hu as <-. exact (proj2 W).
Defined.
